(** * Waste-sorting monitor: frame analysis and dataset conversion

    A shallow embedding of [models/detect_api.py], [models/detect.py] and
    [scripts/convert_taco_to_yolo.py], with the properties of the violation
    classifier, the split allocator and the coordinate converter. *)

From Stdlib Require Import ZArith Lia Bool List Permutation Ascii String.
From Stdlib Require Import Floats.SpecFloat.
From stdpp Require Import gmap strings list.

Local Open Scope string_scope.
Local Open Scope list_scope.
Local Open Scope Z_scope.

(** ** Python values shared by the three scripts *)

(** Exceptions the modelled code can raise. *)
Inductive exn :=
| KeyError (key : Z)
| ValueError
| IndexError
| OverflowError
| ZeroDivisionError
| UnidentifiedImageError.

(** The result of an evaluation that may raise. *)
Inductive res (A : Type) :=
| Ok (a : A)
| Raise (e : exn).
Arguments Ok {A} a.
Arguments Raise {A} e.

Definition res_bind {A B} (r : res A) (k : A -> res B) : res B :=
  match r with
  | Ok a => k a
  | Raise e => Raise e
  end.

Notation "x <-? r ;; k" := (res_bind r (fun x => k))
  (at level 100, r at next level, right associativity).

(** ** Python floats: IEEE 754 binary64

    A Python [float] is a binary64 value.  It is modelled by the
    specification floats of the standard library at precision 53, whose
    operations round to nearest, ties to even, as Python's do. *)
Module Float64.

Definition prec : Z := 53.
Definition emax : Z := 1024.

Definition float := spec_float.

Definition add : float -> float -> float := SFadd prec emax.
Definition mul : float -> float -> float := SFmul prec emax.
Definition div : float -> float -> float := SFdiv prec emax.
Definition ltb : float -> float -> bool := SFltb.
Definition eqb : float -> float -> bool := SFeqb.
Definition leb : float -> float -> bool := SFleb.

Definition is_nan (x : float) : bool :=
  match x with S754_nan => true | _ => false end.

Definition is_finite (x : float) : bool :=
  match x with S754_zero _ | S754_finite _ _ _ => true | _ => false end.

Definition is_zero (x : float) : bool :=
  match x with S754_zero _ => true | _ => false end.

(** [float(z)] for a Python integer [z]: the nearest binary64. *)
Definition of_Z (z : Z) : float := binary_normalize prec emax z 0 false.

(** The binary64 nearest to the ratio [num / den] of two positive
    integers, with sign [s]: what reading a decimal literal gives, and
    what [round] gives back from its decimal digits.  [SFdiv] rounds the
    exact quotient of the two mantissas once. *)
Definition of_ratio (s : bool) (num den : positive) : float :=
  div (S754_finite s num 0) (S754_finite false den 0).

(** [x > y] on floats. *)
Definition gtb (x y : float) : bool := ltb y x.

(** [int(x)]: truncation towards zero. *)
Definition to_int (x : float) : res Z :=
  match x with
  | S754_nan => Raise ValueError
  | S754_infinity _ => Raise OverflowError
  | S754_zero _ => Ok 0
  | S754_finite s m e =>
      Ok (cond_Zopp s (if 0 <=? e then Z.pos m * 2 ^ e
                       else Z.pos m / 2 ^ (- e)))
  end.

(** Python's true division: a zero divisor raises. *)
Definition truediv (x y : float) : res float :=
  if is_zero y then Raise ZeroDivisionError else Ok (div x y).

(** The integer nearest to [num / den], ties to the even one
    ([0 <= num], [0 < den]). *)
Definition round_half_even (num den : Z) : Z :=
  let q := num / den in
  let r := num mod den in
  match 2 * r ?= den with
  | Lt => q
  | Gt => q + 1
  | Eq => if Z.even q then q else q + 1
  end.

(** [|m * 2^e| * 10^k] rounded to the nearest integer, ties to even:
    the digits that a conversion to [k] decimal places prints. *)
Definition scaled_digits (m : positive) (e : Z) (k : nat) : Z :=
  if 0 <=? e then Z.pos m * 2 ^ e * 10 ^ Z.of_nat k
  else round_half_even (Z.pos m * 10 ^ Z.of_nat k) (2 ^ (- e)).

(** [round(x, 3)]: the decimal digits of [x] to three places, read
    back as a float. *)
Definition round3 (x : float) : float :=
  match x with
  | S754_finite s m e =>
      if 0 <=? e then x
      else match scaled_digits m e 3 with
           | Z.pos k => of_ratio s k 1000
           | _ => S754_zero s
           end
  | _ => x
  end.

End Float64.

Abbreviation float := Float64.float.

(** ** Formatting numbers as Python does *)
Module Fmt.

Definition digit (d : Z) : ascii :=
  ascii_of_nat (48 + Z.to_nat d).

(** The decimal digits of [n >= 0], most significant first; [fuel]
    bounds the number of digits. *)
Fixpoint digits_go (fuel : nat) (n : Z) (acc : string) : string :=
  let acc' := String (digit (n mod 10)) acc in
  match fuel with
  | O => acc'
  | S fuel' => if n / 10 =? 0 then acc' else digits_go fuel' (n / 10) acc'
  end.

Definition digits (n : Z) : string :=
  digits_go (Z.to_nat (Z.log2 n)) n "".

(** [str(z)] for an integer. *)
Definition str_int (z : Z) : string :=
  if z <? 0 then "-" +:+ digits (- z) else digits z.

(** The [k] low decimal digits of [r], zero padded. *)
Fixpoint frac_digits (k : nat) (r : Z) : string :=
  match k with
  | O => ""
  | S k' => String (digit (r / 10 ^ Z.of_nat k' mod 10)) (frac_digits k' r)
  end.

Definition sign_str (s : bool) : string := if s then "-" else "".

(** [n / 10^k] printed with [k] decimals. *)
Definition fixed (s : bool) (n : Z) (k : nat) : string :=
  sign_str s +:+ digits (n / 10 ^ Z.of_nat k)
    +:+ (match k with O => "" | _ => "." end)
    +:+ frac_digits k (n mod 10 ^ Z.of_nat k).

(** [f"{x:.kf}"]. *)
Definition format_f (k : nat) (x : float) : string :=
  match x with
  | S754_nan => "nan"
  | S754_infinity s => sign_str s +:+ "inf"
  | S754_zero s => fixed s 0 k
  | S754_finite s m e => fixed s (Float64.scaled_digits m e k) k
  end.

(** [s.upper()] on ASCII letters. *)
Definition upper_ascii (c : ascii) : ascii :=
  let n := nat_of_ascii c in
  if ((97 <=? n) && (n <=? 122))%nat then ascii_of_nat (n - 32) else c.

Fixpoint upper (s : string) : string :=
  match s with
  | EmptyString => EmptyString
  | String c r => String (upper_ascii c) (upper r)
  end.

(** [sep.join(l)]. *)
Fixpoint join (sep : string) (l : list string) : string :=
  match l with
  | [] => ""
  | [x] => x
  | x :: r => x +:+ sep +:+ join sep r
  end.

End Fmt.

(** ** What both inference scripts share *)

(** One entry of [results[0].boxes], the detector's output: the class id
    [int(box.cls[0])], the score [float(box.conf[0])] and the corners
    [map(int, box.xyxy[0])]. *)
Record Box := {
  cls : Z;
  conf : float;
  xyxy : Z * Z * Z * Z
}.

(** What [cv2] draws on a frame. *)
Inductive DrawOp :=
| Rectangle (pt1 pt2 : Z * Z) (color : Z * Z * Z) (thickness : Z)
| PutText (text : string) (org : Z * Z) (scale : float)
          (color : Z * Z * Z) (thickness : Z).

(** A camera frame: an opaque pixel buffer and what was drawn on it. *)
Record Frame := {
  buffer : N;
  overlay : list DrawOp
}.

(** The detector, an external collaborator: from a frame and the
    confidence threshold to the boxes it finds. *)
Definition Detector := Frame -> float -> list Box.

(** [THRESHOLD = 0.50] *)
Definition THRESHOLD : float := Float64.of_ratio false 50 100.

(** [CLASS_MAP = {0: "dry", 1: "wet"}] *)
Definition CLASS_MAP : gmap Z string := {[ 0 := "dry"; 1 := "wet" ]}.

(** [CLASS_MAP[cls_id]] *)
Definition class_map_get (cls_id : Z) : res string :=
  match CLASS_MAP !! cls_id with
  | Some t => Ok t
  | None => Raise (KeyError cls_id)
  end.

(** A [datetime] value. *)
Record datetime := {
  year : Z; month : Z; day : Z;
  hour : Z; minute : Z; second : Z; microsecond : Z
}.

(** [strftime("%Y%m%d_%H%M%S")], for the four-digit years that
    [datetime.now()] returns. *)
Definition strftime_compact (t : datetime) : string :=
  Fmt.frac_digits 4 (year t) +:+ Fmt.frac_digits 2 (month t)
    +:+ Fmt.frac_digits 2 (day t) +:+ "_"
    +:+ Fmt.frac_digits 2 (hour t) +:+ Fmt.frac_digits 2 (minute t)
    +:+ Fmt.frac_digits 2 (second t).

(** [isoformat()] *)
Definition isoformat (t : datetime) : string :=
  Fmt.frac_digits 4 (year t) +:+ "-" +:+ Fmt.frac_digits 2 (month t)
    +:+ "-" +:+ Fmt.frac_digits 2 (day t) +:+ "T"
    +:+ Fmt.frac_digits 2 (hour t) +:+ ":" +:+ Fmt.frac_digits 2 (minute t)
    +:+ ":" +:+ Fmt.frac_digits 2 (second t)
    +:+ (if microsecond t =? 0 then ""
         else "." +:+ Fmt.frac_digits 6 (microsecond t)).

(** What a frame analysis can read and change outside its arguments:
    the wall clock (the [n]-th call of [datetime.now()] returns
    [clock n]) and the image files on disk. *)
Record World := {
  ticks : nat;
  clock : nat -> datetime;
  files : gmap string Frame
}.

(** Computations that read the clock, write files and may raise. *)
Definition M (A : Type) : Type := World -> res A * World.

Definition ret {A} (a : A) : M A := fun w => (Ok a, w).

Definition bind {A B} (c : M A) (k : A -> M B) : M B :=
  fun w => match c w with
           | (Ok a, w') => k a w'
           | (Raise e, w') => (Raise e, w')
           end.

Definition lift {A} (r : res A) : M A := fun w => (r, w).

Notation "x <~ c ;; k" := (bind c (fun x => k))
  (at level 100, c at next level, right associativity).

(** [datetime.now()] *)
Definition datetime_now : M datetime :=
  fun w => (Ok (clock w (ticks w)),
            {| ticks := S (ticks w); clock := clock w; files := files w |}).

(** [cv2.imwrite(path, frame)] *)
Definition imwrite (path : string) (frame : Frame) : M unit :=
  fun w => (Ok tt,
            {| ticks := ticks w; clock := clock w;
               files := <[path := frame]> (files w) |}).

(** [SNAPSHOT_DIR = Path("snapshots")] *)
Definition SNAPSHOT_DIR : string := "snapshots".

(** [a / b] on paths, for a relative [b] with no empty, [.] or [..]
    component: there the path that pathlib builds prints as this
    concatenation, and two such paths under one folder are the same
    file exactly when they are the same string. *)
Definition joinpath (a b : string) : string := a +:+ "/" +:+ b.

(** [save_snapshot], the same in both scripts. *)
Definition save_snapshot (frame : Frame) : M string :=
  now <~ datetime_now ;;
  let timestamp := strftime_compact now in
  let filename := "violation_" +:+ timestamp +:+ ".jpg" in
  let filepath := joinpath SNAPSHOT_DIR filename in
  _ <~ imwrite filepath frame ;;
  ret filepath.

(** An item of a list of floats as an object: its value and the
    position it sits at.  The floats of [confidences] are distinct
    objects, one per [float(...)] call, so the position stands for the
    identity of the object, which [index] looks at before the value. *)
Record Item := {
  position : nat;
  value : float
}.

(** The items of [l], the first at position [i]. *)
Fixpoint items_from (i : nat) (l : list float) : list Item :=
  match l with
  | [] => []
  | x :: rest => {| position := i; value := x |} :: items_from (S i) rest
  end.

(** One step of [max]: a later item replaces the current one only when
    it is greater. *)
Definition max_step (cur item : Item) : Item :=
  if Float64.gtb (value item) (value cur) then item else cur.

(** [max(l)]: one of the objects of [l]. *)
Definition py_max (l : list float) : res Item :=
  match items_from 0 l with
  | [] => Raise ValueError
  | x :: rest => Ok (fold_left max_step rest x)
  end.

(** [l.index(x)] for an object [x] of [l]: the first position whose
    item is [x] itself or is equal to it, [is] or [==], the comparison
    of [list.index].  The two differ for NaN only, the one float that
    is not equal to itself. *)
Fixpoint index_from (i : nat) (l : list float) (x : Item) : res nat :=
  match l with
  | [] => Raise ValueError
  | y :: rest =>
      if (i =? position x)%nat || Float64.eqb y (value x) then Ok i
      else index_from (S i) rest x
  end.

Definition py_index (l : list float) (x : Item) : res nat :=
  index_from 0 l x.

(** [l[i]] *)
Definition py_getitem {A} (l : list A) (i : nat) : res A :=
  match l !! i with
  | Some a => Ok a
  | None => Raise IndexError
  end.

(** ** [models/detect_api.py] *)
Module DetectApi.

(** The dictionary [analyze_frame] returns. *)
Record FrameResult := {
  class : option string;
  wet_dry : option string;
  confidence : option float;
  is_mixed : bool;
  is_violation : bool;
  snapshot_path : option string;
  timestamp : string
}.

(** The loop over [detections] filling [waste_types] and
    [confidences]. *)
Fixpoint collect (detections : list Box)
    (waste_types : list string) (confidences : list float)
    : res (list string * list float) :=
  match detections with
  | [] => Ok (waste_types, confidences)
  | box :: rest =>
      let cls_id := cls box in
      let conf := conf box in
      t <-? class_map_get cls_id ;;
      collect rest (waste_types ++ [t]) (confidences ++ [conf])
  end.

Section WithModel.

(** [MODEL = YOLO("models/best.pt")], loaded once. *)
Variable MODEL : Detector.

Definition analyze_frame (frame : Frame) (correct_bin : string)
    : M FrameResult :=
  let detections := MODEL frame THRESHOLD in
  if (length detections =? 0)%nat then
    now <~ datetime_now ;;
    ret {| class := None; wet_dry := None; confidence := None;
           is_mixed := false; is_violation := false;
           snapshot_path := None; timestamp := isoformat now |}
  else
    lists <~ lift (collect detections [] []) ;;
    let waste_types := fst lists in
    let confidences := snd lists in
    let is_mixed :=
      (1 <? size (list_to_set waste_types : gset string))%nat in
    m <~ lift (py_max confidences) ;;
    top_index <~ lift (py_index confidences m) ;;
    top_type <~ lift (py_getitem waste_types top_index) ;;
    top_conf <~ lift (py_max confidences) ;;
    let is_violation := negb (String.eqb top_type correct_bin) in
    snapshot_path <~
      (if is_violation
       then p <~ save_snapshot frame ;; ret (Some p)
       else ret None) ;;
    now <~ datetime_now ;;
    ret {| class := Some top_type; wet_dry := Some top_type;
           confidence := Some (Float64.round3 (value top_conf));
           is_mixed := is_mixed; is_violation := is_violation;
           snapshot_path := snapshot_path;
           timestamp := isoformat now |}.

End WithModel.

End DetectApi.

(** ** [models/detect.py] *)
Module Detect.

Section WithConfig.

(** The module globals [BIN_TYPE] and [THRESHOLD], which the command
    line sets before the camera loop starts. *)
Variable BIN_TYPE : string.
Variable THRESHOLD : float.

(** The body of the loop over [detections]: it draws on [frame] in
    place and raises the flag. *)
Fixpoint draw_boxes (detections : list Box) (violation : bool)
    (frame : Frame) : res bool * Frame :=
  match detections with
  | [] => (Ok violation, frame)
  | box :: rest =>
      let cls_id := cls box in
      let conf := conf box in
      match class_map_get cls_id with
      | Raise e => (Raise e, frame)
      | Ok waste_type =>
          let '(x1, y1, x2, y2) := xyxy box in
          let wrong_bin := negb (String.eqb waste_type BIN_TYPE) in
          let violation := if wrong_bin then true else violation in
          let color := if negb wrong_bin then (0, 255, 0) else (0, 0, 255) in
          let label := Fmt.upper waste_type +:+ " ("
                         +:+ Fmt.format_f 2 conf +:+ ")" in
          let frame :=
            {| buffer := buffer frame;
               overlay := overlay frame ++
                 [Rectangle (x1, y1) (x2, y2) color 2;
                  PutText label (x1, y1 - 10)
                    (Float64.of_ratio false 8 10) color 2] |} in
          draw_boxes rest violation frame
      end
  end.

(** [detect_and_draw(model, frame)]: the flag it returns (or the
    exception) and the frame object after the call. *)
Definition detect_and_draw (model : Detector) (frame : Frame)
    : res bool * Frame :=
  let detections := model frame THRESHOLD in
  draw_boxes detections false frame.

End WithConfig.

(** What the camera loop reads and leaves behind: the world of the
    snapshots, how many frames were read and keys polled, the frames the
    window showed and the lines printed. *)
Record Session := {
  world : World;
  frames_read : nat;
  keys_polled : nat;
  shown : list Frame;
  printed : list string
}.

(** How one turn of the loop ends: it goes on, it breaks, or an
    exception leaves it. *)
Inductive Step :=
| Next (s : Session)
| Quit (s : Session)
| Crash (e : exn) (s : Session).

Section Camera.

Variable BIN_TYPE : string.
Variable THRESHOLD : float.

(** The devices the loop talks to: [frame.shape] of a pixel buffer, the
    [n]-th [cap.read()] and the [n]-th [cv2.waitKey(1)]. *)
Variable shape : N -> Z * Z * Z.
Variable camera : nat -> bool * Frame.
Variable keyboard : nat -> Z.

(** [print(line)] *)
Definition print (line : string) (s : Session) : Session :=
  {| world := world s; frames_read := frames_read s;
     keys_polled := keys_polled s; shown := shown s;
     printed := printed s ++ [line] |}.

Definition draw_violation_alert (frame : Frame) : Frame :=
  let '(h, w, _) := shape (buffer frame) in
  {| buffer := buffer frame;
     overlay := overlay frame ++
       [Rectangle (0, 0) (w - 1, h - 1) (0, 0, 255) 10;
        PutText "VIOLATION DETECTED!" (50, 80) (Float64.of_Z 2)
          (0, 0, 255) 5] |}.

(** One turn of [while True]. *)
Definition camera_iteration (model : Detector) (s : Session) : Step :=
  let '(ret, frame) := camera (frames_read s) in
  let s := {| world := world s; frames_read := S (frames_read s);
              keys_polled := keys_polled s; shown := shown s;
              printed := printed s |} in
  if negb ret then Next s
  else
    match detect_and_draw BIN_TYPE THRESHOLD model frame with
    | (Raise e, _) => Crash e s
    | (Ok violation, frame) =>
        let '(raised, frame, s) :=
          if violation then
            let frame := draw_violation_alert frame in
            match save_snapshot frame (world s) with
            | (Ok path, w') =>
                (None, frame,
                 print ("🚨 VIOLATION! Snapshot saved → " +:+ path)
                   {| world := w'; frames_read := frames_read s;
                      keys_polled := keys_polled s; shown := shown s;
                      printed := printed s |})
            | (Raise e, w') =>
                (Some e, frame,
                 {| world := w'; frames_read := frames_read s;
                    keys_polled := keys_polled s; shown := shown s;
                    printed := printed s |})
            end
          else (None, frame, s) in
        match raised with
        | Some e => Crash e s
        | None =>
            let s := {| world := world s; frames_read := frames_read s;
                        keys_polled := keys_polled s;
                        shown := shown s ++ [frame];
                        printed := printed s |} in
            let key := keyboard (keys_polled s) in
            let s := {| world := world s; frames_read := frames_read s;
                        keys_polled := S (keys_polled s);
                        shown := shown s; printed := printed s |} in
            if Z.land key 255 =? 113 then Quit s else Next s
        end
    end.

(** The loop, for at most [fuel] turns; [Next] says it is still
    running after them. *)
Fixpoint camera_loop (model : Detector) (fuel : nat) (s : Session) : Step :=
  match fuel with
  | O => Next s
  | S fuel' =>
      match camera_iteration model s with
      | Next s' => camera_loop model fuel' s'
      | r => r
      end
  end.

End Camera.

End Detect.

(** ** [scripts/convert_taco_to_yolo.py] *)
Module Convert.

(** An entry of [data["images"]]; [width] and [height] may be absent. *)
Record ImageRecord := {
  id : Z;
  file_name : string;
  width : option Z;
  height : option Z
}.

(** An entry of [data["annotations"]]; the box is [x, y, width, height]
    in pixels, read from JSON as floats. *)
Record Annotation := {
  image_id : Z;
  category_id : Z;
  bbox : float * float * float * float
}.

Record Category := {
  cat_id : Z;
  name : string
}.

(** The annotation file once parsed. *)
Record Manifest := {
  images : list ImageRecord;
  annotations : list Annotation;
  categories : list Category
}.

(** What the path of a regular file holds: an image of some size, or
    text.  The disk is the map from these paths to their files; the
    folders, which the script creates as it needs them, are left out. *)
Inductive File :=
| ImageFile (size : Z * Z) (data : N)
| TextFile (content : string).

(** The state the script threads: the disk, what it printed and its
    three counters. *)
Record State := {
  fs : gmap string File;
  stdout : list string;
  copied : Z;
  labeled : Z;
  boxes : Z
}.

(** [print(line)] *)
Definition print (line : string) (st : State) : State :=
  {| fs := fs st; stdout := stdout st ++ [line];
     copied := copied st; labeled := labeled st; boxes := boxes st |}.

(** The pair before and after the last [c] of [s]. *)
Fixpoint rsplit (c : ascii) (s : string) : option (string * string) :=
  match s with
  | EmptyString => None
  | String a r =>
      match rsplit c r with
      | Some (p, q) => Some (String a p, q)
      | None => if Ascii.eqb a c then Some (EmptyString, r) else None
      end
  end.

(** [Path(p).with_suffix(suffix)]: the extension of the last component
    is replaced, or the suffix added when there is none. *)
Definition with_suffix (p : string) (suffix : string) : res string :=
  let '(dir, name) :=
    match rsplit "/" p with
    | Some (d, n) => (d +:+ "/", n)
    | None => ("", p)
    end in
  if String.eqb name "" then Raise ValueError
  else match rsplit "." name with
       | Some (stem, ext) =>
           if String.eqb stem "" || String.eqb ext ""
           then Ok (dir +:+ name +:+ suffix)
           else Ok (dir +:+ stem +:+ suffix)
       | None => Ok (dir +:+ name +:+ suffix)
       end.

(** [l[a:b]] for [0 <= a] and [0 <= b]. *)
Definition slice {A} (l : list A) (a b : Z) : list A :=
  drop (Z.to_nat a) (take (Z.to_nat b) l).

(** [int(c * n)] *)
Definition int_scaled (c : float) (n : nat) : res Z :=
  Float64.to_int (Float64.mul c (Float64.of_Z (Z.of_nat n))).

(** The literals [0.8] and [0.9]. *)
Definition lit_0_8 : float := Float64.of_ratio false 8 10.
Definition lit_0_9 : float := Float64.of_ratio false 9 10.

(** The grouping loop: [anns_by_image.setdefault(k, []).append(ann)]. *)
Definition group_annotations (annotations : list Annotation)
    : gmap Z (list Annotation) :=
  fold_left
    (fun anns_by_image ann =>
       <[image_id ann :=
           default [] (anns_by_image !! image_id ann) ++ [ann]]>
         anns_by_image)
    annotations ∅.

(** [{int(c["id"]): c["name"] for c in data["categories"]}] *)
Definition category_names (cats : list Category) : gmap Z string :=
  fold_left (fun m c => <[cat_id c := name c]> m) cats ∅.

(** The loop building [yolo_lines] for one image of size [w] by [h]. *)
Fixpoint label_lines (anns : list Annotation) (w h : Z)
    (yolo_lines : list string) (boxes : Z) : res (list string * Z) :=
  match anns with
  | [] => Ok (yolo_lines, boxes)
  | ann :: rest =>
      let cat := category_id ann in
      let '(x, y, bw, bh) := bbox ann in
      bw2 <-? Float64.truediv bw (Float64.of_Z 2) ;;
      xc <-? Float64.truediv (Float64.add x bw2) (Float64.of_Z w) ;;
      bh2 <-? Float64.truediv bh (Float64.of_Z 2) ;;
      yc <-? Float64.truediv (Float64.add y bh2) (Float64.of_Z h) ;;
      wn <-? Float64.truediv bw (Float64.of_Z w) ;;
      hn <-? Float64.truediv bh (Float64.of_Z h) ;;
      let line :=
        Fmt.str_int cat +:+ " " +:+ Fmt.format_f 6 xc +:+ " "
          +:+ Fmt.format_f 6 yc +:+ " " +:+ Fmt.format_f 6 wn +:+ " "
          +:+ Fmt.format_f 6 hn in
      label_lines rest w h (yolo_lines ++ [line]) (boxes + 1)
  end.

(** [not v] for an optional integer: absent or zero. *)
Definition falsy (v : option Z) : bool :=
  match v with
  | None => true
  | Some z => z =? 0
  end.

(** [Image.open(path).size] *)
Definition image_size (disk : gmap string File) (path : string)
    : res (Z * Z) :=
  match disk !! path with
  | Some (ImageFile size _) => Ok size
  | _ => Raise UnidentifiedImageError
  end.

Section Script.

(** The folder of the script, and the library calls it relies on:
    the generator behind [random] and [yaml.dump]. *)
Variable ROOT : string.
Variable RngState : Type.
Variable seed : Z -> RngState.
Variable randbelow : RngState -> nat -> nat * RngState.
Variable yaml_dump : string -> gmap Z string -> string.

Definition RAW : string :=
  joinpath (joinpath (joinpath ROOT "data") "raw") "taco".
Definition ANN : string := joinpath RAW "annotations_final.json".
Definition OUT : string := joinpath (joinpath ROOT "data") "taco_yolo".

(** [random.seed(a)]: the generator restarts from [a]. *)
Definition random_seed (a : Z) (g : RngState) : RngState := seed a.

(** [x[i], x[j] = x[j], x[i]] *)
Definition swap (x : list Z) (i j : nat) : res (list Z) :=
  match x !! j, x !! i with
  | Some xj, Some xi => Ok (<[j := xi]> (<[i := xj]> x))
  | _, _ => Raise IndexError
  end.

(** The loop of [random.shuffle]: for [i] from [len(x) - 1] down to
    [1], exchange [x[i]] with [x[randbelow(i + 1)]]. *)
Fixpoint shuffle_from (i : nat) (x : list Z) (g : RngState)
    : res (list Z) * RngState :=
  match i with
  | O => (Ok x, g)
  | S i' =>
      let '(j, g') := randbelow g (i + 1) in
      match swap x i j with
      | Ok x' => shuffle_from i' x' g'
      | Raise e => (Raise e, g')
      end
  end.

(** [random.shuffle(x)] *)
Definition shuffle (x : list Z) (g : RngState) : res (list Z) * RngState :=
  shuffle_from (length x - 1) x g.

(** The three sets [train_ids], [val_ids], [test_ids] of a run that
    finds the generator in state [g0]. *)
Definition splits (data : Manifest) (g0 : RngState)
    : res (gset Z * gset Z * gset Z) :=
  let g := random_seed 42 g0 in
  let image_ids := map id (images data) in
  image_ids <-? fst (shuffle image_ids g) ;;
  let n := length image_ids in
  a <-? int_scaled lit_0_8 n ;;
  b <-? int_scaled lit_0_9 n ;;
  let train_ids : gset Z := list_to_set (slice image_ids 0 a) in
  let val_ids : gset Z := list_to_set (slice image_ids a b) in
  let test_ids : gset Z := list_to_set (drop (Z.to_nat b) image_ids) in
  Ok (train_ids, val_ids, test_ids).

(** The body of the conversion loop for one image. *)
Definition convert_image (train_ids val_ids : gset Z)
    (anns_by_image : gmap Z (list Annotation))
    (st : State) (img : ImageRecord) : res State :=
  let img_id := id img in
  let fname := file_name img in
  let src := joinpath RAW fname in
  match fs st !! src with
  | None => Ok (print ("Missing image: " +:+ src) st)
  | Some content =>
      let split :=
        if decide (img_id ∈ train_ids) then "train"
        else if decide (img_id ∈ val_ids) then "val"
        else "test" in
      let dst_img := joinpath (joinpath (joinpath OUT split) "images") fname in
      let disk := <[dst_img := content]> (fs st) in
      let copied := copied st + 1 in
      wh <-? (if falsy (width img) || falsy (height img)
              then image_size disk dst_img
              else Ok (default 0 (width img), default 0 (height img))) ;;
      lines <-? label_lines (default [] (anns_by_image !! img_id))
                  (fst wh) (snd wh) [] (boxes st) ;;
      let yolo_lines := fst lines in
      lbl <-? with_suffix fname ".txt" ;;
      let dst_lbl := joinpath (joinpath (joinpath OUT split) "labels") lbl in
      let disk := <[dst_lbl := TextFile (Fmt.join "
" yolo_lines)]> disk in
      let labeled :=
        match yolo_lines with
        | [] => labeled st
        | _ => labeled st + 1
        end in
      Ok {| fs := disk; stdout := stdout st; copied := copied;
            labeled := labeled; boxes := snd lines |}
  end.

(** The conversion loop over [images]. *)
Fixpoint convert_loop (train_ids val_ids : gset Z)
    (anns_by_image : gmap Z (list Annotation))
    (imgs : list ImageRecord) (st : State) : res State :=
  match imgs with
  | [] => Ok st
  | img :: rest =>
      st' <-? convert_image train_ids val_ids anns_by_image st img ;;
      convert_loop train_ids val_ids anns_by_image rest st'
  end.

(** The summary printed after the loop. *)
Definition summary (st : State) : list string :=
  ["
----------------------------";
   "Conversion complete!";
   "Images copied: " +:+ Fmt.str_int (copied st);
   "Images with labels: " +:+ Fmt.str_int (labeled st);
   "Total bounding boxes: " +:+ Fmt.str_int (boxes st);
   "----------------------------"].

(** The whole script, run on the parsed annotation file [data] with
    the disk [disk] and the generator in state [g0]. *)
Definition main (data : Manifest) (g0 : RngState)
    (disk : gmap string File) : res State :=
  let st := {| fs := disk; stdout := []; copied := 0; labeled := 0;
               boxes := 0 |} in
  let st := print ("Using annotation file: " +:+ ANN) st in
  let names := category_names (categories data) in
  let anns_by_image := group_annotations (annotations data) in
  sp <-? splits data g0 ;;
  let '(train_ids, val_ids, test_ids) := sp in
  st <-? convert_loop train_ids val_ids anns_by_image (images data) st ;;
  let st := fold_left (fun s line => print line s) (summary st) st in
  let yaml_path := joinpath OUT "data.yaml" in
  let st :=
    {| fs := <[yaml_path := TextFile (yaml_dump OUT names)]> (fs st);
       stdout := stdout st; copied := copied st;
       labeled := labeled st; boxes := boxes st |} in
  let st := print ("Saved: " +:+ yaml_path) st in
  Ok (print ("
🎉 YOLO dataset is ready at: " +:+ OUT) st).

End Script.

End Convert.


(** ** Vocabulary of the statements *)

(** The label of a box, when its class id has one. *)
Definition class_label (b : Box) : option string := CLASS_MAP !! cls b.

(** The class id of a box is one of the two the model was trained on. *)
Definition known_class (b : Box) : Prop := cls b = 0 \/ cls b = 1.

(** The score of a box is a number. *)
Definition scored (b : Box) : Prop := Float64.is_nan (conf b) = false.

(** [box], at position [i] of [dets], is the dominant detection: no box
    has a greater score, and every earlier box has a smaller one. *)
Definition is_dominant (dets : list Box) (i : nat) (box : Box) : Prop :=
  dets !! i = Some box /\
  (forall j b, dets !! j = Some b -> Float64.leb (conf b) (conf box) = true) /\
  (forall j b, (j < i)%nat -> dets !! j = Some b ->
               Float64.ltb (conf b) (conf box) = true).

(** The path [save_snapshot] writes to at time [t]. *)
Definition snapshot_name (t : datetime) : string :=
  joinpath SNAPSHOT_DIR ("violation_" +:+ strftime_compact t +:+ ".jpg").

(** The labels that occur among the boxes, each once. *)
Definition distinct_labels (dets : list Box) : list string :=
  remove_dups (omap class_label dets).

(** [detect_and_draw] colours a box red: its label is not the bin's. *)
Definition wrong_bin (BIN_TYPE : string) (b : Box) : bool :=
  match class_label b with
  | Some t => negb (String.eqb t BIN_TYPE)
  | None => false
  end.

(** The fields of a result that carry the classification. *)
Definition decision (r : DetectApi.FrameResult)
    : option string * option string * option float * bool * bool :=
  (DetectApi.class r, DetectApi.wet_dry r, DetectApi.confidence r,
   DetectApi.is_mixed r, DetectApi.is_violation r).

(** The number a string of decimal digits denotes. *)
Definition digit_value (c : ascii) : Z := Z.of_nat (nat_of_ascii c) - 48.

Fixpoint decimal_value_from (acc : Z) (s : string) : Z :=
  match s with
  | EmptyString => acc
  | String c r => decimal_value_from (10 * acc + digit_value c) r
  end.

Definition decimal_value (s : string) : Z := decimal_value_from 0 s.

Definition is_digit (c : ascii) : bool :=
  (0 <=? digit_value c) && (digit_value c <=? 9).

Fixpoint all_digits (s : string) : bool :=
  match s with
  | EmptyString => true
  | String c r => is_digit c && all_digits r
  end.

(** [n] is an integer nearest to [|x| * 10^k]. *)
Definition nearest_scaled (k : nat) (x : float) (n : Z) : Prop :=
  match x with
  | S754_zero _ => n = 0
  | S754_finite _ m e =>
      if 0 <=? e then n = Z.pos m * 2 ^ e * 10 ^ Z.of_nat k
      else 2 * Z.abs (n * 2 ^ (- e) - Z.pos m * 10 ^ Z.of_nat k) <= 2 ^ (- e)
  | _ => False
  end.

(** [s] prints [x] in fixed notation with exactly six decimals: a sign
    when [x] is negative, the digits of the integer part, a point and six
    digits, which together denote an integer nearest to [|x| * 10^6]. *)
Definition six_decimals (x : float) (s : string) : Prop :=
  exists (neg : bool) (ip fr : string),
    s = Fmt.sign_str neg +:+ ip +:+ "." +:+ fr /\
    ip <> "" /\ all_digits ip = true /\
    String.length fr = 6%nat /\ all_digits fr = true /\
    nearest_scaled 6 x (decimal_value ip * 10 ^ 6 + decimal_value fr).

(** The four numbers of a label line, as the format defines them from a
    box with top-left corner [(x, y)] in an image [W] by [H]. *)
Definition center_x (W : Z) (ann : Convert.Annotation) : float :=
  let '(x, _, bw, _) := Convert.bbox ann in
  Float64.div (Float64.add x (Float64.div bw (Float64.of_Z 2)))
    (Float64.of_Z W).

Definition center_y (H : Z) (ann : Convert.Annotation) : float :=
  let '(_, y, _, bh) := Convert.bbox ann in
  Float64.div (Float64.add y (Float64.div bh (Float64.of_Z 2)))
    (Float64.of_Z H).

Definition norm_width (W : Z) (ann : Convert.Annotation) : float :=
  let '(_, _, bw, _) := Convert.bbox ann in
  Float64.div bw (Float64.of_Z W).

Definition norm_height (H : Z) (ann : Convert.Annotation) : float :=
  let '(_, _, _, bh) := Convert.bbox ann in
  Float64.div bh (Float64.of_Z H).

(** The label line of one annotation. *)
Definition yolo_line (W H : Z) (ann : Convert.Annotation) : string :=
  Fmt.str_int (Convert.category_id ann) +:+ " "
    +:+ Fmt.format_f 6 (center_x W ann) +:+ " "
    +:+ Fmt.format_f 6 (center_y H ann) +:+ " "
    +:+ Fmt.format_f 6 (norm_width W ann) +:+ " "
    +:+ Fmt.format_f 6 (norm_height H ann).

(** The split an image id falls in. *)
Definition split_of (train_ids val_ids : gset Z) (img_id : Z) : string :=
  if decide (img_id ∈ train_ids) then "train"
  else if decide (img_id ∈ val_ids) then "val"
  else "test".

(** Where the image and the label file of [fname] go in a split. *)
Definition image_path (ROOT split fname : string) : string :=
  joinpath (joinpath (joinpath (Convert.OUT ROOT) split) "images") fname.

Definition label_path (ROOT split lbl : string) : string :=
  joinpath (joinpath (joinpath (Convert.OUT ROOT) split) "labels") lbl.

(** The fields of a [datetime] that [strftime] prints are in the range
    of their width. *)
Definition printable (t : datetime) : Prop :=
  0 <= year t < 10000 /\ 0 <= month t < 100 /\ 0 <= day t < 100 /\
  0 <= hour t < 100 /\ 0 <= minute t < 100 /\ 0 <= second t < 100.

(** Two times fall in the same second. *)
Definition same_second (t1 t2 : datetime) : Prop :=
  year t1 = year t2 /\ month t1 = month t2 /\ day t1 = day t2 /\
  hour t1 = hour t2 /\ minute t1 = minute t2 /\ second t1 = second t2.

(** What [detect_and_draw] draws for one box of known class: its
    rectangle and its label, red when the label is not the bin's. *)
Definition box_ops (BIN_TYPE : string) (b : Box) : list DrawOp :=
  match class_label b with
  | Some t =>
      let '(x1, y1, x2, y2) := xyxy b in
      let color := if wrong_bin BIN_TYPE b then (0, 0, 255) else (0, 255, 0) in
      [Rectangle (x1, y1) (x2, y2) color 2;
       PutText (Fmt.upper t +:+ " (" +:+ Fmt.format_f 2 (conf b) +:+ ")")
         (x1, y1 - 10) (Float64.of_ratio false 8 10) color 2]
  | None => []
  end.

(** The two shapes of the alert on a frame of height [h] and width [w]. *)
Definition alert_ops (h w : Z) : list DrawOp :=
  [Rectangle (0, 0) (w - 1, h - 1) (0, 0, 255) 10;
   PutText "VIOLATION DETECTED!" (50, 80) (Float64.of_Z 2) (0, 0, 255) 5].

(** The score of a box is a canonical binary64 between 0 and 1. *)
Definition unit_score (b : Box) : Prop :=
  valid_binary Float64.prec Float64.emax (conf b) = true /\
  Float64.leb (S754_zero false) (conf b) = true /\
  Float64.leb (conf b) (Float64.of_Z 1) = true.

(** The float nearest to [k] thousandths lies in [0,1]. *)
Definition thousandth_in_unit (k : nat) : bool :=
  let x := Float64.of_ratio false (Pos.of_nat k) 1000 in
  Float64.leb (S754_zero false) x && Float64.leb x (Float64.of_Z 1).

(** The line the conversion loop prints for an image it cannot find. *)
Definition missing_line (ROOT : string) (img : Convert.ImageRecord) : string :=
  "Missing image: "
    +:+ joinpath (Convert.RAW ROOT) (Convert.file_name img).

(** The annotations of the manifest that belong to image [i], in the
    order of the manifest. *)
Definition annotations_of (i : Z) (annotations : list Convert.Annotation)
    : list Convert.Annotation :=
  filter (fun ann => Convert.image_id ann = i) annotations.

(** The record [img] with the size [w] by [h] written in. *)
Definition with_size (img : Convert.ImageRecord) (w h : Z)
    : Convert.ImageRecord :=
  {| Convert.id := Convert.id img;
     Convert.file_name := Convert.file_name img;
     Convert.width := Some w; Convert.height := Some h |}.

(** The manifest gives no usable size for [img]: a side is absent or
    zero, the test [not w or not h] of the script. *)
Definition size_unknown (img : Convert.ImageRecord) : bool :=
  Convert.falsy (Convert.width img) || Convert.falsy (Convert.height img).


(** The components of a path, what stands between its slashes. *)
Fixpoint path_parts (s : string) : list string :=
  match s with
  | EmptyString => [""]
  | String c r =>
      if Ascii.eqb c "/" then "" :: path_parts r
      else match path_parts r with
           | part :: parts => String c part :: parts
           | [] => [String c ""]
           end
  end.

(** A file name that the script takes as it is written: a relative path
    none of whose components is empty, [.] or [..].  Under a name that
    is absolute or climbs with [..] the copy, the label file and the
    sources can be one and the same file, which a map from path strings
    does not show; the statements about the files of a whole run are
    made for plain names. *)
Definition plain_name (fname : string) : bool :=
  forallb
    (fun part =>
       negb (String.eqb part "") && negb (String.eqb part ".")
         && negb (String.eqb part ".."))
    (path_parts fname).

(** Whether [p] is a folder of [disk]: some file lies under it. *)
Definition is_folder (disk : gmap string Convert.File) (p : string) : bool :=
  existsb (fun entry => String.prefix (p +:+ "/") (fst entry))
    (map_to_list disk).

(** The records that the statements about a whole run are made for:
    their names are plain and name no folder of the source tree. *)
Definition plain_names (ROOT : string) (disk : gmap string Convert.File)
    (imgs : list Convert.ImageRecord) : bool :=
  forallb
    (fun img =>
       plain_name (Convert.file_name img)
         && negb (is_folder disk
                    (joinpath (Convert.RAW ROOT) (Convert.file_name img))))
    imgs.

(** Whether the file of an image record is on [disk]. *)
Definition on_disk (ROOT : string) (disk : gmap string Convert.File)
    (img : Convert.ImageRecord) : bool :=
  match disk !! joinpath (Convert.RAW ROOT) (Convert.file_name img) with
  | Some _ => true
  | None => false
  end.

(** Whether the manifest has an annotation for the record, and the
    number of annotations it has for the records of a list. *)
Definition has_annotation (annotations : list Convert.Annotation)
    (img : Convert.ImageRecord) : bool :=
  match annotations_of (Convert.id img) annotations with
  | [] => false
  | _ => true
  end.

Definition box_count (annotations : list Convert.Annotation)
    (imgs : list Convert.ImageRecord) : nat :=
  sum_list_with
    (fun img => length (annotations_of (Convert.id img) annotations)) imgs.

(** ** Sample inputs *)

Definition sample_frame : Frame := {| buffer := 7; overlay := [] |}.

(** A clock that advances one second per reading, and an empty disk. *)
Definition sample_world : World :=
  {| ticks := 0;
     clock := fun n => {| year := 2024; month := 3; day := 9; hour := 14;
                          minute := 5; second := Z.of_nat n;
                          microsecond := 0 |};
     files := ∅ |}.

Definition sample_box (c : Z) (num den : positive) : Box :=
  {| cls := c; conf := Float64.of_ratio false num den;
     xyxy := (10, 20, 110, 220) |}.

(** An annotation of category [cat] with the box x=10, y=20,
    width=30, height=40. *)
Definition sample_annotation (cat : Z) : Convert.Annotation :=
  {| Convert.image_id := 1; Convert.category_id := cat;
     Convert.bbox := (Float64.of_Z 10, Float64.of_Z 20,
                      Float64.of_Z 30, Float64.of_Z 40) |}.

(** An image record of size 100 by 200 named after its id. *)
Definition sample_image (i : Z) : Convert.ImageRecord :=
  {| Convert.id := i; Convert.file_name := Fmt.str_int i +:+ ".jpg";
     Convert.width := Some 100; Convert.height := Some 200 |}.

(** Ten images, the first with one annotation. *)
Definition sample_manifest : Convert.Manifest :=
  {| Convert.images := map sample_image [1; 2; 3; 4; 5; 6; 7; 8; 9; 10];
     Convert.annotations := [sample_annotation 3];
     Convert.categories := [{| Convert.cat_id := 3; Convert.name := "Bottle" |}] |}.

(** A manifest with a single image, and one with none. *)
Definition one_image_manifest : Convert.Manifest :=
  {| Convert.images := [sample_image 2];
     Convert.annotations := []; Convert.categories := [] |}.

Definition no_image_manifest : Convert.Manifest :=
  {| Convert.images := []; Convert.annotations := [];
     Convert.categories := [] |}.

(** A disk that holds image 1 only. *)
Definition sample_disk : gmap string Convert.File :=
  {[ "R/data/raw/taco/1.jpg" := Convert.ImageFile (100, 200) 5 ]}.

Definition sample_state : Convert.State :=
  {| Convert.fs := sample_disk; Convert.stdout := [];
     Convert.copied := 0; Convert.labeled := 0; Convert.boxes := 0 |}.

(** A small generator standing for the one of [random]. *)
Definition sample_seed (a : Z) : nat := Z.to_nat a.

Definition sample_randbelow (g : nat) (n : nat) : nat * nat :=
  ((g mod n)%nat, (7 * g + 3)%nat).

Definition sample_yaml (path : string) (names : gmap Z string) : string :=
  "path: " +:+ path.

(** A manifest with the one image that is on the sample disk, and its
    annotation. *)
Definition present_image_manifest : Convert.Manifest :=
  {| Convert.images := [sample_image 1];
     Convert.annotations := [sample_annotation 3];
     Convert.categories := [] |}.

(** The state a run of the script over that manifest ends in. *)
Definition sample_run : Convert.State :=
  match Convert.main "R" nat sample_seed sample_randbelow sample_yaml
          present_image_manifest 0%nat sample_disk with
  | Ok st => st
  | Raise _ => sample_state
  end.




(** An image record without a size, first for the image of the sample
    disk, then for a file that is no image. *)
Definition unsized_image : Convert.ImageRecord :=
  {| Convert.id := 1; Convert.file_name := "1.jpg";
     Convert.width := None; Convert.height := Some 0 |}.



(** A session that has read, shown and printed nothing yet. *)
Definition sample_session : Detect.Session :=
  {| Detect.world := sample_world; Detect.frames_read := 0;
     Detect.keys_polled := 0; Detect.shown := []; Detect.printed := [] |}.

(** Frames of 480 rows and 640 columns. *)
Definition sample_shape (buffer : N) : Z * Z * Z := (480, 640, 3).

(** A camera whose every read succeeds, one whose every read fails, and
    a keyboard on which nobody types ([waitKey] returns -1). *)
Definition sample_camera (n : nat) : bool * Frame := (true, sample_frame).
Definition dead_camera (n : nat) : bool * Frame := (false, sample_frame).
Definition idle_keyboard (n : nat) : Z := -1.

(** * Properties *)

(** ** The order on floats *)
Section FloatOrder.

Lemma SFcompare_swap (x y : float) (c : comparison) :
  SFcompare x y = Some c -> SFcompare y x = Some (CompOpp c).
Proof.
  destruct x as [sx|sx| |sx mx ex], y as [sy|sy| |sy my ey]; simpl;
    try discriminate; intros [= <-]; f_equal;
    repeat match goal with s : bool |- _ => destruct s end;
    try reflexivity;
    change (PosDef.Pos.compare_cont Eq) with Pos.compare;
    rewrite (Z.compare_antisym ex ey), (Pos.compare_antisym mx my);
    destruct (ex ?= ey); simpl; try reflexivity;
    destruct (mx ?= my)%positive; reflexivity.
Qed.

Lemma SFcompare_not_nan (x y : float) :
  Float64.is_nan x = false -> Float64.is_nan y = false ->
  exists c, SFcompare x y = Some c.
Proof.
  destruct x, y; simpl; try discriminate; eauto.
Qed.

Lemma SFcompare_refl (x : float) :
  Float64.is_nan x = false -> SFcompare x x = Some Eq.
Proof.
  destruct x as [s|s| |s m e]; simpl; try discriminate; intros _.
  - reflexivity.
  - destruct s; reflexivity.
  - change (PosDef.Pos.compare_cont Eq) with Pos.compare.
    rewrite Z.compare_refl, Pos.compare_refl. destruct s; reflexivity.
Qed.

Ltac compare_cases :=
  change (PosDef.Pos.compare_cont Eq) with Pos.compare in *;
  repeat match goal with
    | H : context [Z.compare ?a ?b] |- _ =>
        destruct (Z.compare_spec a b); simpl in H
    | |- context [Z.compare ?a ?b] =>
        destruct (Z.compare_spec a b); simpl
    | H : context [Pos.compare ?a ?b] |- _ =>
        destruct (Pos.compare_spec a b); simpl in H
    | |- context [Pos.compare ?a ?b] =>
        destruct (Pos.compare_spec a b); simpl
    end;
  subst; try discriminate; try reflexivity; try lia.

Ltac float_cases x y z :=
  destruct x as [[|]|[|]| |[|] ? ?], y as [[|]|[|]| |[|] ? ?],
           z as [[|]|[|]| |[|] ? ?];
  simpl in *; try discriminate; try reflexivity; compare_cases.

Lemma SFleb_trans (x y z : float) :
  SFleb x y = true -> SFleb y z = true -> SFleb x z = true.
Proof.
  unfold SFleb; intros Hxy Hyz; float_cases x y z.
Qed.

Lemma SFleb_ltb_trans (x y z : float) :
  SFleb x y = true -> SFltb y z = true -> SFltb x z = true.
Proof.
  unfold SFleb, SFltb; intros Hxy Hyz; float_cases x y z.
Qed.

Lemma SFltb_false_leb (x y : float) :
  Float64.is_nan x = false -> Float64.is_nan y = false ->
  SFltb x y = false -> SFleb y x = true.
Proof.
  intros Hx Hy. destruct (SFcompare_not_nan x y Hx Hy) as [c Hc].
  unfold SFltb, SFleb. rewrite Hc, (SFcompare_swap _ _ _ Hc).
  destruct c; simpl; congruence.
Qed.

Lemma SFltb_leb (x y : float) : SFltb x y = true -> SFleb x y = true.
Proof. unfold SFltb, SFleb. destruct (SFcompare x y) as [[]|]; congruence. Qed.

Lemma SFltb_not_eqb (x y : float) : SFltb x y = true -> SFeqb x y = false.
Proof. unfold SFltb, SFeqb. destruct (SFcompare x y) as [[]|]; congruence. Qed.

Lemma SFeqb_refl (x : float) : Float64.is_nan x = false -> SFeqb x x = true.
Proof. intros H. unfold SFeqb. now rewrite SFcompare_refl. Qed.

Lemma SFleb_refl (x : float) : Float64.is_nan x = false -> SFleb x x = true.
Proof. intros H. unfold SFleb. now rewrite SFcompare_refl. Qed.

Lemma SFltb_irrefl (x : float) : SFltb x x = false.
Proof.
  unfold SFltb. destruct (Float64.is_nan x) eqn:E.
  - destruct x; try discriminate; reflexivity.
  - now rewrite SFcompare_refl.
Qed.

Lemma SFleb_antisym_ltb (x y : float) :
  SFleb x y = true -> SFltb y x = false.
Proof.
  unfold SFleb, SFltb. destruct (SFcompare x y) as [c|] eqn:E; [|discriminate].
  rewrite (SFcompare_swap _ _ _ E). destruct c; simpl; congruence.
Qed.

End FloatOrder.

(** ** Conversions and products of floats *)
Section FloatArith.

Lemma digits2_pos_size (p : positive) : digits2_pos p = Pos.size p.
Proof. induction p; simpl; congruence. Qed.

Lemma digits2_pos_iter_xO (k : positive) (p : positive) :
  digits2_pos (Pos.iter xO p k) = (digits2_pos p + k)%positive.
Proof.
  induction k using Pos.peano_ind.
  - simpl. lia.
  - rewrite Pos.iter_succ. simpl. rewrite IHk. lia.
Qed.

Lemma iter_xO_value (k p : positive) :
  Z.pos (Pos.iter xO p k) = Z.pos p * 2 ^ Z.pos k.
Proof.
  induction k using Pos.peano_ind.
  - simpl. lia.
  - rewrite Pos.iter_succ. rewrite Pos2Z.inj_xO, IHk.
    rewrite Pos2Z.inj_succ, Z.pow_succ_r by lia. lia.
Qed.

Lemma digits2_pos_lt (p : positive) : Z.pos p < 2 ^ Z.pos (digits2_pos p).
Proof.
  rewrite digits2_pos_size.
  pose proof (Pos.size_gt p) as H.
  apply Pos2Z.pos_lt_pos in H. rewrite Pos2Z.inj_pow in H. exact H.
Qed.

Lemma digits2_pos_le (p : positive) : 2 ^ Z.pos (digits2_pos p) <= 2 * Z.pos p.
Proof.
  rewrite digits2_pos_size.
  pose proof (Pos.size_le p) as H.
  apply Pos2Z.pos_le_pos in H. rewrite Pos2Z.inj_pow in H. exact H.
Qed.

Lemma digits2_pos_small (p : positive) (k : Z) :
  0 <= k -> Z.pos p < 2 ^ k -> Z.pos (digits2_pos p) <= k.
Proof.
  intros Hk Hp. pose proof (digits2_pos_le p) as H.
  destruct (Z_le_gt_dec (Z.pos (digits2_pos p)) k) as [|Hgt]; [assumption|].
  assert (2 ^ (k + 1) <= 2 ^ Z.pos (digits2_pos p))
    by (apply Z.pow_le_mono_r; lia).
  rewrite Z.pow_add_r in H0 by lia. lia.
Qed.

Lemma binary_round_aux_canonical (s : bool) (m : positive) (e : Z) :
  Z.pos (digits2_pos m) = 53 -> -1074 <= e <= 971 ->
  binary_round_aux 53 1024 s (Z.pos m) e loc_Exact = S754_finite s m e.
Proof.
  intros Hd He.
  assert (H0 : fexp 53 1024 (Z.pos (digits2_pos m) + e) - e = 0).
  { rewrite Hd. unfold fexp, emin. lia. }
  unfold binary_round_aux, shr_fexp. cbn [Zdigits2 shr_record_of_loc].
  rewrite H0. cbn [shr shr_m loc_of_shr_record round_nearest_even Zdigits2].
  rewrite H0. cbn [shr shr_m].
  destruct (e <=? 1024 - 53) eqn:El; [reflexivity|lia].
Qed.

Lemma of_Z_pos_small (p : positive) :
  Z.pos p < 2 ^ 53 ->
  exists m e,
    Float64.of_Z (Z.pos p) = S754_finite false m e /\
    -52 <= e <= 0 /\ Z.pos m = Z.pos p * 2 ^ (- e) /\
    Z.pos (digits2_pos m) = 53.
Proof.
  intros Hp.
  pose proof (digits2_pos_small p 53 ltac:(lia) Hp) as Hd.
  unfold Float64.of_Z, Float64.prec, Float64.emax, binary_normalize, binary_round.
  rewrite Z.add_0_r.
  set (d := Z.pos (digits2_pos p)) in *.
  assert (Hfexp : fexp 53 1024 d = d - 53).
  { unfold fexp, emin. lia. }
  rewrite Hfexp. unfold shl_align.
  destruct (d - 53 - 0) as [|k|k] eqn:E; try lia.
  - exists p, 0. split; [|split; [lia|split; [simpl; lia|lia]]].
    apply binary_round_aux_canonical; lia.
  - exists (Pos.iter xO p k), (d - 53).
    assert (Hk : Z.pos k = 53 - d) by lia.
    assert (Hdig : Z.pos (digits2_pos (Pos.iter xO p k)) = 53).
    { rewrite digits2_pos_iter_xO, Pos2Z.inj_add. fold d. lia. }
    split; [|split; [lia|split]].
    + apply binary_round_aux_canonical; [exact Hdig|lia].
    + rewrite iter_xO_value. f_equal. f_equal. lia.
    + exact Hdig.
Qed.

Lemma shr_1_m (r : shr_record) :
  0 <= shr_m r -> shr_m (shr_1 r) = shr_m r / 2.
Proof.
  destruct r as [m rb sb]. simpl. intros Hm.
  destruct m as [|[p|p|]|p]; cbn [shr_m]; try lia.
  - reflexivity.
  - apply Z.div_unique with (r := 1); lia.
  - apply Z.div_unique with (r := 0); lia.
  - reflexivity.
Qed.

Lemma shr_iter_m (k : positive) (r : shr_record) :
  0 <= shr_m r ->
  shr_m (SpecFloat.iter_pos shr_1 k r) = shr_m r / 2 ^ Z.pos k.
Proof.
  revert r. induction k as [k IH|k IH|]; intros r Hr.
  - cbn [SpecFloat.iter_pos].
    assert (H1 : 0 <= shr_m (shr_1 r)).
    { rewrite shr_1_m by assumption. apply Z.div_pos; lia. }
    assert (H2 : 0 <= shr_m (SpecFloat.iter_pos shr_1 k (shr_1 r))).
    { rewrite IH by assumption. apply Z.div_pos; lia. }
    rewrite IH, IH, shr_1_m by assumption.
    rewrite !Z.div_div by lia. f_equal.
    assert (E : Z.pos k~1 = 1 + Z.pos k + Z.pos k) by lia.
    rewrite E, !Z.pow_add_r by lia. change (2 ^ 1) with 2. ring.
  - cbn [SpecFloat.iter_pos].
    assert (H2 : 0 <= shr_m (SpecFloat.iter_pos shr_1 k r)).
    { rewrite IH by assumption. apply Z.div_pos; lia. }
    rewrite IH, IH by assumption.
    rewrite !Z.div_div by lia. f_equal.
    assert (E : Z.pos k~0 = Z.pos k + Z.pos k) by lia.
    rewrite E, Z.pow_add_r by lia. reflexivity.
  - cbn [SpecFloat.iter_pos]. rewrite shr_1_m by assumption. reflexivity.
Qed.

Lemma digits2_pos_unique (p : positive) (k : Z) :
  2 ^ (k - 1) <= Z.pos p < 2 ^ k -> Z.pos (digits2_pos p) = k.
Proof.
  intros [Hlo Hhi].
  assert (Hk : 0 < k).
  { destruct k as [|k|k];
      [simpl in Hhi; lia|lia|rewrite Z.pow_neg_r in Hhi by lia; lia]. }
  pose proof (digits2_pos_lt p) as H1.
  pose proof (digits2_pos_le p) as H2.
  set (d := Z.pos (digits2_pos p)) in *.
  destruct (Z.lt_trichotomy d k) as [H|[H|H]]; [|assumption|].
  - assert (2 ^ d <= 2 ^ (k - 1)) by (apply Z.pow_le_mono_r; lia). lia.
  - assert (2 ^ (k + 1) <= 2 ^ d) by (apply Z.pow_le_mono_r; lia).
    rewrite Z.pow_add_r in H0 by lia. lia.
Qed.

Lemma round_nearest_even_cases (m : Z) (l : location) :
  round_nearest_even m l = m \/ round_nearest_even m l = m + 1.
Proof.
  destruct l as [|[| |]]; simpl; auto. destruct (Z.even m); auto.
Qed.

Lemma shr_fexp_exact_canonical (m : positive) (e : Z) :
  Z.pos (digits2_pos m) = 53 -> -1074 <= e ->
  shr_fexp 53 1024 (Z.pos m) e loc_Exact =
    ({| shr_m := Z.pos m; shr_r := false; shr_s := false |}, e).
Proof.
  intros Hd He. unfold shr_fexp. cbn [Zdigits2 shr_record_of_loc].
  replace (fexp 53 1024 (Z.pos (digits2_pos m) + e) - e) with 0
    by (rewrite Hd; unfold fexp, emin; lia).
  reflexivity.
Qed.

Lemma binary_round_aux_shift (P : positive) (e : Z) :
  53 < Z.pos (digits2_pos P) ->
  -1074 <= e + Z.pos (digits2_pos P) - 53 ->
  e + Z.pos (digits2_pos P) - 53 + 1 <= 971 ->
  exists M E j,
    binary_round_aux 53 1024 false (Z.pos P) e loc_Exact
      = S754_finite false M E /\
    (j = 0 \/ j = 1) /\
    E = e + (Z.pos (digits2_pos P) - 53) + j /\
    (Z.pos M * 2 ^ j = Z.pos P / 2 ^ (Z.pos (digits2_pos P) - 53) \/
     Z.pos M * 2 ^ j = Z.pos P / 2 ^ (Z.pos (digits2_pos P) - 53) + 1).
Proof.
  intros HD Hlo Hhi.
  set (D := Z.pos (digits2_pos P)) in *.
  pose proof (digits2_pos_lt P) as HPhi.
  pose proof (digits2_pos_le P) as HPlo. fold D in HPhi, HPlo.
  destruct (D - 53) as [|s|s] eqn:Es; try lia.
  set (q := Z.pos P / 2 ^ Z.pos s).
  assert (Hq : 2 ^ 52 <= q < 2 ^ 53).
  { assert (HD' : D = 53 + Z.pos s) by lia.
    rewrite HD' in HPhi, HPlo. rewrite Z.pow_add_r in HPhi, HPlo by lia.
    assert (0 < 2 ^ Z.pos s) by (apply Z.pow_pos_nonneg; lia).
    unfold q. split.
    - apply Z.div_le_lower_bound; [lia|].
      change (2 ^ 53) with (2 * 2 ^ 52) in HPlo. nia.
    - apply Z.div_lt_upper_bound; [lia|]. nia. }
  unfold binary_round_aux.
  assert (Hshr1 : shr_fexp 53 1024 (Z.pos P) e loc_Exact =
            (SpecFloat.iter_pos shr_1 s
               {| shr_m := Z.pos P; shr_r := false; shr_s := false |},
             e + Z.pos s)).
  { unfold shr_fexp. cbn [Zdigits2 shr_record_of_loc]. fold D.
    replace (fexp 53 1024 (D + e) - e) with (Z.pos s)
      by (unfold fexp, emin; lia).
    reflexivity. }
  rewrite Hshr1.
  set (mrs := SpecFloat.iter_pos shr_1 s _).
  assert (Hm : shr_m mrs = q).
  { unfold mrs. rewrite shr_iter_m by (simpl; lia). reflexivity. }
  rewrite Hm.
  destruct (round_nearest_even_cases q (loc_of_shr_record mrs)) as [Hr|Hr];
    rewrite Hr.
  - (* rounded down *)
    destruct q as [|qp|qp] eqn:Eq; try lia.
    assert (Hdq : Z.pos (digits2_pos qp) = 53)
      by (apply digits2_pos_unique; simpl; lia).
    rewrite shr_fexp_exact_canonical by (assumption || lia).
    cbn [shr_m].
    destruct (e + Z.pos s <=? 1024 - 53) eqn:El; [|lia].
    exists qp, (e + Z.pos s), 0. split; [reflexivity|].
    split; [auto|]. split; [lia|]. left. fold q. lia.
  - destruct (Z.eq_dec (q + 1) (2 ^ 53)) as [Hcarry|Hnocarry].
    + (* the mantissa overflows to 2^53 and is shifted once more *)
      rewrite Hcarry.
      exists 4503599627370496%positive, (e + Z.pos s + 1), 1.
      split; [|split; [auto|split; [lia|]]].
      * unfold shr_fexp.
        replace (Zdigits2 (2 ^ 53)) with 54 by reflexivity.
        replace (fexp 53 1024 (54 + (e + Z.pos s)) - (e + Z.pos s)) with 1
          by (unfold fexp, emin; lia).
        change (2 ^ 53) with 9007199254740992.
        cbn [shr_record_of_loc shr SpecFloat.iter_pos shr_1 shr_m].
        destruct (e + Z.pos s + 1 <=? 1024 - 53) eqn:El; [reflexivity|lia].
      * right. reflexivity.
    + destruct (q + 1) as [|qp|qp] eqn:Eq; try lia.
      assert (Hdq : Z.pos (digits2_pos qp) = 53)
        by (apply digits2_pos_unique; simpl; lia).
      rewrite shr_fexp_exact_canonical by (assumption || lia).
      cbn [shr_m].
      destruct (e + Z.pos s <=? 1024 - 53) eqn:El; [|lia].
      exists qp, (e + Z.pos s), 0. split; [reflexivity|].
      split; [auto|]. split; [lia|]. right. fold q. lia.
Qed.

Lemma mul_int_floor (mc : positive) (a b r n : Z) :
  Z.pos (digits2_pos mc) = 53 ->
  a * Z.pos mc = b * 2 ^ 53 + r ->
  0 < a <= 10 -> 0 <= r <= 2 -> 0 <= b ->
  0 <= n < 2 ^ 47 ->
  Float64.to_int (Float64.mul (S754_finite false mc (-53)) (Float64.of_Z n))
    = Ok (b * n / a).
Proof.
  intros Hmc Hab Ha Hr Hb Hn.
  destruct n as [|p|p]; try lia.
  { rewrite Z.mul_0_r. reflexivity. }
  destruct (of_Z_pos_small p) as (m & en & Hof & Hen & Hm & Hdm); [lia|].
  rewrite Hof. unfold Float64.mul, Float64.prec, Float64.emax. cbn [SFmul xorb].
  set (n := Z.pos p) in *.
  set (z := Z.pos m) in *.
  set (Y := 2 ^ (- en)) in *.
  pose proof (digits2_pos_lt m) as Hz1.
  pose proof (digits2_pos_le m) as Hz2. rewrite Hdm in Hz1, Hz2. fold z in Hz1, Hz2.
  pose proof (digits2_pos_lt mc) as Hc1.
  pose proof (digits2_pos_le mc) as Hc2. rewrite Hmc in Hc1, Hc2.
  change (2 ^ 53) with 9007199254740992 in Hz1, Hz2, Hc1, Hc2.
  (* the exponent of n is at most -6 *)
  assert (HY : 64 <= Y).
  { destruct (Z_le_gt_dec 6 (- en)) as [H6|H6].
    - unfold Y. change 64 with (2 ^ 6). apply Z.pow_le_mono_r; lia.
    - assert (Y <= 2 ^ 5) by (unfold Y; apply Z.pow_le_mono_r; lia).
      change (2 ^ 5) with 32 in H. change (2 ^ 47) with 140737488355328 in Hn.
      assert (0 < Y) by (unfold Y; apply Z.pow_pos_nonneg; lia).
      nia. }
  assert (Hen6 : en <= -6).
  { destruct (Z_le_gt_dec en (-6)); [assumption|].
    assert (Y <= 2 ^ 5) by (unfold Y; apply Z.pow_le_mono_r; lia).
    change (2 ^ 5) with 32 in H. lia. }
  (* the product has 105 or 106 digits *)
  set (P := (mc * m)%positive).
  assert (HP : Z.pos P = Z.pos mc * z) by reflexivity.
  pose proof (digits2_pos_lt P) as HP1.
  pose proof (digits2_pos_le P) as HP2.
  set (D := Z.pos (digits2_pos P)) in *.
  assert (HD : 105 <= D <= 106).
  { assert (2 ^ 104 <= Z.pos P < 2 ^ 106).
    { change (2 ^ 104) with (4503599627370496 * 4503599627370496).
      change (2 ^ 106) with (9007199254740992 * 9007199254740992).
      rewrite HP. nia. }
    split.
    - destruct (Z_le_gt_dec 105 D); [assumption|].
      assert (2 ^ D <= 2 ^ 104) by (apply Z.pow_le_mono_r; lia). lia.
    - destruct (Z_le_gt_dec D 106); [assumption|].
      assert (2 ^ 107 <= 2 ^ D) by (apply Z.pow_le_mono_r; lia).
      change (2 ^ 107) with (2 * 2 ^ 106) in H0. lia. }
  destruct (binary_round_aux_shift P (-53 + en)) as (M & E & j & HR & Hj & HE & HV);
    fold D; try lia.
  rewrite HR. cbn [Float64.to_int cond_Zopp].
  fold D in HE, HV.
  assert (HEneg : (0 <=? E) = false) by (apply Z.leb_gt; lia).
  rewrite HEneg. f_equal.
  set (W := 2 ^ (D - 53)) in *.
  set (T := 2 ^ (106 - D - en)).
  assert (HW : 0 < W <= 2 ^ 53).
  { unfold W. split; [apply Z.pow_pos_nonneg; lia|].
    apply Z.pow_le_mono_r; lia. }
  change (2 ^ 53) with 9007199254740992 in HW.
  assert (HT : 0 < T) by (unfold T; apply Z.pow_pos_nonneg; lia).
  assert (HTW : T * W = 9007199254740992 * Y).
  { unfold T, W, Y. rewrite <- Z.pow_add_r by lia.
    change 9007199254740992 with (2 ^ 53). rewrite <- Z.pow_add_r by lia.
    f_equal. lia. }
  assert (HTj : 2 ^ (- E) * 2 ^ j = T).
  { unfold T. rewrite <- Z.pow_add_r by lia. f_equal. lia. }
  assert (H2j : 0 < 2 ^ j) by (apply Z.pow_pos_nonneg; lia).
  assert (H2E : 0 < 2 ^ (- E)) by (apply Z.pow_pos_nonneg; lia).
  rewrite <- (Z.div_mul_cancel_r (Z.pos M) (2 ^ (- E)) (2 ^ j)) by lia.
  rewrite HTj.
  set (Vt := Z.pos M * 2 ^ j) in *.
  set (q := Z.pos P / W) in *.
  assert (Hq : q * W <= Z.pos P < q * W + W).
  { unfold q. pose proof (Z.div_mod (Z.pos P) W ltac:(lia)).
    pose proof (Z.mod_pos_bound (Z.pos P) W ltac:(lia)). lia. }
  set (k := b * n / a).
  assert (Hk : a * k <= b * n < a * k + a).
  { unfold k. pose proof (Z.div_mod (b * n) a ltac:(lia)).
    pose proof (Z.mod_pos_bound (b * n) a ltac:(lia)). lia. }
  assert (Hzn : z = n * Y) by exact Hm.
  change (2 ^ 53) with 9007199254740992 in Hab.
  change (2 ^ 47) with 140737488355328 in Hn.
  assert (HaP : a * Z.pos P = b * n * (T * W) + r * z).
  { rewrite HP, HTW, Hzn.
    replace (a * (Z.pos mc * (n * Y))) with ((a * Z.pos mc) * (n * Y)) by ring.
    rewrite Hab. ring. }
  set (X := Z.pos P) in *.
  set (TW := T * W) in *.
  assert (HTWpos : 0 < TW) by (unfold TW; apply Z.mul_pos_pos; lia).
  assert (Hrz : 0 <= r * z <= 2 * z).
  { split; [apply Z.mul_nonneg_nonneg; lia|].
    apply Z.mul_le_mono_nonneg_r; lia. }
  assert (HaW : a * W <= 10 * W) by (apply Z.mul_le_mono_nonneg_r; lia).
  assert (H1 : (a * k) * TW <= (b * n) * TW)
    by (apply Z.mul_le_mono_nonneg_r; lia).
  assert (H2 : (b * n + 1) * TW <= (a * (k + 1)) * TW)
    by (apply Z.mul_le_mono_nonneg_r; lia).
  assert (Hlow : k * T <= q).
  { assert (H3 : a * (k * TW) <= a * X).
    { replace (a * (k * TW)) with (a * k * TW) by ring. lia. }
    apply Z.mul_le_mono_pos_l in H3; [|lia].
    assert (H4 : (k * T) * W < (q + 1) * W).
    { replace (k * T * W) with (k * TW) by (unfold TW; ring).
      replace ((q + 1) * W) with (q * W + W) by ring. lia. }
    apply Z.mul_lt_mono_pos_r in H4; lia. }
  assert (Hup : q + 2 <= (k + 1) * T).
  { assert (H3 : a * ((q + 2) * W) <= a * ((k + 1) * TW)).
    { replace (a * ((k + 1) * TW)) with (a * (k + 1) * TW) by ring.
      replace (a * ((q + 2) * W)) with (a * (q * W) + 2 * (a * W)) by ring.
      assert (a * (q * W) <= a * X) by (apply Z.mul_le_mono_nonneg_l; lia).
      replace ((b * n + 1) * TW) with (b * n * TW + TW) in H2 by ring.
      lia. }
    apply Z.mul_le_mono_pos_l in H3; [|lia].
    replace ((k + 1) * TW) with ((k + 1) * T * W) in H3 by (unfold TW; ring).
    apply Z.mul_le_mono_pos_r in H3; lia. }
  symmetry. apply Z.div_unique with (r := Vt - k * T); [|ring].
  left. replace ((k + 1) * T) with (k * T + T) in Hup by ring. lia.
Qed.

End FloatArith.

(** ** [max] and [index] *)
Section MaxIndex.

Lemma items_from_lookup (l : list float) (i j : nat) :
  items_from i l !! j
  = (fun x => {| position := (i + j)%nat; value := x |}) <$> l !! j.
Proof.
  revert i j. induction l as [|x l IH]; intros i [|j]; try reflexivity.
  - cbn. now rewrite Nat.add_0_r.
  - cbn [items_from]. rewrite !lookup_cons. rewrite IH.
    destruct (l !! j); cbn; [|reflexivity].
    do 2 f_equal. lia.
Qed.

(** The fold behind [max] returns one of the items. *)
Lemma fold_max_elem (rest : list Item) (x : Item) :
  exists p, (x :: rest) !! p = Some (fold_left max_step rest x).
Proof.
  induction rest as [|a rest IH] using rev_ind.
  - exists O. reflexivity.
  - rewrite fold_left_app. cbn [fold_left]. destruct IH as [p Hp].
    unfold max_step at 1.
    destruct (Float64.gtb (value a) (value (fold_left max_step rest x))).
    + exists (length (x :: rest)).
      rewrite app_comm_cons, lookup_app_r by lia.
      now rewrite Nat.sub_diag.
    + exists p. rewrite app_comm_cons. now apply lookup_app_l_Some.
Qed.

(** It returns the first of the largest items. *)
Lemma fold_max_first (rest : list Item) (x : Item) :
  Forall (fun y => Float64.is_nan (value y) = false) (x :: rest) ->
  exists p,
    (x :: rest) !! p = Some (fold_left max_step rest x) /\
    (forall j y, (x :: rest) !! j = Some y ->
                 SFleb (value y) (value (fold_left max_step rest x)) = true) /\
    (forall j y, (j < p)%nat -> (x :: rest) !! j = Some y ->
                 SFltb (value y) (value (fold_left max_step rest x)) = true).
Proof.
  induction rest as [|a rest IH] using rev_ind; intros Hnan.
  - exists O. simpl. split; [reflexivity|]. split.
    + intros [|j] y Hj; simpl in Hj; [|discriminate].
      injection Hj as <-. apply SFleb_refl. now inversion Hnan.
    + intros j y Hlt; lia.
  - rewrite fold_left_app. simpl.
    assert (Hnan' : Forall (fun y => Float64.is_nan (value y) = false)
                      (x :: rest)).
    { rewrite app_comm_cons in Hnan. now apply Forall_app in Hnan. }
    assert (Ha : Float64.is_nan (value a) = false).
    { rewrite app_comm_cons in Hnan. apply Forall_app in Hnan.
      destruct Hnan as [_ Hnan]. now inversion Hnan. }
    destruct (IH Hnan') as (p & Hp & Hle & Hlt).
    set (m := fold_left max_step rest x) in *.
    assert (Hm : Float64.is_nan (value m) = false).
    { exact (Forall_lookup_1 _ _ _ _ Hnan' Hp). }
    assert (Hlook : forall j y, (x :: rest ++ [a]) !! j = Some y ->
              (x :: rest) !! j = Some y \/
              (j = length (x :: rest) /\ y = a)).
    { intros j y Hj. rewrite app_comm_cons in Hj.
      apply lookup_app_Some in Hj as [Hj|[Hge Hj]]; [now left|right].
      destruct (j - length (x :: rest))%nat as [|k] eqn:Ek;
        simpl in Hj; [|discriminate].
      injection Hj as <-. split; [lia|reflexivity]. }
    unfold max_step. unfold Float64.gtb, Float64.ltb.
    destruct (SFltb (value m) (value a)) eqn:Hma.
    + exists (length (x :: rest)). split; [|split].
      * rewrite app_comm_cons, lookup_app_r by lia.
        now rewrite Nat.sub_diag.
      * intros j y Hj. destruct (Hlook j y Hj) as [Hj'|[-> ->]].
        -- apply SFltb_leb. eapply SFleb_ltb_trans; eauto.
        -- now apply SFleb_refl.
      * intros j y Hjlt Hj. destruct (Hlook j y Hj) as [Hj'|[-> ->]].
        -- eapply SFleb_ltb_trans; eauto.
        -- lia.
    + exists p. split; [|split].
      * rewrite app_comm_cons. apply lookup_app_l_Some. exact Hp.
      * intros j y Hj. destruct (Hlook j y Hj) as [Hj'|[-> ->]].
        -- eauto.
        -- now apply SFltb_false_leb.
      * intros j y Hjlt Hj. destruct (Hlook j y Hj) as [Hj'|[-> ->]].
        -- eauto.
        -- apply lookup_lt_Some in Hp. lia.
Qed.

(** [max] of a non-empty list returns an object of the list, whatever
    the values. *)
Lemma py_max_item (l : list float) :
  l <> [] ->
  exists m, py_max l = Ok m /\ l !! position m = Some (value m).
Proof.
  intros Hne. destruct l as [|x rest]; [congruence|].
  unfold py_max. cbn [items_from].
  destruct (fold_max_elem (items_from 1 rest) {| position := 0; value := x |})
    as [p Hp].
  eexists. split; [reflexivity|].
  change ({| position := 0; value := x |} :: items_from 1 rest)
    with (items_from 0 (x :: rest)) in Hp.
  rewrite items_from_lookup in Hp.
  destruct ((x :: rest) !! p) as [v|] eqn:Hv; [|discriminate].
  cbn in Hp. injection Hp as <-. exact Hv.
Qed.

(** [index] finds an object of the list, at its position or before. *)
Lemma index_from_found (l : list float) (i : nat) (x : Item) :
  (i <= position x < i + length l)%nat ->
  exists j, index_from i l x = Ok j /\ (i <= j <= position x)%nat.
Proof.
  revert i. induction l as [|y l IH]; intros i Hi; cbn [length] in Hi;
    [lia|].
  cbn [index_from]. destruct (Nat.eqb_spec i (position x)) as [E|E].
  - exists i. cbn [orb]. split; [reflexivity|lia].
  - cbn [orb]. destruct (Float64.eqb y (value x)).
    + exists i. split; [reflexivity|lia].
    + destruct (IH (S i)) as (j & Hj & Hle); [lia|].
      exists j. split; [exact Hj|lia].
Qed.

Lemma index_from_first (l : list float) (i : nat) (x : Item) (p : nat) :
  position x = (i + p)%nat -> (p < length l)%nat ->
  (forall j (y : float), (j < p)%nat -> l !! j = Some y ->
                         SFeqb y (value x) = false) ->
  index_from i l x = Ok (i + p)%nat.
Proof.
  revert i p. induction l as [|y l IH]; intros i p Hx Hp Hbefore;
    cbn [length] in Hp; [lia|].
  cbn [index_from]. destruct p as [|p].
  - rewrite Nat.add_0_r in *. rewrite Hx, Nat.eqb_refl. reflexivity.
  - destruct (Nat.eqb_spec i (position x)) as [E|_]; [lia|]. cbn [orb].
    unfold Float64.eqb. rewrite (Hbefore O y) by (lia || reflexivity).
    rewrite (IH (S i) p); [f_equal; lia|lia|lia|].
    intros j z Hj Hz. apply (Hbefore (S j) z); [lia|exact Hz].
Qed.

(** [index] finds the first position whose item equals [x]. *)
Lemma py_index_first (l : list float) (x : Item) :
  l !! position x = Some (value x) ->
  (forall j (y : float), (j < position x)%nat -> l !! j = Some y ->
                         SFeqb y (value x) = false) ->
  py_index l x = Ok (position x).
Proof.
  intros Hp Hbefore. unfold py_index.
  apply (index_from_first l 0 x (position x)); [reflexivity| |exact Hbefore].
  now apply lookup_lt_Some in Hp.
Qed.

End MaxIndex.

(** ** The frame analysis of [detect_api.py] *)
Section AnalyzeFrame.

Lemma class_map_lookup (k : Z) :
  CLASS_MAP !! k =
    if k =? 0 then Some "dry" else if k =? 1 then Some "wet" else None.
Proof.
  unfold CLASS_MAP.
  destruct (Z.eqb_spec k 0) as [->|H0]; [reflexivity|].
  destruct (Z.eqb_spec k 1) as [->|H1]; [reflexivity|].
  rewrite lookup_insert_ne by congruence.
  now rewrite lookup_singleton_ne by congruence.
Qed.

Lemma known_class_label (b : Box) :
  known_class b -> exists t, class_label b = Some t.
Proof.
  unfold known_class, class_label. rewrite class_map_lookup.
  intros [-> | ->]; simpl; eauto.
Qed.

Lemma unknown_class_label (b : Box) :
  ~ known_class b -> class_label b = None.
Proof.
  unfold known_class, class_label. rewrite class_map_lookup. intros H.
  destruct (Z.eqb_spec (cls b) 0); [tauto|].
  destruct (Z.eqb_spec (cls b) 1); [tauto|reflexivity].
Qed.

Lemma class_map_get_label (b : Box) :
  class_map_get (cls b) =
    match class_label b with
    | Some t => Ok t
    | None => Raise (KeyError (cls b))
    end.
Proof. reflexivity. Qed.

(** With known class ids only, the loop fills both lists, one entry
    per box. *)
Lemma collect_ok (dets : list Box) (wt : list string) (cf : list float) :
  Forall known_class dets ->
  DetectApi.collect dets wt cf =
    Ok (wt ++ omap class_label dets, cf ++ map conf dets).
Proof.
  revert wt cf. induction dets as [|b dets IH]; intros wt cf Hk.
  - simpl. now rewrite !app_nil_r.
  - inversion Hk as [|? ? Hb Hrest]; subst.
    destruct (known_class_label b Hb) as [t Ht].
    simpl. rewrite class_map_get_label, Ht. simpl.
    rewrite IH by assumption. now rewrite <- !app_assoc.
Qed.

(** The first box with an unknown class id stops the loop. *)
Lemma collect_raise (pre post : list Box) (b : Box)
    (wt : list string) (cf : list float) :
  Forall known_class pre -> ~ known_class b ->
  DetectApi.collect (pre ++ b :: post) wt cf = Raise (KeyError (cls b)).
Proof.
  revert wt cf. induction pre as [|a pre IH]; intros wt cf Hk Hb.
  - simpl. rewrite class_map_get_label, (unknown_class_label b Hb).
    reflexivity.
  - inversion Hk as [|? ? Ha Hrest]; subst.
    destruct (known_class_label a Ha) as [t Ht].
    simpl. rewrite class_map_get_label, Ht. simpl. now apply IH.
Qed.

Lemma labels_lookup (dets : list Box) (i : nat) (b : Box) :
  Forall known_class dets -> dets !! i = Some b ->
  omap class_label dets !! i = class_label b /\ is_Some (class_label b).
Proof.
  revert i. induction dets as [|a dets IH]; intros i Hk Hi; [discriminate|].
  inversion Hk as [|? ? Ha Hrest]; subst.
  destruct (known_class_label a Ha) as [t Ht].
  simpl. rewrite Ht. destruct i as [|i]; simpl in *.
  - injection Hi as <-. rewrite Ht. eauto.
  - now apply IH.
Qed.

(** What [analyze_frame] does on a non-empty detection list whose
    class ids are known: the dominant box decides the class, the score
    and the violation; a violation writes one snapshot. *)
Lemma analyze_frame_nonempty (MODEL : Detector) (frame : Frame)
    (correct_bin : string) (w : World) :
  let dets := MODEL frame THRESHOLD in
  dets <> [] -> Forall known_class dets -> Forall scored dets ->
  exists i box label,
    is_dominant dets i box /\ class_label box = Some label /\
    DetectApi.analyze_frame MODEL frame correct_bin w =
      if negb (String.eqb label correct_bin) then
        (Ok {| DetectApi.class := Some label;
               DetectApi.wet_dry := Some label;
               DetectApi.confidence := Some (Float64.round3 (conf box));
               DetectApi.is_mixed :=
                 (1 <? size (list_to_set (omap class_label dets) : gset string))%nat;
               DetectApi.is_violation := true;
               DetectApi.snapshot_path :=
                 Some (snapshot_name (clock w (ticks w)));
               DetectApi.timestamp := isoformat (clock w (S (ticks w))) |},
         {| ticks := S (S (ticks w)); clock := clock w;
            files := <[snapshot_name (clock w (ticks w)) := frame]> (files w) |})
      else
        (Ok {| DetectApi.class := Some label;
               DetectApi.wet_dry := Some label;
               DetectApi.confidence := Some (Float64.round3 (conf box));
               DetectApi.is_mixed :=
                 (1 <? size (list_to_set (omap class_label dets) : gset string))%nat;
               DetectApi.is_violation := false;
               DetectApi.snapshot_path := None;
               DetectApi.timestamp := isoformat (clock w (ticks w)) |},
         {| ticks := S (ticks w); clock := clock w; files := files w |}).
Proof.
  intros dets Hne Hk Hs.
  unfold DetectApi.analyze_frame. fold dets.
  destruct dets as [|b0 rest] eqn:Edets; [congruence|].
  rewrite <- Edets in *. clear Hne.
  assert (Hlen : (length dets =? 0)%nat = false)
    by (rewrite Edets; reflexivity).
  rewrite Hlen.
  unfold bind at 1. unfold lift at 1.
  rewrite (collect_ok dets [] []) by assumption. simpl app.
  cbn [fst snd].
  assert (Hnan : Forall (fun y => Float64.is_nan y = false) (map conf dets)).
  { apply Forall_fmap. eapply Forall_impl; [exact Hs|].
    intros b Hb; exact Hb. }
  assert (Hitems : Forall (fun y => Float64.is_nan (value y) = false)
                     (items_from 0 (map conf dets))).
  { apply Forall_lookup_2. intros j y Hj. rewrite items_from_lookup in Hj.
    destruct (map conf dets !! j) as [v|] eqn:Hv; [|discriminate].
    cbn in Hj. injection Hj as <-. cbn [value].
    exact (Forall_lookup_1 _ _ _ _ Hnan Hv). }
  assert (Hshape : items_from 0 (map conf dets)
                   = {| position := 0; value := conf b0 |}
                       :: items_from 1 (map conf rest))
    by (rewrite Edets; reflexivity).
  rewrite Hshape in Hitems.
  destruct (fold_max_first _ _ Hitems) as (p & Hp & Hle & Hlt).
  rewrite <- Hshape in Hp, Hle, Hlt.
  set (m := fold_left max_step (items_from 1 (map conf rest))
              {| position := 0; value := conf b0 |}) in *.
  assert (Hmax : py_max (map conf dets) = Ok m)
    by (unfold py_max; rewrite Hshape; reflexivity).
  assert (Hm : position m = p /\ map conf dets !! p = Some (value m)).
  { rewrite items_from_lookup in Hp.
    destruct (map conf dets !! p) as [v|] eqn:Hv; [|discriminate].
    cbn in Hp. injection Hp as <-. split; reflexivity. }
  destruct Hm as [Hpos Hval].
  assert (Hidx : py_index (map conf dets) m = Ok p).
  { rewrite <- Hpos. apply py_index_first; rewrite Hpos; [exact Hval|].
    intros j y Hj Hy. apply SFltb_not_eqb.
    apply (Hlt j {| position := j; value := y |} Hj).
    rewrite items_from_lookup, Hy. reflexivity. }
  pose proof Hval as Hp'.
  apply list_lookup_fmap_Some in Hp' as (box & Hconf & Hbox).
  destruct (labels_lookup dets p box Hk Hbox) as [Hlab [label Hlabel]].
  exists p, box, label. split; [|split; [exact Hlabel|]].
  - split; [exact Hbox|]. split.
    + intros j b Hj. rewrite <- Hconf.
      apply (Hle j {| position := j; value := conf b |}).
      now rewrite items_from_lookup, list_lookup_fmap, Hj.
    + intros j b Hjp Hj. rewrite <- Hconf.
      apply (Hlt j {| position := j; value := conf b |} Hjp).
      now rewrite items_from_lookup, list_lookup_fmap, Hj.
  - rewrite Hmax. unfold bind at 1. unfold lift at 1. rewrite Hidx.
    unfold bind at 1. unfold lift at 1. unfold py_getitem.
    rewrite Hlab, Hlabel. unfold bind at 1. unfold lift at 1.
    rewrite <- Hconf.
    destruct (negb (String.eqb label correct_bin)); reflexivity.
Qed.

(** With known class ids the call returns, whatever the scores: [max]
    hands [index] an object of the list, which [index] finds. *)
Lemma analyze_frame_returns (MODEL : Detector) (frame : Frame)
    (correct_bin : string) (w : World) :
  Forall known_class (MODEL frame THRESHOLD) ->
  exists r w',
    DetectApi.analyze_frame MODEL frame correct_bin w = (Ok r, w').
Proof.
  intros Hk. unfold DetectApi.analyze_frame.
  set (dets := MODEL frame THRESHOLD) in *.
  destruct (length dets =? 0)%nat eqn:Hlen; [eexists _, _; reflexivity|].
  apply Nat.eqb_neq in Hlen.
  unfold bind at 1. unfold lift at 1.
  rewrite (collect_ok dets [] []) by assumption. simpl app. cbn [fst snd].
  destruct (py_max_item (map conf dets)) as (m & Hmax & Hm).
  { intros E. apply (f_equal length) in E. rewrite length_map in E.
    simpl in E. lia. }
  destruct (index_from_found (map conf dets) 0 m) as (j & Hidx & Hj).
  { apply lookup_lt_Some in Hm. lia. }
  assert (Hjlt : (j < length dets)%nat).
  { apply lookup_lt_Some in Hm. rewrite length_map in Hm. lia. }
  destruct (lookup_lt_is_Some_2 dets j Hjlt) as [box Hbox].
  destruct (labels_lookup dets j box Hk Hbox) as [Hlab [label Hlabel]].
  rewrite Hmax. unfold bind at 1. unfold lift at 1.
  unfold py_index. rewrite Hidx.
  unfold bind at 1. unfold lift at 1. unfold py_getitem.
  rewrite Hlab, Hlabel. unfold bind at 1. unfold lift at 1.
  destruct (negb (String.eqb label correct_bin)); eexists _, _; reflexivity.
Qed.

Lemma known_or_unknown (dets : list Box) :
  Forall known_class dets \/ exists b, b ∈ dets /\ ~ known_class b.
Proof.
  induction dets as [|a dets IH]; [left; constructor|].
  assert (Hdec : known_class a \/ ~ known_class a)
    by (unfold known_class; lia).
  destruct Hdec as [Ha|Ha]; [|right; exists a; split; [left|exact Ha]].
  destruct IH as [IH|(b & Hin & Hb)]; [left; now constructor|].
  right. exists b. split; [now right|exact Hb].
Qed.

End AnalyzeFrame.

(** ** The loop of [detect.py] *)
Section DetectAndDraw.

Variable BIN_TYPE : string.

Lemma draw_boxes_ok (dets : list Box) (violation : bool) (frame : Frame) :
  Forall known_class dets ->
  exists frame',
    Detect.draw_boxes BIN_TYPE dets violation frame =
      (Ok (violation || existsb (wrong_bin BIN_TYPE) dets), frame').
Proof.
  revert violation frame.
  induction dets as [|b dets IH]; intros violation frame Hk.
  - exists frame. simpl. now rewrite orb_false_r.
  - inversion Hk as [|? ? Hb Hrest]; subst.
    destruct (known_class_label b Hb) as [t Ht].
    simpl. rewrite class_map_get_label, Ht.
    destruct (xyxy b) as [[[x1 y1] x2] y2].
    unfold wrong_bin at 1. rewrite Ht.
    match goal with
    | |- context [Detect.draw_boxes _ _ ?v ?f] =>
        destruct (IH v f Hrest) as [frame' Hf]
    end.
    exists frame'. rewrite Hf. f_equal. f_equal.
    destruct (negb (String.eqb t BIN_TYPE)), violation; reflexivity.
Qed.

Lemma draw_boxes_raise (pre post : list Box) (b : Box)
    (violation : bool) (frame : Frame) :
  Forall known_class pre -> ~ known_class b ->
  fst (Detect.draw_boxes BIN_TYPE (pre ++ b :: post) violation frame) =
    Raise (KeyError (cls b)).
Proof.
  revert violation frame.
  induction pre as [|a pre IH]; intros violation frame Hk Hb.
  - simpl. rewrite class_map_get_label, (unknown_class_label b Hb).
    reflexivity.
  - inversion Hk as [|? ? Ha Hrest]; subst.
    destruct (known_class_label a Ha) as [t Ht].
    simpl. rewrite class_map_get_label, Ht.
    destruct (xyxy a) as [[[x1 y1] x2] y2]. now apply IH.
Qed.

End DetectAndDraw.

(** A list with a box of unknown class splits at the first one. *)
Lemma first_unknown (dets : list Box) :
  (exists b, b ∈ dets /\ ~ known_class b) ->
  exists pre b post,
    dets = pre ++ b :: post /\ Forall known_class pre /\ ~ known_class b.
Proof.
  induction dets as [|a dets IH]; intros (b & Hin & Hb).
  - now apply elem_of_nil in Hin.
  - assert (Hdec : known_class a \/ ~ known_class a).
    { unfold known_class. lia. }
    destruct Hdec as [Ha|Ha].
    + apply elem_of_cons in Hin as [->|Hin]; [contradiction|].
      destruct IH as (pre & b' & post & -> & Hpre & Hb'); [eauto|].
      exists (a :: pre), b', post. repeat split; auto.
    + exists [], a, dets. repeat split; auto.
Qed.

Lemma dominant_unique (dets : list Box) (i i' : nat) (box box' : Box) :
  is_dominant dets i box -> is_dominant dets i' box' -> i = i'.
Proof.
  intros (Hi & Hle & Hlt) (Hi' & Hle' & Hlt').
  destruct (Nat.lt_trichotomy i i') as [H|[H|H]]; [|exact H|].
  - pose proof (Hlt' i box H Hi) as H1.
    pose proof (Hle i' box' Hi') as H2.
    apply SFleb_antisym_ltb in H2. unfold Float64.ltb in H1. congruence.
  - pose proof (Hlt i' box' H Hi') as H1.
    pose proof (Hle' i box Hi) as H2.
    apply SFleb_antisym_ltb in H2. unfold Float64.ltb in H1. congruence.
Qed.

(** ** Counting labels *)
Section Labels.

Lemma size_labels (l : list string) :
  size (list_to_set l : gset string) = length (remove_dups l).
Proof.
  rewrite <- (size_list_to_set (C := gset string) (remove_dups l))
    by apply NoDup_remove_dups.
  f_equal. apply set_eq. intros x.
  rewrite !elem_of_list_to_set. now rewrite elem_of_remove_dups.
Qed.

(** More than one distinct label: two boxes carry different labels. *)
Lemma two_labels (dets : list Box) :
  Forall known_class dets ->
  (1 < length (distinct_labels dets))%nat <->
  exists b1 b2, b1 ∈ dets /\ b2 ∈ dets /\ class_label b1 <> class_label b2.
Proof.
  intros Hk. unfold distinct_labels. split.
  - intros Hlen.
    pose proof (NoDup_remove_dups (omap class_label dets)) as Hnd.
    destruct (remove_dups (omap class_label dets)) as [|t1 [|t2 l]] eqn:E;
      simpl in Hlen; try lia.
    assert (H1 : t1 ∈ omap class_label dets).
    { apply elem_of_remove_dups. rewrite E. left. }
    assert (H2 : t2 ∈ omap class_label dets).
    { apply elem_of_remove_dups. rewrite E. right. left. }
    apply list_elem_of_omap in H1 as (b1 & Hb1 & Ht1).
    apply list_elem_of_omap in H2 as (b2 & Hb2 & Ht2).
    exists b1, b2. repeat split; auto.
    rewrite Ht1, Ht2. intros [= ->].
    apply NoDup_cons in Hnd as [Hnot _]. apply Hnot. left.
  - intros (b1 & b2 & Hb1 & Hb2 & Hne).
    rewrite Forall_forall in Hk.
    destruct (known_class_label b1 (Hk _ Hb1)) as [t1 Ht1].
    destruct (known_class_label b2 (Hk _ Hb2)) as [t2 Ht2].
    assert (H1 : t1 ∈ remove_dups (omap class_label dets)).
    { apply elem_of_remove_dups, list_elem_of_omap. eauto. }
    assert (H2 : t2 ∈ remove_dups (omap class_label dets)).
    { apply elem_of_remove_dups, list_elem_of_omap. eauto. }
    destruct (remove_dups (omap class_label dets)) as [|u1 [|u2 l]];
      simpl; try lia.
    + now apply elem_of_nil in H1.
    + apply list_elem_of_singleton in H1, H2. congruence.
Qed.

End Labels.

(** ** The violation classifier *)

(** The early return of [analyze_frame]. *)
Lemma analyze_frame_on_empty (MODEL : Detector) (frame : Frame)
    (correct_bin : string) (w : World) :
  MODEL frame THRESHOLD = [] ->
  DetectApi.analyze_frame MODEL frame correct_bin w =
    (Ok {| DetectApi.class := None; DetectApi.wet_dry := None;
           DetectApi.confidence := None; DetectApi.is_mixed := false;
           DetectApi.is_violation := false; DetectApi.snapshot_path := None;
           DetectApi.timestamp := isoformat (clock w (ticks w)) |},
     {| ticks := S (ticks w); clock := clock w; files := files w |}).
Proof.
  intros Hempty. unfold DetectApi.analyze_frame. rewrite Hempty. reflexivity.
Qed.

(** C6. With no detection, whatever the expected bin, the result has no
    class and no confidence, it is neither a violation nor mixed, and no
    snapshot is written. *)
Theorem analyze_frame_no_detection (MODEL : Detector) (frame : Frame)
    (correct_bin : string) (w : World) :
  MODEL frame THRESHOLD = [] ->
  exists r w',
    DetectApi.analyze_frame MODEL frame correct_bin w = (Ok r, w') /\
    DetectApi.class r = None /\ DetectApi.wet_dry r = None /\
    DetectApi.confidence r = None /\
    DetectApi.is_violation r = false /\ DetectApi.is_mixed r = false /\
    DetectApi.snapshot_path r = None /\ files w' = files w.
Proof.
  intros Hempty. rewrite analyze_frame_on_empty by exact Hempty.
  eexists _, _. split; [reflexivity|]. simpl. tauto.
Qed.

Lemma analyze_frame_no_detection_witness :
  exists r w',
    DetectApi.analyze_frame (fun _ _ => []) sample_frame "wet" sample_world
      = (Ok r, w') /\
    DetectApi.class r = None /\ DetectApi.wet_dry r = None /\
    DetectApi.confidence r = None /\
    DetectApi.is_violation r = false /\ DetectApi.is_mixed r = false /\
    DetectApi.snapshot_path r = None /\ files w' = files sample_world.
Proof.
  apply (analyze_frame_no_detection (fun _ _ => []) sample_frame "wet"
           sample_world).
  reflexivity.
Defined.

(** Every detection list with known class ids and numeric scores gets a
    result, whose [is_mixed] counts the labels. *)
Lemma analyze_frame_is_mixed (MODEL : Detector) (frame : Frame)
    (correct_bin : string) (w : World) :
  let dets := MODEL frame THRESHOLD in
  Forall known_class dets -> Forall scored dets ->
  exists r w',
    DetectApi.analyze_frame MODEL frame correct_bin w = (Ok r, w') /\
    DetectApi.is_mixed r = (1 <? length (distinct_labels dets))%nat.
Proof.
  intros dets Hk Hs. destruct dets as [|b0 rest] eqn:E.
  - rewrite (analyze_frame_on_empty MODEL frame correct_bin w E).
    eexists _, _. split; reflexivity.
  - rewrite <- E in *.
    destruct (analyze_frame_nonempty MODEL frame correct_bin w)
      as (i & box & label & _ & _ & Hr).
    { fold dets. rewrite E. discriminate. }
    { exact Hk. }
    { exact Hs. }
    fold dets in Hr. rewrite Hr. unfold distinct_labels.
    rewrite size_labels.
    destruct (negb (String.eqb label correct_bin));
      eexists _, _; (split; [reflexivity|reflexivity]).
Qed.

(** C5. [is_mixed] is true exactly when more than one distinct label
    occurs among the detections, that is, when two boxes carry different
    labels; with no or one distinct label it is false. *)
Theorem is_mixed_iff_several_labels (MODEL : Detector) (frame : Frame)
    (correct_bin : string) (w : World) :
  let dets := MODEL frame THRESHOLD in
  Forall known_class dets -> Forall scored dets ->
  exists r w',
    DetectApi.analyze_frame MODEL frame correct_bin w = (Ok r, w') /\
    (DetectApi.is_mixed r = true <->
       (1 < length (distinct_labels dets))%nat) /\
    (DetectApi.is_mixed r = true <->
       exists b1 b2, b1 ∈ dets /\ b2 ∈ dets /\
                     class_label b1 <> class_label b2) /\
    ((length (distinct_labels dets) <= 1)%nat ->
       DetectApi.is_mixed r = false).
Proof.
  intros dets Hk Hs.
  destruct (analyze_frame_is_mixed MODEL frame correct_bin w Hk Hs)
    as (r & w' & Hr & Hm).
  fold dets in Hm. exists r, w'. split; [exact Hr|].
  rewrite Hm. split; [|split].
  - apply Nat.ltb_lt.
  - rewrite Nat.ltb_lt. now apply two_labels.
  - intros Hle. apply Nat.ltb_ge. exact Hle.
Qed.

Lemma is_mixed_iff_several_labels_witness :
  let dets := [sample_box 1 9 10; sample_box 0 6 10] in
  exists r w',
    DetectApi.analyze_frame (fun _ _ => dets) sample_frame "dry" sample_world
      = (Ok r, w') /\
    (DetectApi.is_mixed r = true <->
       (1 < length (distinct_labels dets))%nat) /\
    (DetectApi.is_mixed r = true <->
       exists b1 b2, b1 ∈ dets /\ b2 ∈ dets /\
                     class_label b1 <> class_label b2) /\
    ((length (distinct_labels dets) <= 1)%nat ->
       DetectApi.is_mixed r = false).
Proof.
  apply (is_mixed_iff_several_labels
           (fun _ _ => [sample_box 1 9 10; sample_box 0 6 10])
           sample_frame "dry" sample_world).
  - repeat constructor; unfold known_class; simpl; lia.
  - repeat constructor; reflexivity.
Defined.

(** C2 as stated fails: the reported confidence is the dominant score
    rounded to three decimals.  A single box with score 0.90625 is
    reported with confidence 0.906. *)
Lemma reported_confidence_is_rounded :
  let box := sample_box 1 29 32 in
  exists r w' c,
    DetectApi.analyze_frame (fun _ _ => [box]) sample_frame "wet" sample_world
      = (Ok r, w') /\
    DetectApi.confidence r = Some c /\
    c = Float64.of_ratio false 906 1000 /\
    Float64.eqb c (conf box) = false.
Proof.
  eexists _, _, _. split; [vm_compute; reflexivity|].
  split; [reflexivity|]. split; vm_compute; reflexivity.
Qed.

(** C2, amended. On a non-empty detection list there is exactly one
    dominant detection, the earliest of those with the greatest score;
    the result's class is its label, and the reported confidence is its
    score rounded to three decimals. *)
Theorem dominant_detection_reported (MODEL : Detector) (frame : Frame)
    (correct_bin : string) (w : World) :
  let dets := MODEL frame THRESHOLD in
  dets <> [] -> Forall known_class dets -> Forall scored dets ->
  exists i box r w',
    is_dominant dets i box /\
    (forall i' box', is_dominant dets i' box' -> i' = i /\ box' = box) /\
    DetectApi.analyze_frame MODEL frame correct_bin w = (Ok r, w') /\
    DetectApi.class r = class_label box /\
    DetectApi.wet_dry r = class_label box /\
    DetectApi.confidence r = Some (Float64.round3 (conf box)).
Proof.
  intros dets Hne Hk Hs.
  destruct (analyze_frame_nonempty MODEL frame correct_bin w Hne Hk Hs)
    as (i & box & label & Hdom & Hlabel & Hr).
  fold dets in Hdom, Hr.
  assert (Huniq : forall i' box',
            is_dominant dets i' box' -> i' = i /\ box' = box).
  { intros i' box' Hdom'.
    pose proof (dominant_unique dets i' i box' box Hdom' Hdom) as ->.
    split; [reflexivity|].
    destruct Hdom as [Hi _], Hdom' as [Hi' _]. congruence. }
  exists i, box. rewrite Hr, Hlabel.
  destruct (negb (String.eqb label correct_bin));
    eexists _, _; (split; [exact Hdom|]); (split; [exact Huniq|]);
    (split; [reflexivity|]); simpl; auto.
Qed.

Lemma dominant_detection_reported_witness :
  let dets := [sample_box 0 6 10; sample_box 1 9 10; sample_box 0 9 10] in
  exists i box r w',
    is_dominant dets i box /\
    (forall i' box', is_dominant dets i' box' -> i' = i /\ box' = box) /\
    DetectApi.analyze_frame (fun _ _ => dets) sample_frame "dry" sample_world
      = (Ok r, w') /\
    DetectApi.class r = class_label box /\
    DetectApi.wet_dry r = class_label box /\
    DetectApi.confidence r = Some (Float64.round3 (conf box)).
Proof.
  apply (dominant_detection_reported
           (fun _ _ => [sample_box 0 6 10; sample_box 1 9 10;
                        sample_box 0 9 10])
           sample_frame "dry" sample_world).
  - discriminate.
  - repeat constructor; unfold known_class; simpl; lia.
  - repeat constructor; reflexivity.
Defined.

(** C1 as stated fails on [detect_and_draw]: with the bin set to dry, a
    dry box of score 0.9 followed by a wet box of score 0.6 is flagged,
    although the dominant class is the bin's. *)
Lemma detect_and_draw_flags_minority :
  let dets := [sample_box 0 9 10; sample_box 1 6 10] in
  is_dominant dets 0 (sample_box 0 9 10) /\
  class_label (sample_box 0 9 10) = Some "dry" /\
  fst (Detect.detect_and_draw "dry" THRESHOLD (fun _ _ => dets) sample_frame)
    = Ok true.
Proof.
  split; [|split; reflexivity].
  split; [reflexivity|]. split.
  - intros [|[|j]] b Hj; simpl in Hj; try discriminate;
      injection Hj as <-; reflexivity.
  - intros j b Hj; lia.
Qed.

(** C1, amended. On the same detections, [analyze_frame] reports a
    violation exactly when the label of the dominant detection differs
    from the expected bin, whatever the other detections are, while
    [detect_and_draw] raises its flag exactly when the label of some
    detection differs from the bin. *)
Theorem violation_iff_mismatch (MODEL : Detector) (frame : Frame)
    (correct_bin : string) (w : World) :
  let dets := MODEL frame THRESHOLD in
  dets <> [] -> Forall known_class dets -> Forall scored dets ->
  (exists i box r w',
     is_dominant dets i box /\
     DetectApi.analyze_frame MODEL frame correct_bin w = (Ok r, w') /\
     (DetectApi.is_violation r = true <->
        class_label box <> Some correct_bin)) /\
  (exists violation frame',
     Detect.detect_and_draw correct_bin THRESHOLD MODEL frame
       = (Ok violation, frame') /\
     (violation = true <->
        exists b, b ∈ dets /\ class_label b <> Some correct_bin)).
Proof.
  intros dets Hne Hk Hs. split.
  - destruct (analyze_frame_nonempty MODEL frame correct_bin w Hne Hk Hs)
      as (i & box & label & Hdom & Hlabel & Hr).
    fold dets in Hdom, Hr. exists i, box. rewrite Hr, Hlabel.
    destruct (String.eqb_spec label correct_bin) as [->|Hneq]; simpl;
      eexists _, _; (split; [exact Hdom|]);
      (split; [reflexivity|]); simpl; split; congruence.
  - unfold Detect.detect_and_draw. fold dets.
    destruct (draw_boxes_ok correct_bin dets false frame Hk) as [frame' Hf].
    rewrite Hf. eexists _, _. split; [reflexivity|]. simpl.
    rewrite existsb_exists. split.
    + intros (b & Hin & Hwrong). exists b.
      split; [now apply list_elem_of_In|].
      unfold wrong_bin in Hwrong.
      destruct (class_label b) as [t|]; [|discriminate].
      intros [= ->]. rewrite String.eqb_refl in Hwrong. discriminate.
    + intros (b & Hin & Hneq). exists b.
      split; [now apply list_elem_of_In|].
      rewrite Forall_forall in Hk.
      destruct (known_class_label b (Hk _ Hin)) as [t Ht].
      unfold wrong_bin. rewrite Ht in *.
      destruct (String.eqb_spec t correct_bin); [congruence|reflexivity].
Qed.

Lemma violation_iff_mismatch_witness :
  let dets := [sample_box 0 9 10; sample_box 1 6 10] in
  (exists i box r w',
     is_dominant dets i box /\
     DetectApi.analyze_frame (fun _ _ => dets) sample_frame "dry" sample_world
       = (Ok r, w') /\
     (DetectApi.is_violation r = true <-> class_label box <> Some "dry")) /\
  (exists violation frame',
     Detect.detect_and_draw "dry" THRESHOLD (fun _ _ => dets) sample_frame
       = (Ok violation, frame') /\
     (violation = true <->
        exists b, b ∈ dets /\ class_label b <> Some "dry")).
Proof.
  apply (violation_iff_mismatch
           (fun _ _ => [sample_box 0 9 10; sample_box 1 6 10])
           sample_frame "dry" sample_world).
  - discriminate.
  - repeat constructor; unfold known_class; simpl; lia.
  - repeat constructor; reflexivity.
Defined.

(** C8 as stated fails: no range check is made.  A box whose score is
    1.5, outside [0,1], is classified like any other. *)
Lemma out_of_range_score_accepted :
  let box := sample_box 0 3 2 in
  Float64.ltb (Float64.of_Z 1) (conf box) = true /\
  exists r w',
    DetectApi.analyze_frame (fun _ _ => [box]) sample_frame "dry" sample_world
      = (Ok r, w') /\
    DetectApi.class r = Some "dry" /\
    DetectApi.confidence r = Some (conf box).
Proof.
  split; [reflexivity|].
  eexists _, _. split; [vm_compute; reflexivity|]. split; reflexivity.
Qed.

(** C8, amended. The classifier does not validate the range of the
    scores: every detection list whose class ids are known and whose
    scores are numbers, inside [0,1] or not, gets a result. *)
Theorem analyze_frame_accepts_any_score (MODEL : Detector) (frame : Frame)
    (correct_bin : string) (w : World) :
  let dets := MODEL frame THRESHOLD in
  Forall known_class dets -> Forall scored dets ->
  exists r w', DetectApi.analyze_frame MODEL frame correct_bin w = (Ok r, w').
Proof.
  intros dets Hk Hs.
  destruct (analyze_frame_is_mixed MODEL frame correct_bin w Hk Hs)
    as (r & w' & Hr & _).
  eauto.
Qed.

Lemma analyze_frame_accepts_any_score_witness :
  exists r w',
    DetectApi.analyze_frame
      (fun _ _ => [sample_box 0 3 2; sample_box 1 1 2])
      sample_frame "dry" sample_world = (Ok r, w').
Proof.
  apply (analyze_frame_accepts_any_score
           (fun _ _ => [sample_box 0 3 2; sample_box 1 1 2])
           sample_frame "dry" sample_world).
  - repeat constructor; unfold known_class; simpl; lia.
  - repeat constructor; reflexivity.
Defined.

(** C10. The lookup of a class id in [CLASS_MAP] succeeds exactly on 0
    and 1.  When some detection has another class id, both
    [analyze_frame] and [detect_and_draw] raise [KeyError], with the
    first such class id, instead of returning; [analyze_frame] leaves the
    world as it found it. *)
Theorem unknown_class_raises_key_error (MODEL : Detector) (frame : Frame)
    (correct_bin : string) (w : World) :
  let dets := MODEL frame THRESHOLD in
  (exists b, b ∈ dets /\ cls b <> 0 /\ cls b <> 1) ->
  (forall k, (k = 0 \/ k = 1) <-> exists t, class_map_get k = Ok t) /\
  exists k,
    k <> 0 /\ k <> 1 /\
    DetectApi.analyze_frame MODEL frame correct_bin w = (Raise (KeyError k), w) /\
    fst (Detect.detect_and_draw correct_bin THRESHOLD MODEL frame)
      = Raise (KeyError k).
Proof.
  intros dets (b & Hin & H0 & H1). split.
  { intros k. unfold class_map_get. rewrite class_map_lookup.
    destruct (Z.eqb_spec k 0) as [->|Hk0]; [split; eauto|].
    destruct (Z.eqb_spec k 1) as [->|Hk1]; [split; eauto|].
    split; [lia|]. intros [t Ht]. discriminate. }
  destruct (first_unknown dets) as (pre & u & post & E & Hpre & Hu).
  { exists b. split; [exact Hin|]. unfold known_class. lia. }
  exists (cls u). unfold known_class in Hu.
  split; [lia|]. split; [lia|]. split.
  - unfold DetectApi.analyze_frame. fold dets. rewrite E.
    assert (Hlen : (length (pre ++ u :: post) =? 0)%nat = false).
    { rewrite length_app. simpl. apply Nat.eqb_neq. lia. }
    rewrite Hlen. unfold bind, lift.
    rewrite collect_raise by assumption. reflexivity.
  - unfold Detect.detect_and_draw. fold dets. rewrite E.
    now apply draw_boxes_raise.
Qed.

Lemma unknown_class_raises_key_error_witness :
  (forall k, (k = 0 \/ k = 1) <-> exists t, class_map_get k = Ok t) /\
  exists k,
    k <> 0 /\ k <> 1 /\
    DetectApi.analyze_frame
      (fun _ _ => [sample_box 1 9 10; sample_box 2 6 10])
      sample_frame "wet" sample_world = (Raise (KeyError k), sample_world) /\
    fst (Detect.detect_and_draw "wet" THRESHOLD
           (fun _ _ => [sample_box 1 9 10; sample_box 2 6 10]) sample_frame)
      = Raise (KeyError k).
Proof.
  apply (unknown_class_raises_key_error
           (fun _ _ => [sample_box 1 9 10; sample_box 2 6 10])
           sample_frame "wet" sample_world).
  exists (sample_box 2 6 10). split.
  - right. left.
  - simpl. lia.
Defined.

(** ** What the classification reads and writes *)

(** The one exception the call can raise is the [KeyError] of a class
    id that [CLASS_MAP] does not have: [max] and [index] do not fail on
    the lists the loop has filled. *)
Lemma analyze_frame_raises (MODEL : Detector) (frame : Frame)
    (correct_bin : string) (w w' : World) (e : exn) :
  DetectApi.analyze_frame MODEL frame correct_bin w = (Raise e, w') ->
  exists b, b ∈ MODEL frame THRESHOLD /\ ~ known_class b /\
            e = KeyError (cls b).
Proof.
  intros Hrun.
  destruct (known_or_unknown (MODEL frame THRESHOLD)) as [Hk|Hu].
  { destruct (analyze_frame_returns MODEL frame correct_bin w Hk)
      as (r & w1 & Hok).
    rewrite Hok in Hrun. discriminate. }
  destruct (first_unknown _ Hu) as (pre & u & post & E & Hpre & Hnk).
  exists u. split; [rewrite E; apply elem_of_app; right; left|].
  split; [exact Hnk|].
  unfold DetectApi.analyze_frame in Hrun. rewrite E in Hrun.
  assert (Hlen : (length (pre ++ u :: post) =? 0)%nat = false).
  { rewrite length_app. simpl. apply Nat.eqb_neq. lia. }
  rewrite Hlen in Hrun. unfold bind, lift in Hrun.
  rewrite collect_raise in Hrun by assumption.
  now injection Hrun as <- _.
Qed.

(** The classification itself does not depend on the world: either the
    call raises whatever the world is, or its decision is one and the
    same, and only the time stamp, the snapshot name and the snapshot
    file come from and go to the world. *)
Lemma analyze_frame_cases (MODEL : Detector) (frame : Frame)
    (correct_bin : string) :
  (exists e, forall w,
      DetectApi.analyze_frame MODEL frame correct_bin w = (Raise e, w)) \/
  (exists d, snd d = false /\ forall w, exists r,
      DetectApi.analyze_frame MODEL frame correct_bin w =
        (Ok r, {| ticks := S (ticks w); clock := clock w; files := files w |}) /\
      decision r = d /\ DetectApi.snapshot_path r = None /\
      DetectApi.timestamp r = isoformat (clock w (ticks w))) \/
  (exists d, snd d = true /\ forall w, exists r,
      DetectApi.analyze_frame MODEL frame correct_bin w =
        (Ok r, {| ticks := S (S (ticks w)); clock := clock w;
                  files := <[snapshot_name (clock w (ticks w)) := frame]>
                             (files w) |}) /\
      decision r = d /\
      DetectApi.snapshot_path r = Some (snapshot_name (clock w (ticks w))) /\
      DetectApi.timestamp r = isoformat (clock w (S (ticks w)))).
Proof.
  unfold DetectApi.analyze_frame.
  destruct (length (MODEL frame THRESHOLD) =? 0)%nat.
  { right. left. exists (None, None, None, false, false).
    split; [reflexivity|]. intros w. eexists. split; [reflexivity|].
    split; [reflexivity|]. split; reflexivity. }
  destruct (DetectApi.collect (MODEL frame THRESHOLD) [] [])
    as [[waste_types confidences]|e].
  2: { left. exists e. reflexivity. }
  destruct (py_max confidences) as [m|e] eqn:Hmax.
  2: { left. exists e. intros w. cbv beta iota delta [bind lift fst snd].
       now rewrite Hmax. }
  destruct (py_index confidences m) as [top_index|e] eqn:Hidx.
  2: { left. exists e. intros w. cbv beta iota delta [bind lift fst snd].
       rewrite Hmax. cbv beta iota. now rewrite Hidx. }
  destruct (py_getitem waste_types top_index) as [top_type|e] eqn:Hget.
  2: { left. exists e. intros w. cbv beta iota delta [bind lift fst snd].
       rewrite Hmax. cbv beta iota. rewrite Hidx. cbv beta iota.
       now rewrite Hget. }
  destruct (negb (String.eqb top_type correct_bin)) eqn:Hviol.
  - right. right.
    exists (Some top_type, Some top_type, Some (Float64.round3 (value m)),
            (1 <? size (list_to_set waste_types : gset string))%nat, true).
    split; [reflexivity|]. intros w. eexists.
    cbv beta iota delta [bind lift fst snd].
    rewrite Hmax. cbv beta iota. rewrite Hidx. cbv beta iota.
    rewrite Hget. cbv beta iota. rewrite Hviol.
    split; [reflexivity|]. split; [reflexivity|]. split; reflexivity.
  - right. left.
    exists (Some top_type, Some top_type, Some (Float64.round3 (value m)),
            (1 <? size (list_to_set waste_types : gset string))%nat, false).
    split; [reflexivity|]. intros w. eexists.
    cbv beta iota delta [bind lift fst snd].
    rewrite Hmax. cbv beta iota. rewrite Hidx. cbv beta iota.
    rewrite Hget. cbv beta iota. rewrite Hviol.
    split; [reflexivity|]. split; [reflexivity|]. split; reflexivity.
Qed.

(** C7 as stated fails: classifying a wet item with the bin set to dry
    writes a snapshot file that was not there, and a second call on the
    same frame returns another result (a later time stamp and another
    snapshot path). *)
Lemma analyze_frame_writes_snapshot :
  let MODEL : Detector := fun _ _ => [sample_box 1 9 10] in
  let run1 := DetectApi.analyze_frame MODEL sample_frame "dry" sample_world in
  let run2 := DetectApi.analyze_frame MODEL sample_frame "dry" (snd run1) in
  files sample_world !! "snapshots/violation_20240309_140500.jpg" = None /\
  files (snd run1) !! "snapshots/violation_20240309_140500.jpg"
    = Some sample_frame /\
  fst run1 <> fst run2.
Proof.
  split; [reflexivity|]. split; [vm_compute; reflexivity|].
  vm_compute. discriminate.
Qed.

(** C7, amended. The decision (class, confidence, mixed and violation
    flags) is a function of the detections and the expected bin alone:
    two calls in any two worlds raise the same exception or decide the
    same.  The rest of the result comes from the clock and what is
    written goes to the disk.  Without a violation the clock is read
    once, for the time stamp of the result, and no file is created or
    changed; with a violation it is read twice, exactly one file is
    written, the snapshot of the frame, under the name the first reading
    gives, and the time stamp is the second reading.  A call raises only
    by the [KeyError] of a class id outside [CLASS_MAP], and then it has
    read and changed nothing. *)
Theorem decision_pure_snapshot_on_violation (MODEL : Detector)
    (frame : Frame) (correct_bin : string) (w1 w2 : World) :
  match DetectApi.analyze_frame MODEL frame correct_bin w1,
        DetectApi.analyze_frame MODEL frame correct_bin w2 with
  | (Ok r1, w1'), (Ok r2, w2') =>
      decision r1 = decision r2 /\
      clock w1' = clock w1 /\
      (DetectApi.is_violation r1 = false ->
         DetectApi.snapshot_path r1 = None /\ files w1' = files w1 /\
         DetectApi.timestamp r1 = isoformat (clock w1 (ticks w1)) /\
         ticks w1' = S (ticks w1)) /\
      (DetectApi.is_violation r1 = true ->
         DetectApi.snapshot_path r1 = Some (snapshot_name (clock w1 (ticks w1))) /\
         files w1' = <[snapshot_name (clock w1 (ticks w1)) := frame]> (files w1) /\
         DetectApi.timestamp r1 = isoformat (clock w1 (S (ticks w1))) /\
         ticks w1' = S (S (ticks w1)))
  | (Raise e1, w1'), (Raise e2, w2') =>
      e1 = e2 /\ w1' = w1 /\ w2' = w2 /\
      exists b, b ∈ MODEL frame THRESHOLD /\ ~ known_class b /\
                e1 = KeyError (cls b)
  | _, _ => False
  end.
Proof.
  destruct (analyze_frame_cases MODEL frame correct_bin)
    as [[e He]|[(d & Hd & H)|(d & Hd & H)]].
  - pose proof (analyze_frame_raises MODEL frame correct_bin w1 w1 e (He w1))
      as Hkey.
    rewrite (He w1), (He w2). auto.
  - destruct (H w1) as (r1 & -> & Hd1 & Hp1 & Ht1).
    destruct (H w2) as (r2 & -> & Hd2 & _).
    assert (Hv : DetectApi.is_violation r1 = false).
    { unfold decision in Hd1. rewrite <- Hd1 in Hd. exact Hd. }
    split; [congruence|]. split; [reflexivity|].
    split; [auto|]. rewrite Hv. discriminate.
  - destruct (H w1) as (r1 & -> & Hd1 & Hp1 & Ht1).
    destruct (H w2) as (r2 & -> & Hd2 & _).
    assert (Hv : DetectApi.is_violation r1 = true).
    { unfold decision in Hd1. rewrite <- Hd1 in Hd. exact Hd. }
    split; [congruence|]. split; [reflexivity|].
    split; [rewrite Hv; discriminate|auto].
Qed.

(** ** Printing decimals *)
Section Decimals.

Lemma digit_value_digit (d : Z) :
  0 <= d <= 9 -> digit_value (Fmt.digit d) = d.
Proof.
  intros Hd. unfold digit_value, Fmt.digit.
  rewrite nat_ascii_embedding by lia. lia.
Qed.

Lemma is_digit_digit (d : Z) : 0 <= d <= 9 -> is_digit (Fmt.digit d) = true.
Proof.
  intros Hd. unfold is_digit. rewrite digit_value_digit by lia.
  apply andb_true_intro. split; apply Z.leb_le; lia.
Qed.

Lemma append_cons (x : ascii) (a b : string) :
  String x a +:+ b = String x (a +:+ b).
Proof. reflexivity. Qed.

Lemma append_nil_l (b : string) : "" +:+ b = b.
Proof. reflexivity. Qed.

Lemma append_nil_r (a : string) : a +:+ "" = a.
Proof.
  induction a as [|x a IH]; [reflexivity|].
  rewrite append_cons. f_equal. exact IH.
Qed.

Lemma append_assoc (a b c : string) : (a +:+ b) +:+ c = a +:+ (b +:+ c).
Proof.
  induction a as [|x a IH]; [reflexivity|].
  rewrite !append_cons. f_equal. exact IH.
Qed.

Lemma decimal_value_from_app (a b : string) (acc : Z) :
  decimal_value_from acc (a +:+ b)
    = decimal_value_from (decimal_value_from acc a) b.
Proof.
  revert acc. induction a as [|x a IH]; intros acc; [reflexivity|].
  rewrite append_cons. simpl. apply IH.
Qed.

Lemma all_digits_app (a b : string) :
  all_digits (a +:+ b) = all_digits a && all_digits b.
Proof.
  induction a as [|x a IH]; [reflexivity|].
  rewrite append_cons. simpl. now rewrite IH, andb_assoc.
Qed.

Lemma length_append (a b : string) :
  String.length (a +:+ b) = (String.length a + String.length b)%nat.
Proof.
  induction a as [|x a IH]; [reflexivity|].
  rewrite append_cons. simpl. now rewrite IH.
Qed.

(** The digits written for [n] denote [n]. *)
Lemma digits_go_spec (fuel : nat) (n : Z) (acc : string) :
  0 <= n < 2 ^ (Z.of_nat fuel + 1) ->
  exists pre,
    Fmt.digits_go fuel n acc = pre +:+ acc /\
    pre <> "" /\ all_digits pre = true /\ decimal_value pre = n.
Proof.
  assert (Hone : forall d, 0 <= d <= 9 ->
            String (Fmt.digit d) "" <> "" /\
            all_digits (String (Fmt.digit d) "") = true /\
            decimal_value (String (Fmt.digit d) "") = d).
  { intros d Hd. split; [discriminate|].
    unfold decimal_value. cbn [all_digits decimal_value_from].
    rewrite is_digit_digit, digit_value_digit by lia.
    split; [reflexivity|lia]. }
  revert n acc. induction fuel as [|fuel IH]; intros n acc Hn.
  - change (2 ^ (Z.of_nat 0 + 1)) with 2 in Hn.
    exists (String (Fmt.digit (n mod 10)) "").
    assert (Hsmall : n mod 10 = n) by (apply Z.mod_small; lia).
    cbn [Fmt.digits_go]. split; [reflexivity|].
    rewrite Hsmall. apply Hone. lia.
  - pose proof (Z.mod_pos_bound n 10 ltac:(lia)) as Hmod.
    pose proof (Z.div_mod n 10 ltac:(lia)) as Hdiv.
    cbn [Fmt.digits_go]. destruct (Z.eqb_spec (n / 10) 0) as [Hz|Hz].
    + exists (String (Fmt.digit (n mod 10)) "").
      split; [reflexivity|].
      assert (Hsmall : n = n mod 10) by lia.
      destruct (Hone (n mod 10) ltac:(lia)) as (H1 & H2 & H3).
      split; [exact H1|]. split; [exact H2|]. lia.
    + destruct (IH (n / 10) (String (Fmt.digit (n mod 10)) acc))
        as (pre & Hgo & Hne & Hall & Hval).
      { split; [apply Z.div_pos; lia|].
        apply Z.div_lt_upper_bound; [lia|].
        replace (Z.of_nat (S fuel) + 1) with (1 + (Z.of_nat fuel + 1)) in Hn
          by lia.
        rewrite Z.pow_add_r in Hn by lia. change (2 ^ 1) with 2 in Hn.
        assert (0 < 2 ^ (Z.of_nat fuel + 1)) by (apply Z.pow_pos_nonneg; lia).
        lia. }
      destruct (Hone (n mod 10) ltac:(lia)) as (_ & Hall1 & Hval1).
      exists (pre +:+ String (Fmt.digit (n mod 10)) "").
      rewrite Hgo, append_assoc. split; [reflexivity|]. split.
      { destruct pre; [congruence|discriminate]. }
      rewrite all_digits_app, Hall, Hall1. split; [reflexivity|].
      unfold decimal_value in *. rewrite decimal_value_from_app, Hval.
      cbn [decimal_value_from]. rewrite digit_value_digit by lia. lia.
Qed.

Lemma digits_spec (n : Z) :
  0 <= n ->
  Fmt.digits n <> "" /\ all_digits (Fmt.digits n) = true /\
  decimal_value (Fmt.digits n) = n.
Proof.
  intros Hn. unfold Fmt.digits.
  destruct (digits_go_spec (Z.to_nat (Z.log2 n)) n "") as (pre & Hgo & H).
  { rewrite Z2Nat.id by apply Z.log2_nonneg.
    destruct (Z.eq_dec n 0) as [->|Hnz]; [simpl; lia|].
    pose proof (Z.log2_spec n ltac:(lia)) as Hl.
    replace (Z.log2 n + 1) with (Z.succ (Z.log2 n)) by lia. lia. }
  rewrite append_nil_r in Hgo. rewrite Hgo. exact H.
Qed.

(** The [k] padded digits of [r] are [k] digits denoting [r]. *)
Lemma frac_digits_spec (k : nat) (r : Z) :
  0 <= r ->
  String.length (Fmt.frac_digits k r) = k /\
  all_digits (Fmt.frac_digits k r) = true /\
  forall acc, decimal_value_from acc (Fmt.frac_digits k r)
                = acc * 10 ^ Z.of_nat k + r mod 10 ^ Z.of_nat k.
Proof.
  intros Hr. induction k as [|k (Hlen & Hall & Hval)].
  - simpl. split; [reflexivity|]. split; [reflexivity|].
    intros acc. rewrite Z.mod_1_r. lia.
  - assert (Hp : 0 < 10 ^ Z.of_nat k) by (apply Z.pow_pos_nonneg; lia).
    pose proof (Z.mod_pos_bound (r / 10 ^ Z.of_nat k) 10 ltac:(lia)) as Hd.
    cbn [Fmt.frac_digits String.length all_digits decimal_value_from].
    rewrite Hlen, Hall, is_digit_digit by lia.
    split; [reflexivity|]. split; [reflexivity|].
    intros acc. rewrite Hval, digit_value_digit by lia.
    replace (Z.of_nat (S k)) with (1 + Z.of_nat k) by lia.
    rewrite Z.pow_add_r by lia. change (10 ^ 1) with 10.
    rewrite (Z.mul_comm 10 (10 ^ Z.of_nat k)).
    rewrite (Z.rem_mul_r r (10 ^ Z.of_nat k) 10) by lia.
    ring.
Qed.

(** Rounding to the nearest integer is within one half. *)
Lemma round_half_even_near (num den : Z) :
  0 <= num -> 0 < den ->
  0 <= Float64.round_half_even num den /\
  2 * Z.abs (Float64.round_half_even num den * den - num) <= den.
Proof.
  intros Hnum Hden. unfold Float64.round_half_even.
  pose proof (Z.div_mod num den ltac:(lia)) as Hdiv.
  pose proof (Z.mod_pos_bound num den ltac:(lia)) as Hmod.
  assert (Hq : 0 <= num / den) by (apply Z.div_pos; lia).
  set (q := num / den) in *. set (r := num mod den) in *.
  destruct (Z.compare_spec (2 * r) den) as [E|E|E];
    [destruct (Z.even q)| |]; split; try lia; nia.
Qed.

Lemma fixed_six_decimals (x : float) (s : bool) (n : Z) :
  0 <= n -> nearest_scaled 6 x n -> six_decimals x (Fmt.fixed s n 6).
Proof.
  intros Hn Hnear. unfold Fmt.fixed. change (Z.of_nat 6) with 6.
  assert (Hp : 0 < 10 ^ 6) by lia.
  pose proof (Z.div_mod n (10 ^ 6) ltac:(lia)) as Hdiv.
  pose proof (Z.mod_pos_bound n (10 ^ 6) ltac:(lia)) as Hmod.
  destruct (digits_spec (n / 10 ^ 6)) as (Hne & Hall & Hval);
    [apply Z.div_pos; lia|].
  destruct (frac_digits_spec 6 (n mod 10 ^ 6)) as (Hlen & Hallf & Hvalf);
    [lia|].
  exists s, (Fmt.digits (n / 10 ^ 6)), (Fmt.frac_digits 6 (n mod 10 ^ 6)).
  split; [reflexivity|]. split; [exact Hne|]. split; [exact Hall|].
  split; [exact Hlen|]. split; [exact Hallf|].
  unfold decimal_value at 2. rewrite Hval, Hvalf.
  change (Z.of_nat 6) with 6. rewrite Z.mod_mod by lia.
  replace (n / 10 ^ 6 * 10 ^ 6 + (0 * 10 ^ 6 + n mod 10 ^ 6)) with n by lia.
  exact Hnear.
Qed.

(** A finite float is printed with exactly six decimals, correctly
    rounded. *)
Lemma format_f_six_decimals (x : float) :
  Float64.is_finite x = true -> six_decimals x (Fmt.format_f 6 x).
Proof.
  destruct x as [s|s| |s m e]; try discriminate; intros _; simpl.
  - apply fixed_six_decimals; [lia|reflexivity].
  - unfold Float64.scaled_digits. change (Z.of_nat 6) with 6.
    destruct (0 <=? e) eqn:He.
    + apply fixed_six_decimals.
      * apply Z.leb_le in He.
        assert (0 < 2 ^ e) by (apply Z.pow_pos_nonneg; lia). nia.
      * unfold nearest_scaled. rewrite He. reflexivity.
    + apply Z.leb_gt in He.
      assert (Hden : 0 < 2 ^ (- e)) by (apply Z.pow_pos_nonneg; lia).
      destruct (round_half_even_near (Z.pos m * 10 ^ 6) (2 ^ (- e)))
        as [Hnn Hnear]; [lia|lia|].
      apply fixed_six_decimals; [exact Hnn|].
      unfold nearest_scaled. apply Z.leb_gt in He. rewrite He.
      exact Hnear.
Qed.

End Decimals.

(** ** The coordinate converter *)
Section LabelLines.

Lemma of_Z_pos_nonzero (w : Z) :
  0 < w < 2 ^ 53 -> Float64.is_zero (Float64.of_Z w) = false.
Proof.
  intros Hw. destruct w as [|p|p]; try lia.
  destruct (of_Z_pos_small p) as (m & e & -> & _); [lia|reflexivity].
Qed.

Lemma truediv_ok (x y : float) :
  Float64.is_zero y = false -> Float64.truediv x y = Ok (Float64.div x y).
Proof. intros H. unfold Float64.truediv. now rewrite H. Qed.

(** The loop appends the label line of each annotation, in order, and
    counts them. *)
Lemma label_lines_spec (anns : list Convert.Annotation) (w h : Z)
    (yolo_lines : list string) (boxes : Z) :
  0 < w < 2 ^ 53 -> 0 < h < 2 ^ 53 ->
  Convert.label_lines anns w h yolo_lines boxes =
    Ok (yolo_lines ++ map (yolo_line w h) anns,
        boxes + Z.of_nat (length anns)).
Proof.
  intros Hw Hh. revert yolo_lines boxes.
  induction anns as [|ann anns IH]; intros yolo_lines boxes.
  - simpl. rewrite app_nil_r, Z.add_0_r. reflexivity.
  - destruct (Convert.bbox ann) as [[[x y] bw] bh] eqn:Ebox.
    cbn [Convert.label_lines]. rewrite Ebox.
    rewrite (truediv_ok bw (Float64.of_Z 2)) by reflexivity.
    cbn [res_bind].
    rewrite (truediv_ok _ (Float64.of_Z w)) by now apply of_Z_pos_nonzero.
    cbn [res_bind].
    rewrite (truediv_ok bh (Float64.of_Z 2)) by reflexivity.
    cbn [res_bind].
    rewrite (truediv_ok _ (Float64.of_Z h)) by now apply of_Z_pos_nonzero.
    cbn [res_bind].
    rewrite (truediv_ok bw (Float64.of_Z w)) by now apply of_Z_pos_nonzero.
    cbn [res_bind].
    rewrite (truediv_ok bh (Float64.of_Z h)) by now apply of_Z_pos_nonzero.
    cbn [res_bind].
    rewrite IH. cbn [map length].
    rewrite <- app_assoc. cbn [app].
    unfold yolo_line at 2, center_x, center_y, norm_width, norm_height.
    rewrite Ebox. f_equal. f_equal. lia.
Qed.

End LabelLines.

(** ** One image of the conversion loop *)
Section ConvertImage.

Variable ROOT : string.

(** An image that is on disk and whose size the manifest gives is copied
    into its split, and its label file holds one line per annotation. *)
Lemma convert_image_present (train_ids val_ids : gset Z)
    (anns_by_image : gmap Z (list Convert.Annotation))
    (st : Convert.State) (img : Convert.ImageRecord)
    (content : Convert.File) (w h : Z) (lbl : string) :
  Convert.fs st !! joinpath (Convert.RAW ROOT) (Convert.file_name img)
    = Some content ->
  Convert.width img = Some w -> Convert.height img = Some h ->
  0 < w < 2 ^ 53 -> 0 < h < 2 ^ 53 ->
  Convert.with_suffix (Convert.file_name img) ".txt" = Ok lbl ->
  let split := split_of train_ids val_ids (Convert.id img) in
  let anns := default [] (anns_by_image !! Convert.id img) in
  Convert.convert_image ROOT train_ids val_ids anns_by_image st img =
    Ok {| Convert.fs :=
            <[label_path ROOT split lbl :=
                Convert.TextFile (Fmt.join "
" (map (yolo_line w h) anns))]>
              (<[image_path ROOT split (Convert.file_name img) := content]>
                 (Convert.fs st));
          Convert.stdout := Convert.stdout st;
          Convert.copied := Convert.copied st + 1;
          Convert.labeled :=
            match anns with
            | [] => Convert.labeled st
            | _ => Convert.labeled st + 1
            end;
          Convert.boxes := Convert.boxes st + Z.of_nat (length anns) |}.
Proof.
  intros Hsrc Hw Hh Hwr Hhr Hlbl split anns.
  unfold Convert.convert_image. rewrite Hsrc, Hw, Hh.
  assert (Hf : Convert.falsy (Some w) || Convert.falsy (Some h) = false).
  { unfold Convert.falsy. apply orb_false_intro; apply Z.eqb_neq; lia. }
  rewrite Hf. cbn [res_bind default fst snd].
  fold anns. rewrite (label_lines_spec anns w h [] _ Hwr Hhr).
  cbn [res_bind fst snd app]. rewrite Hlbl. cbn [res_bind].
  fold (split_of train_ids val_ids (Convert.id img)). fold split.
  unfold label_path, image_path.
  destruct anns; reflexivity.
Qed.

End ConvertImage.

(** C4. For a box [(x, y, width, height)] on an image of width [W] and
    height [H], the converter emits one line per annotation, in order,
    made of the category id and of [(x + width/2)/W], [(y + height/2)/H],
    [width/W] and [height/H]; each of these, when it is a finite number,
    is printed with exactly six decimals, correctly rounded; the lines go
    to the label file of the image; and the box (10, 20, 30, 40) on a
    100 by 200 image gives 0.250000 0.200000 0.300000 0.200000. *)
Theorem yolo_lines_normalized (ROOT : string) (train_ids val_ids : gset Z)
    (anns_by_image : gmap Z (list Convert.Annotation))
    (st : Convert.State) (img : Convert.ImageRecord)
    (content : Convert.File) (W H : Z) (lbl : string) :
  Convert.fs st !! joinpath (Convert.RAW ROOT) (Convert.file_name img)
    = Some content ->
  Convert.width img = Some W -> Convert.height img = Some H ->
  0 < W < 2 ^ 53 -> 0 < H < 2 ^ 53 ->
  Convert.with_suffix (Convert.file_name img) ".txt" = Ok lbl ->
  let anns := default [] (anns_by_image !! Convert.id img) in
  (forall n, Convert.label_lines anns W H [] n =
               Ok (map (yolo_line W H) anns, n + Z.of_nat (length anns))) /\
  (exists st',
     Convert.convert_image ROOT train_ids val_ids anns_by_image st img
       = Ok st' /\
     Convert.fs st' !!
       label_path ROOT (split_of train_ids val_ids (Convert.id img)) lbl
       = Some (Convert.TextFile (Fmt.join "
" (map (yolo_line W H) anns)))) /\
  (forall ann, ann ∈ anns ->
     yolo_line W H ann =
       Fmt.str_int (Convert.category_id ann) +:+ " "
         +:+ Fmt.format_f 6 (center_x W ann) +:+ " "
         +:+ Fmt.format_f 6 (center_y H ann) +:+ " "
         +:+ Fmt.format_f 6 (norm_width W ann) +:+ " "
         +:+ Fmt.format_f 6 (norm_height H ann) /\
     (Float64.is_finite (center_x W ann) = true ->
      six_decimals (center_x W ann) (Fmt.format_f 6 (center_x W ann))) /\
     (Float64.is_finite (center_y H ann) = true ->
      six_decimals (center_y H ann) (Fmt.format_f 6 (center_y H ann))) /\
     (Float64.is_finite (norm_width W ann) = true ->
      six_decimals (norm_width W ann) (Fmt.format_f 6 (norm_width W ann))) /\
     (Float64.is_finite (norm_height H ann) = true ->
      six_decimals (norm_height H ann) (Fmt.format_f 6 (norm_height H ann)))) /\
  (forall cat,
     yolo_line 100 200 (sample_annotation cat) =
       Fmt.str_int cat +:+ " 0.250000 0.200000 0.300000 0.200000").
Proof.
  intros Hsrc Hw Hh Hwr Hhr Hlbl anns. split; [|split; [|split]].
  - intros n. now rewrite label_lines_spec.
  - eexists. split.
    + apply (convert_image_present ROOT train_ids val_ids anns_by_image
               st img content W H lbl); assumption.
    + cbn [Convert.fs]. apply lookup_insert_eq.
  - intros ann _. split; [reflexivity|].
    repeat split; apply format_f_six_decimals.
  - intros cat. unfold yolo_line.
    replace (Fmt.format_f 6 (center_x 100 (sample_annotation cat)))
      with "0.250000" by (vm_compute; reflexivity).
    replace (Fmt.format_f 6 (center_y 200 (sample_annotation cat)))
      with "0.200000" by (vm_compute; reflexivity).
    replace (Fmt.format_f 6 (norm_width 100 (sample_annotation cat)))
      with "0.300000" by (vm_compute; reflexivity).
    replace (Fmt.format_f 6 (norm_height 200 (sample_annotation cat)))
      with "0.200000" by (vm_compute; reflexivity).
    reflexivity.
Qed.

(** ** The split allocator *)
Section Shuffle.

Variable RngState : Type.
Variable randbelow : RngState -> nat -> nat * RngState.

(** [randbelow(n)] is below [n]. *)
Hypothesis randbelow_lt :
  forall g n, (0 < n)%nat -> (fst (randbelow g n) < n)%nat.

Lemma insert_Permutation (l : list Z) (i : nat) (x y : Z) :
  l !! i = Some x -> <[i:=y]> l ≡ₚ y :: delete i l.
Proof.
  revert i. induction l as [|a l IH]; intros [|i] Hi; try discriminate.
  - reflexivity.
  - simpl in *. rewrite (IH i Hi). apply perm_swap.
Qed.

Lemma swap_Permutation (x : list Z) (i j : nat) :
  (i < length x)%nat -> (j < length x)%nat ->
  exists x', Convert.swap x i j = Ok x' /\ x' ≡ₚ x.
Proof.
  intros Hi Hj. unfold Convert.swap.
  destruct (lookup_lt_is_Some_2 x i Hi) as [xi Hxi].
  destruct (lookup_lt_is_Some_2 x j Hj) as [xj Hxj].
  rewrite Hxi, Hxj. eexists. split; [reflexivity|].
  assert (H1 : <[i:=xj]> x !! j = Some xj).
  { destruct (decide (i = j)) as [->|Hne].
    - now apply list_lookup_insert_eq.
    - now rewrite list_lookup_insert_ne. }
  rewrite (insert_Permutation _ j xj xi H1).
  pose proof (delete_Permutation _ _ _ H1) as H2.
  rewrite (insert_Permutation x i xi xj Hxi) in H2 at 1.
  apply Permutation_cons_inv in H2.
  rewrite <- H2. symmetry. now apply delete_Permutation.
Qed.

Lemma shuffle_from_Permutation (i : nat) (x : list Z) (g : RngState) :
  (i < length x)%nat \/ i = O ->
  exists x', fst (Convert.shuffle_from RngState randbelow i x g) = Ok x' /\
             x' ≡ₚ x.
Proof.
  revert x g. induction i as [|i IH]; intros x g Hi.
  - exists x. split; reflexivity.
  - cbn [Convert.shuffle_from].
    pose proof (randbelow_lt g (S i + 1) ltac:(lia)) as Hj.
    destruct (randbelow g (S i + 1)) as [j g']. cbn [fst] in Hj.
    destruct (swap_Permutation x (S i) j) as (x' & Hswap & Hperm);
      [lia|lia|].
    rewrite Hswap.
    destruct (IH x' g') as (x'' & Hx'' & Hperm').
    { left. rewrite (Permutation_length Hperm). lia. }
    exists x''. split; [exact Hx''|]. now rewrite Hperm'.
Qed.

(** [random.shuffle] returns a permutation of its argument. *)
Lemma shuffle_Permutation (x : list Z) (g : RngState) :
  exists x', fst (Convert.shuffle RngState randbelow x g) = Ok x' /\ x' ≡ₚ x.
Proof.
  unfold Convert.shuffle. apply shuffle_from_Permutation.
  destruct x; simpl; lia.
Qed.

(** What an exchange leaves where. *)
Lemma swap_lookup (x x' : list Z) (i j : nat) :
  Convert.swap x i j = Ok x' ->
  x' !! i = x !! j /\
  (forall k, k <> i -> k <> j -> x' !! k = x !! k).
Proof.
  unfold Convert.swap.
  destruct (x !! j) as [xj|] eqn:Hxj; [|discriminate].
  destruct (x !! i) as [xi|] eqn:Hxi; [|discriminate].
  intros [= <-]. split.
  - destruct (decide (i = j)) as [->|Hne].
    + rewrite list_lookup_insert_eq; [congruence|].
      rewrite length_insert. now apply lookup_lt_Some in Hxi.
    + rewrite list_lookup_insert_ne by congruence.
      rewrite list_lookup_insert_eq; [reflexivity|].
      now apply lookup_lt_Some in Hxi.
  - intros k Hki Hkj.
    rewrite list_lookup_insert_ne by congruence.
    now rewrite list_lookup_insert_ne by congruence.
Qed.

(** The loop from [i] down leaves the places above [i] alone. *)
Lemma shuffle_from_keeps (i : nat) (x x' : list Z) (g : RngState) :
  fst (Convert.shuffle_from RngState randbelow i x g) = Ok x' ->
  forall k, (i < k)%nat -> x' !! k = x !! k.
Proof.
  revert x g. induction i as [|i IH]; intros x g Hrun k Hk.
  - simpl in Hrun. now injection Hrun as <-.
  - cbn [Convert.shuffle_from] in Hrun.
    pose proof (randbelow_lt g (S i + 1) ltac:(lia)) as Hj.
    destruct (randbelow g (S i + 1)) as [j g']. cbn [fst] in Hj.
    destruct (Convert.swap x (S i) j) as [x1|e] eqn:Hswap;
      [|discriminate Hrun].
    rewrite (IH x1 g' Hrun k) by lia.
    apply (swap_lookup _ _ _ _ Hswap); lia.
Qed.

(** The first draw decides the last place. *)
Lemma shuffle_from_last (i : nat) (x x' : list Z) (g : RngState) :
  fst (Convert.shuffle_from RngState randbelow (S i) x g) = Ok x' ->
  x' !! S i = x !! fst (randbelow g (S i + 1)).
Proof.
  intros Hrun. cbn [Convert.shuffle_from] in Hrun.
  destruct (randbelow g (S i + 1)) as [j g']. cbn [fst].
  destruct (Convert.swap x (S i) j) as [x1|e] eqn:Hswap;
    [|discriminate Hrun].
  rewrite (shuffle_from_keeps i x1 x' g' Hrun (S i)) by lia.
  apply (swap_lookup _ _ _ _ Hswap).
Qed.

Lemma shuffle_last (x x' : list Z) (g : RngState) :
  (2 <= length x)%nat ->
  fst (Convert.shuffle RngState randbelow x g) = Ok x' ->
  x' !! (length x - 1)%nat = x !! fst (randbelow g (length x)).
Proof.
  intros Hn Hrun. unfold Convert.shuffle in Hrun.
  destruct (length x) as [|[|n]] eqn:E; [lia|lia|].
  replace (S (S n) - 1)%nat with (S n) in * by lia.
  rewrite (shuffle_from_last n x x' g Hrun).
  replace (S n + 1)%nat with (S (S n)) by lia. reflexivity.
Qed.

End Shuffle.

(** The boundaries [int(0.8*n)] and [int(0.9*n)] are the floors of
    [0.8 n] and [0.9 n]. *)
Lemma int_scaled_0_8 (n : nat) :
  Z.of_nat n < 2 ^ 47 ->
  Convert.int_scaled Convert.lit_0_8 n = Ok (8 * Z.of_nat n / 10).
Proof.
  intros Hn. unfold Convert.int_scaled.
  replace Convert.lit_0_8 with (S754_finite false 7205759403792794 (-53))
    by (vm_compute; reflexivity).
  rewrite (mul_int_floor 7205759403792794 5 4 2 (Z.of_nat n));
    try reflexivity; try lia.
  f_equal. rewrite <- (Z.div_mul_cancel_l (4 * Z.of_nat n) 5 2) by lia.
  f_equal; lia.
Qed.

Lemma int_scaled_0_9 (n : nat) :
  Z.of_nat n < 2 ^ 47 ->
  Convert.int_scaled Convert.lit_0_9 n = Ok (9 * Z.of_nat n / 10).
Proof.
  intros Hn. unfold Convert.int_scaled.
  replace Convert.lit_0_9 with (S754_finite false 8106479329266893 (-53))
    by (vm_compute; reflexivity).
  apply (mul_int_floor 8106479329266893 10 9 2 (Z.of_nat n));
    try reflexivity; lia.
Qed.

(** Cutting a duplicate-free list at [a <= b] gives three disjoint sets
    that cover it, of sizes [a], [b - a] and the rest. *)
Lemma three_way_cut (s : list Z) (a b : nat) :
  NoDup s -> (a <= b)%nat -> (b <= length s)%nat ->
  let train : gset Z := list_to_set (take a s) in
  let val : gset Z := list_to_set (drop a (take b s)) in
  let test : gset Z := list_to_set (drop b s) in
  train ## val /\ train ## test /\ val ## test /\
  train ∪ val ∪ test = list_to_set s /\
  size train = a /\ size val = (b - a)%nat /\
  size test = (length s - b)%nat.
Proof.
  intros Hnd Hab Hb train val test.
  assert (Hs : s = take a s ++ drop a (take b s) ++ drop b s).
  { rewrite <- (take_drop b s) at 1. rewrite app_assoc. f_equal.
    rewrite <- (take_drop a (take b s)) at 1. f_equal.
    rewrite take_take. f_equal. lia. }
  rewrite Hs in Hnd.
  apply NoDup_app in Hnd as (Hnd1 & Hdis1 & Hnd23).
  apply NoDup_app in Hnd23 as (Hnd2 & Hdis2 & Hnd3).
  unfold train, val, test.
  split; [|split; [|split; [|split; [|split; [|split]]]]].
  - intros x H1 H2. rewrite elem_of_list_to_set in H1, H2.
    apply (Hdis1 x H1). apply elem_of_app. now left.
  - intros x H1 H2. rewrite elem_of_list_to_set in H1, H2.
    apply (Hdis1 x H1). apply elem_of_app. now right.
  - intros x H1 H2. rewrite elem_of_list_to_set in H1, H2.
    exact (Hdis2 x H1 H2).
  - rewrite Hs at 4. rewrite !list_to_set_app_L.
    apply set_eq. intros x. rewrite !elem_of_union. tauto.
  - rewrite size_list_to_set by assumption. apply length_take_le. lia.
  - rewrite size_list_to_set by assumption.
    rewrite length_drop, length_take_le by lia. reflexivity.
  - rewrite size_list_to_set by assumption. apply length_drop.
Qed.

(** C3. With the generator seeded by the script and [n] distinct image
    ids, the first [floor(0.8 n)] ids of the shuffled order go to train,
    the next [floor(0.9 n) - floor(0.8 n)] to val and the rest to test,
    the shuffled order being what [random.shuffle] returns on the ids
    from the generator seeded with 42: a permutation of them whose last
    place holds the id that the first draw of the generator points at
    (which therefore goes to test); the three sets are pairwise disjoint
    and their union is the input set, so each image is in exactly one
    split; for [n = 100] they have 80, 10 and 10 elements; and the
    result is a function of the list of image ids alone: it depends
    neither on the rest of the manifest nor on the state the generator
    was in before the run. *)
Theorem split_allocation (RngState : Type) (seed : Z -> RngState)
    (randbelow : RngState -> nat -> nat * RngState)
    (data : Convert.Manifest) (g0 : RngState) :
  (forall g n, (0 < n)%nat -> (fst (randbelow g n) < n)%nat) ->
  let ids := map Convert.id (Convert.images data) in
  let n := length ids in
  NoDup ids -> Z.of_nat n < 2 ^ 47 ->
  exists (shuffled : list Z) (train val test : gset Z),
    fst (Convert.shuffle RngState randbelow ids
           (Convert.random_seed RngState seed 42 g0)) = Ok shuffled /\
    shuffled ≡ₚ ids /\
    ((2 <= n)%nat ->
     shuffled !! (n - 1)%nat = ids !! fst (randbelow (seed 42) n) /\
     forall i, shuffled !! (n - 1)%nat = Some i -> i ∈ test) /\
    Convert.splits RngState seed randbelow data g0 = Ok (train, val, test) /\
    let a := Z.to_nat (8 * Z.of_nat n / 10) in
    let b := Z.to_nat (9 * Z.of_nat n / 10) in
    train = list_to_set (take a shuffled) /\
    val = list_to_set (take (b - a) (drop a shuffled)) /\
    test = list_to_set (drop b shuffled) /\
    train ## val /\ train ## test /\ val ## test /\
    train ∪ val ∪ test = list_to_set ids /\
    size train = a /\ size val = (b - a)%nat /\ size test = (n - b)%nat /\
    (n = 100%nat -> size train = 80%nat /\ size val = 10%nat /\
                    size test = 10%nat) /\
    (forall i, i ∈ ids ->
       ((i ∈ train) /\ (i ∉ val) /\ (i ∉ test)) \/
       ((i ∉ train) /\ (i ∈ val) /\ (i ∉ test)) \/
       ((i ∉ train) /\ (i ∉ val) /\ (i ∈ test))) /\
    (forall data' g1,
       map Convert.id (Convert.images data') = ids ->
       Convert.splits RngState seed randbelow data' g1
       = Convert.splits RngState seed randbelow data g0).
Proof.
  intros Hrand ids n Hnd Hn.
  destruct (shuffle_Permutation RngState randbelow Hrand ids
              (Convert.random_seed RngState seed 42 g0))
    as (shuffled & Hsh & Hperm).
  assert (Hlen : length shuffled = n) by (now rewrite Hperm).
  set (a := Z.to_nat (8 * Z.of_nat n / 10)).
  set (b := Z.to_nat (9 * Z.of_nat n / 10)).
  assert (Hab : (a <= b)%nat /\ (b <= n)%nat).
  { unfold a, b.
    pose proof (Z.div_mod (8 * Z.of_nat n) 10 ltac:(lia)).
    pose proof (Z.mod_pos_bound (8 * Z.of_nat n) 10 ltac:(lia)).
    pose proof (Z.div_mod (9 * Z.of_nat n) 10 ltac:(lia)).
    pose proof (Z.mod_pos_bound (9 * Z.of_nat n) 10 ltac:(lia)).
    lia. }
  assert (Hnd' : NoDup shuffled) by (now rewrite Hperm).
  destruct (three_way_cut shuffled a b Hnd') as
    (D1 & D2 & D3 & HU & S1 & S2 & S3); [lia|lia|].
  exists shuffled, (list_to_set (take a shuffled)),
    (list_to_set (drop a (take b shuffled))),
    (list_to_set (drop b shuffled)).
  split; [exact Hsh|]. split; [exact Hperm|]. split.
  { intros Hn2. split.
    - exact (shuffle_last RngState randbelow Hrand ids shuffled _ Hn2 Hsh).
    - intros i Hi. apply elem_of_list_to_set.
      apply (list_elem_of_lookup_2 _ (n - 1 - b)%nat).
      assert (Hb1 : (b <= n - 1)%nat).
      { unfold b.
        pose proof (Z.div_mod (9 * Z.of_nat n) 10 ltac:(lia)).
        pose proof (Z.mod_pos_bound (9 * Z.of_nat n) 10 ltac:(lia)).
        lia. }
      rewrite lookup_drop. rewrite <- Hi. f_equal. lia. }
  split.
  { unfold Convert.splits. fold ids. rewrite Hsh. cbn [res_bind].
    rewrite Hlen, int_scaled_0_8, int_scaled_0_9 by exact Hn.
    cbn [res_bind]. unfold Convert.slice. reflexivity. }
  split; [reflexivity|]. split.
  { f_equal. rewrite take_drop_commute. do 2 f_equal. lia. }
  split; [reflexivity|].
  split; [exact D1|]. split; [exact D2|]. split; [exact D3|].
  split.
  { rewrite HU. apply set_eq. intros x. rewrite !elem_of_list_to_set.
    now rewrite Hperm. }
  split; [exact S1|]. split; [exact S2|].
  split; [rewrite S3, Hlen; reflexivity|]. split.
  { intros H100. rewrite S1, S2, S3, Hlen. unfold a, b. rewrite H100.
    repeat split; reflexivity. }
  split.
  { intros i Hi.
    assert (Hin : i ∈ list_to_set (take a shuffled)
                      ∪ list_to_set (drop a (take b shuffled))
                      ∪ (list_to_set (drop b shuffled) : gset Z)).
    { rewrite HU, elem_of_list_to_set, Hperm. exact Hi. }
    apply elem_of_union in Hin as [Hin|Hin];
      [apply elem_of_union in Hin as [Hin|Hin]|].
    - left. split; [exact Hin|]. split; [exact (D1 i Hin)|exact (D2 i Hin)].
    - right. left. split; [intros H; exact (D1 i H Hin)|].
      split; [exact Hin|exact (D3 i Hin)].
    - right. right. split; [intros H; exact (D2 i H Hin)|].
      split; [intros H; exact (D3 i H Hin)|exact Hin]. }
  intros data' g1 Hids. unfold Convert.splits, Convert.random_seed.
  rewrite Hids. reflexivity.
Qed.

Lemma split_allocation_witness :
  exists train val test : gset Z,
    Convert.splits nat sample_seed sample_randbelow sample_manifest 0%nat
      = Ok (train, val, test) /\
    train ## val /\ train ## test /\ val ## test /\
    train ∪ val ∪ test = list_to_set [1; 2; 3; 4; 5; 6; 7; 8; 9; 10] /\
    size train = 8%nat /\ size val = 1%nat /\ size test = 1%nat.
Proof.
  destruct (split_allocation nat sample_seed sample_randbelow
              sample_manifest 0%nat)
    as (shuffled & train & val & test & _ & _ & _ & Hsplits & _ & _ & _
        & D1 & D2 & D3 & HU & S1 & S2 & S3 & _).
  - intros g n Hn. unfold sample_randbelow. cbn [fst].
    apply Nat.mod_upper_bound. lia.
  - apply (bool_decide_unpack _). vm_compute. exact I.
  - vm_compute. reflexivity.
  - exists train, val, test.
    split; [exact Hsplits|]. split; [exact D1|]. split; [exact D2|].
    split; [exact D3|]. split; [exact HU|]. split; [exact S1|].
    split; [exact S2|]. exact S3.
Defined.

Lemma yolo_lines_normalized_witness :
  let anns_by_image : gmap Z (list Convert.Annotation) :=
    {[ 1 := [sample_annotation 3] ]} in
  let img := sample_image 1 in
  let anns := default [] (anns_by_image !! Convert.id img) in
  (forall n, Convert.label_lines anns 100 200 [] n =
               Ok (map (yolo_line 100 200) anns,
                   n + Z.of_nat (length anns))) /\
  (exists st',
     Convert.convert_image "R" ∅ ∅ anns_by_image sample_state img = Ok st' /\
     Convert.fs st' !! label_path "R" (split_of ∅ ∅ (Convert.id img)) "1.txt"
       = Some (Convert.TextFile (Fmt.join "
" (map (yolo_line 100 200) anns)))) /\
  (forall ann, ann ∈ anns ->
     yolo_line 100 200 ann =
       Fmt.str_int (Convert.category_id ann) +:+ " "
         +:+ Fmt.format_f 6 (center_x 100 ann) +:+ " "
         +:+ Fmt.format_f 6 (center_y 200 ann) +:+ " "
         +:+ Fmt.format_f 6 (norm_width 100 ann) +:+ " "
         +:+ Fmt.format_f 6 (norm_height 200 ann) /\
     (Float64.is_finite (center_x 100 ann) = true ->
      six_decimals (center_x 100 ann) (Fmt.format_f 6 (center_x 100 ann))) /\
     (Float64.is_finite (center_y 200 ann) = true ->
      six_decimals (center_y 200 ann) (Fmt.format_f 6 (center_y 200 ann))) /\
     (Float64.is_finite (norm_width 100 ann) = true ->
      six_decimals (norm_width 100 ann)
        (Fmt.format_f 6 (norm_width 100 ann))) /\
     (Float64.is_finite (norm_height 200 ann) = true ->
      six_decimals (norm_height 200 ann)
        (Fmt.format_f 6 (norm_height 200 ann)))) /\
  (forall cat,
     yolo_line 100 200 (sample_annotation cat) =
       Fmt.str_int cat +:+ " 0.250000 0.200000 0.300000 0.200000").
Proof.
  apply (yolo_lines_normalized "R" ∅ ∅ {[ 1 := [sample_annotation 3] ]}
           sample_state (sample_image 1) (Convert.ImageFile (100, 200) 5)
           100 200 "1.txt").
  - vm_compute. reflexivity.
  - reflexivity.
  - reflexivity.
  - lia.
  - lia.
  - vm_compute. reflexivity.
Defined.

(** ** Images missing on disk *)

Lemma convert_image_missing (ROOT : string) (train_ids val_ids : gset Z)
    (anns_by_image : gmap Z (list Convert.Annotation))
    (st : Convert.State) (img : Convert.ImageRecord) :
  Convert.fs st !! joinpath (Convert.RAW ROOT) (Convert.file_name img) = None ->
  Convert.convert_image ROOT train_ids val_ids anns_by_image st img =
    Ok (Convert.print
          ("Missing image: "
             +:+ joinpath (Convert.RAW ROOT) (Convert.file_name img)) st).
Proof. intros H. unfold Convert.convert_image. now rewrite H. Qed.

(** C9 as stated fails: the summary has no counter of missing images.
    A run over one image that is absent from the disk prints the same
    summary, all zeros, as a run over no image; the absence shows only as
    a "Missing image" line printed when it is met. *)
Lemma missing_image_not_counted :
  let run data :=
    Convert.main "R" nat sample_seed sample_randbelow sample_yaml data 0%nat
      sample_disk in
  exists st1 st0,
    run one_image_manifest = Ok st1 /\ run no_image_manifest = Ok st0 /\
    "Missing image: R/data/raw/taco/2.jpg" ∈ Convert.stdout st1 /\
    Convert.summary st1 = Convert.summary st0 /\
    Convert.summary st1 =
      ["
----------------------------";
       "Conversion complete!";
       "Images copied: 0";
       "Images with labels: 0";
       "Total bounding boxes: 0";
       "----------------------------"].
Proof.
  eexists _, _. split; [vm_compute; reflexivity|].
  split; [vm_compute; reflexivity|].
  split; [|split; vm_compute; reflexivity].
  apply (bool_decide_unpack _). vm_compute. exact I.
Qed.

(** C9, amended. An image of the manifest whose source file is absent
    is skipped: nothing is copied, no label file is written in any
    split (the disk is unchanged), the three counters of the summary
    (copied, labelled, boxes) and so the summary itself are unchanged,
    and one "Missing image" line is printed; the loop then goes on with
    the next image from that state.  The summary has no missing count. *)
Theorem missing_image_skipped (ROOT : string) (train_ids val_ids : gset Z)
    (anns_by_image : gmap Z (list Convert.Annotation))
    (st : Convert.State) (img : Convert.ImageRecord)
    (rest : list Convert.ImageRecord) :
  Convert.fs st !! joinpath (Convert.RAW ROOT) (Convert.file_name img) = None ->
  exists st',
    Convert.convert_image ROOT train_ids val_ids anns_by_image st img = Ok st' /\
    Convert.fs st' = Convert.fs st /\
    Convert.copied st' = Convert.copied st /\
    Convert.labeled st' = Convert.labeled st /\
    Convert.boxes st' = Convert.boxes st /\
    Convert.summary st' = Convert.summary st /\
    Convert.stdout st' =
      Convert.stdout st ++
        ["Missing image: "
           +:+ joinpath (Convert.RAW ROOT) (Convert.file_name img)] /\
    Convert.convert_loop ROOT train_ids val_ids anns_by_image (img :: rest) st
      = Convert.convert_loop ROOT train_ids val_ids anns_by_image rest st'.
Proof.
  intros Hmissing. eexists. split.
  - now apply convert_image_missing.
  - repeat split; try reflexivity.
    cbn [Convert.convert_loop].
    rewrite convert_image_missing by assumption. reflexivity.
Qed.

Lemma missing_image_skipped_witness :
  exists st',
    Convert.convert_image "R" ∅ ∅ ∅ sample_state (sample_image 2) = Ok st' /\
    Convert.fs st' = Convert.fs sample_state /\
    Convert.copied st' = Convert.copied sample_state /\
    Convert.labeled st' = Convert.labeled sample_state /\
    Convert.boxes st' = Convert.boxes sample_state /\
    Convert.summary st' = Convert.summary sample_state /\
    Convert.stdout st' =
      Convert.stdout sample_state ++
        ["Missing image: "
           +:+ joinpath (Convert.RAW "R")
                 (Convert.file_name (sample_image 2))] /\
    Convert.convert_loop "R" ∅ ∅ ∅ [sample_image 2; sample_image 1]
      sample_state
      = Convert.convert_loop "R" ∅ ∅ ∅ [sample_image 1] st'.
Proof.
  apply (missing_image_skipped "R" ∅ ∅ ∅ sample_state (sample_image 2)
           [sample_image 1]).
  vm_compute. reflexivity.
Defined.

(** ** The scenarios of the specification *)

(** Bin dry, a wet box of score 0.9 and a dry box of score 0.6: the
    dominant class is wet, the frame is a violation and mixed. *)
Example scenario_wet_in_dry_bin :
  exists r w',
    DetectApi.analyze_frame
      (fun _ _ => [sample_box 1 9 10; sample_box 0 6 10])
      sample_frame "dry" sample_world = (Ok r, w') /\
    DetectApi.class r = Some "wet" /\
    DetectApi.is_violation r = true /\ DetectApi.is_mixed r = true.
Proof.
  eexists _, _. split; [vm_compute; reflexivity|].
  repeat split; reflexivity.
Qed.

(** Bin wet, a single wet box of score 0.95: neither a violation nor
    mixed, and nothing is written. *)
Example scenario_wet_in_wet_bin :
  exists r w',
    DetectApi.analyze_frame (fun _ _ => [sample_box 1 95 100])
      sample_frame "wet" sample_world = (Ok r, w') /\
    DetectApi.is_violation r = false /\ DetectApi.is_mixed r = false /\
    files w' = files sample_world.
Proof.
  eexists _, _. split; [vm_compute; reflexivity|].
  repeat split; reflexivity.
Qed.

(** Bin dry, a wet box whose score is not a number and a dry box of
    score 0.9: [max] keeps the first score, [index] finds it at its own
    place, and the first box decides; nothing is raised, and the
    snapshot is written. *)
Example scenario_nan_first_score :
  exists r w',
    DetectApi.analyze_frame
      (fun _ _ => [{| cls := 1; conf := S754_nan;
                      xyxy := (10, 20, 110, 220) |}; sample_box 0 9 10])
      sample_frame "dry" sample_world = (Ok r, w') /\
    DetectApi.class r = Some "wet" /\
    DetectApi.confidence r = Some S754_nan /\
    DetectApi.is_violation r = true /\
    files w' !! "snapshots/violation_20240309_140500.jpg" = Some sample_frame.
Proof.
  eexists _, _. split; [vm_compute; reflexivity|].
  split; [reflexivity|]. split; [reflexivity|]. split; [reflexivity|].
  vm_compute. reflexivity.
Qed.

(** * Further properties of the code *)

(** ** Snapshot names *)
Section SnapshotNames.

Lemma append_inj_length (a1 a2 b1 b2 : string) :
  String.length a1 = String.length a2 ->
  a1 +:+ b1 = a2 +:+ b2 -> a1 = a2 /\ b1 = b2.
Proof.
  revert a2. induction a1 as [|x a1 IH]; intros [|y a2] Hlen Heq;
    try discriminate.
  - split; [reflexivity|exact Heq].
  - rewrite !append_cons in Heq. injection Heq as -> Heq.
    injection Hlen as Hlen. destruct (IH a2 Hlen Heq) as [-> ->].
    split; reflexivity.
Qed.

Lemma frac_digits_inj (k : nat) (r1 r2 : Z) :
  0 <= r1 < 10 ^ Z.of_nat k -> 0 <= r2 < 10 ^ Z.of_nat k ->
  Fmt.frac_digits k r1 = Fmt.frac_digits k r2 -> r1 = r2.
Proof.
  intros H1 H2 Heq.
  destruct (frac_digits_spec k r1) as (_ & _ & Hv1); [lia|].
  destruct (frac_digits_spec k r2) as (_ & _ & Hv2); [lia|].
  specialize (Hv1 0). specialize (Hv2 0). rewrite Heq in Hv1.
  rewrite Hv1 in Hv2. rewrite !Z.mod_small in Hv2 by lia. lia.
Qed.

Lemma frac_digits_length (k : nat) (r : Z) :
  String.length (Fmt.frac_digits k r) = k.
Proof. induction k as [|k IH]; simpl; [reflexivity|now rewrite IH]. Qed.

(** Two printable times get the same compact stamp exactly when they
    fall in the same second. *)
Lemma strftime_compact_inj (t1 t2 : datetime) :
  printable t1 -> printable t2 ->
  strftime_compact t1 = strftime_compact t2 -> same_second t1 t2.
Proof.
  intros (Hy1 & Hm1 & Hd1 & Hh1 & Hmi1 & Hs1)
         (Hy2 & Hm2 & Hd2 & Hh2 & Hmi2 & Hs2) Heq.
  unfold strftime_compact in Heq.
  apply append_inj_length in Heq as [Ey Heq];
    [|now rewrite !frac_digits_length].
  apply append_inj_length in Heq as [Em Heq];
    [|now rewrite !frac_digits_length].
  apply append_inj_length in Heq as [Ed Heq];
    [|now rewrite !frac_digits_length].
  apply append_inj_length in Heq as [_ Heq]; [|reflexivity].
  apply append_inj_length in Heq as [Eh Heq];
    [|now rewrite !frac_digits_length].
  apply append_inj_length in Heq as [Emi Es];
    [|now rewrite !frac_digits_length].
  unfold same_second.
  repeat split; eapply frac_digits_inj; eauto; simpl; lia.
Qed.

Lemma same_second_stamp (t1 t2 : datetime) :
  same_second t1 t2 -> strftime_compact t1 = strftime_compact t2.
Proof.
  intros (Ey & Em & Ed & Eh & Emi & Es). unfold strftime_compact.
  now rewrite Ey, Em, Ed, Eh, Emi, Es.
Qed.

Lemma snapshot_name_inj (t1 t2 : datetime) :
  snapshot_name t1 = snapshot_name t2 ->
  strftime_compact t1 = strftime_compact t2.
Proof.
  unfold snapshot_name, joinpath. intros Heq.
  apply append_inj_length in Heq as [_ Heq]; [|reflexivity].
  apply append_inj_length in Heq as [_ Heq]; [|reflexivity].
  apply append_inj_length in Heq as [_ Heq]; [|reflexivity].
  assert (Hlen : String.length (strftime_compact t1)
                 = String.length (strftime_compact t2)).
  { unfold strftime_compact.
    rewrite !length_append, !frac_digits_length. reflexivity. }
  now apply append_inj_length in Heq as [Heq _].
Qed.

(** What [save_snapshot] does: one reading of the clock, one file. *)
Lemma save_snapshot_run (frame : Frame) (w : World) :
  save_snapshot frame w =
    (Ok (snapshot_name (clock w (ticks w))),
     {| ticks := S (ticks w); clock := clock w;
        files := <[snapshot_name (clock w (ticks w)) := frame]> (files w) |}).
Proof. reflexivity. Qed.

End SnapshotNames.

(** X1. Two snapshots taken within the same second collide: both get the
    same path, and after the second one the file holds the second frame
    only; the first frame is lost. *)
Theorem snapshots_in_one_second_overwrite (f1 f2 : Frame) (w : World) :
  same_second (clock w (ticks w)) (clock w (S (ticks w))) ->
  exists p w1 w2,
    save_snapshot f1 w = (Ok p, w1) /\ save_snapshot f2 w1 = (Ok p, w2) /\
    files w1 !! p = Some f1 /\
    files w2 = <[p := f2]> (files w) /\ files w2 !! p = Some f2.
Proof.
  intros Hsame. apply same_second_stamp in Hsame.
  assert (Hname : snapshot_name (clock w (S (ticks w)))
                  = snapshot_name (clock w (ticks w))).
  { unfold snapshot_name. now rewrite Hsame. }
  eexists _, _, _. split; [apply save_snapshot_run|].
  split; [rewrite save_snapshot_run; cbn [ticks clock files];
          rewrite Hname; reflexivity|].
  cbn [files]. split; [apply lookup_insert_eq|].
  split; [apply insert_insert_eq|apply lookup_insert_eq].
Qed.

Lemma snapshots_in_one_second_overwrite_witness :
  let w := {| ticks := 0; clock := fun _ => clock sample_world 0%nat;
              files := ∅ |} in
  exists p w1 w2,
    save_snapshot sample_frame w = (Ok p, w1) /\
    save_snapshot {| buffer := 8; overlay := [] |} w1 = (Ok p, w2) /\
    files w1 !! p = Some sample_frame /\
    files w2 = <[p := {| buffer := 8; overlay := [] |}]> (files w) /\
    files w2 !! p = Some {| buffer := 8; overlay := [] |}.
Proof.
  apply (snapshots_in_one_second_overwrite sample_frame
           {| buffer := 8; overlay := [] |}
           {| ticks := 0; clock := fun _ => clock sample_world 0%nat;
              files := ∅ |}).
  repeat split; reflexivity.
Defined.

(** X2. Snapshots taken in different seconds get different paths, so
    both frames are on disk afterwards: the file name tells the second
    apart, and nothing else. *)
Theorem snapshots_in_two_seconds_kept (f1 f2 : Frame) (w : World) :
  printable (clock w (ticks w)) -> printable (clock w (S (ticks w))) ->
  ~ same_second (clock w (ticks w)) (clock w (S (ticks w))) ->
  exists p1 p2 w1 w2,
    save_snapshot f1 w = (Ok p1, w1) /\ save_snapshot f2 w1 = (Ok p2, w2) /\
    p1 <> p2 /\ files w2 !! p1 = Some f1 /\ files w2 !! p2 = Some f2.
Proof.
  intros Hp1 Hp2 Hdiff.
  assert (Hne : snapshot_name (clock w (ticks w))
                <> snapshot_name (clock w (S (ticks w)))).
  { intros Heq. apply Hdiff. apply strftime_compact_inj; try assumption.
    now apply snapshot_name_inj. }
  eexists _, _, _, _. split; [apply save_snapshot_run|].
  split; [apply save_snapshot_run|].
  cbn [ticks clock files]. split; [exact Hne|]. split.
  - rewrite lookup_insert_ne by congruence. apply lookup_insert_eq.
  - apply lookup_insert_eq.
Qed.

Lemma snapshots_in_two_seconds_kept_witness :
  exists p1 p2 w1 w2,
    save_snapshot sample_frame sample_world = (Ok p1, w1) /\
    save_snapshot {| buffer := 8; overlay := [] |} w1 = (Ok p2, w2) /\
    p1 <> p2 /\ files w2 !! p1 = Some sample_frame /\
    files w2 !! p2 = Some {| buffer := 8; overlay := [] |}.
Proof.
  apply (snapshots_in_two_seconds_kept sample_frame
           {| buffer := 8; overlay := [] |} sample_world).
  - unfold printable. simpl. lia.
  - unfold printable. simpl. lia.
  - unfold same_second. simpl. lia.
Defined.

(** ** What [detect_and_draw] draws *)
Section Drawing.

Variable BIN_TYPE : string.

Lemma draw_boxes_overlay (dets : list Box) (violation : bool) (frame : Frame) :
  Forall known_class dets ->
  Detect.draw_boxes BIN_TYPE dets violation frame =
    (Ok (violation || existsb (wrong_bin BIN_TYPE) dets),
     {| buffer := buffer frame;
        overlay := overlay frame ++ flat_map (box_ops BIN_TYPE) dets |}).
Proof.
  revert violation frame.
  induction dets as [|b dets IH]; intros violation frame Hk.
  - simpl. rewrite orb_false_r, app_nil_r. now destruct frame.
  - inversion Hk as [|? ? Hb Hrest]; subst.
    destruct (known_class_label b Hb) as [t Ht].
    assert (Hw : wrong_bin BIN_TYPE b = negb (String.eqb t BIN_TYPE))
      by (unfold wrong_bin; now rewrite Ht).
    cbn [Detect.draw_boxes flat_map existsb].
    rewrite class_map_get_label, Ht.
    unfold box_ops at 1. rewrite Ht, Hw.
    destruct (xyxy b) as [[[x1 y1] x2] y2].
    rewrite IH by assumption. cbn [buffer overlay].
    rewrite <- app_assoc.
    destruct (negb (String.eqb t BIN_TYPE)), violation; reflexivity.
Qed.

Lemma draw_boxes_partial (pre post : list Box) (b : Box)
    (violation : bool) (frame : Frame) :
  Forall known_class pre -> ~ known_class b ->
  Detect.draw_boxes BIN_TYPE (pre ++ b :: post) violation frame =
    (Raise (KeyError (cls b)),
     {| buffer := buffer frame;
        overlay := overlay frame ++ flat_map (box_ops BIN_TYPE) pre |}).
Proof.
  revert violation frame.
  induction pre as [|a pre IH]; intros violation frame Hk Hb.
  - simpl. rewrite class_map_get_label, (unknown_class_label b Hb).
    rewrite app_nil_r. now destruct frame.
  - inversion Hk as [|? ? Ha Hrest]; subst.
    destruct (known_class_label a Ha) as [t Ht].
    assert (Hw : wrong_bin BIN_TYPE a = negb (String.eqb t BIN_TYPE))
      by (unfold wrong_bin; now rewrite Ht).
    cbn [app Detect.draw_boxes flat_map].
    rewrite class_map_get_label, Ht.
    unfold box_ops at 1. rewrite Ht, Hw.
    destruct (xyxy a) as [[[x1 y1] x2] y2].
    rewrite IH by assumption. cbn [buffer overlay].
    rewrite <- app_assoc.
    destruct (negb (String.eqb t BIN_TYPE)); reflexivity.
Qed.

Lemma box_ops_length (dets : list Box) :
  Forall known_class dets ->
  length (flat_map (box_ops BIN_TYPE) dets) = (2 * length dets)%nat.
Proof.
  induction 1 as [|b dets Hb _ IH]; [reflexivity|].
  destruct (known_class_label b Hb) as [t Ht].
  cbn [flat_map]. rewrite length_app, IH. unfold box_ops. rewrite Ht.
  destruct (xyxy b) as [[[x1 y1] x2] y2]. simpl. lia.
Qed.

End Drawing.

(** X3. When every class id is known, [detect_and_draw] leaves the
    pixel buffer and what was already drawn untouched and adds, for each
    detection in order, its rectangle and its label, two shapes per box,
    red exactly for the boxes whose label is not the bin's; the flag it
    returns is true exactly when some box is red. *)
Theorem detect_and_draw_overlay (BIN_TYPE : string) (THRESHOLD : float)
    (model : Detector) (frame : Frame) :
  let dets := model frame THRESHOLD in
  Forall known_class dets ->
  exists violation frame',
    Detect.detect_and_draw BIN_TYPE THRESHOLD model frame
      = (Ok violation, frame') /\
    buffer frame' = buffer frame /\
    overlay frame' = overlay frame ++ flat_map (box_ops BIN_TYPE) dets /\
    length (overlay frame') = (length (overlay frame) + 2 * length dets)%nat /\
    (violation = true <->
     exists b, b ∈ dets /\ wrong_bin BIN_TYPE b = true) /\
    (dets = [] -> frame' = frame /\ violation = false).
Proof.
  intros dets Hk. unfold Detect.detect_and_draw. fold dets.
  rewrite draw_boxes_overlay by assumption.
  eexists _, _. split; [reflexivity|]. cbn [buffer overlay].
  split; [reflexivity|]. split; [reflexivity|]. split; [|split].
  - rewrite length_app, box_ops_length by assumption. reflexivity.
  - cbn [orb]. rewrite existsb_exists. split.
    + intros (b & Hin & Hb). exists b.
      split; [now apply list_elem_of_In|exact Hb].
    + intros (b & Hin & Hb). exists b.
      split; [now apply list_elem_of_In|exact Hb].
  - intros ->. simpl. rewrite app_nil_r. split; [now destruct frame|reflexivity].
Qed.

Lemma detect_and_draw_overlay_witness :
  let dets := [sample_box 0 9 10; sample_box 1 6 10] in
  exists violation frame',
    Detect.detect_and_draw "dry" THRESHOLD (fun _ _ => dets) sample_frame
      = (Ok violation, frame') /\
    buffer frame' = buffer sample_frame /\
    overlay frame' = overlay sample_frame ++ flat_map (box_ops "dry") dets /\
    length (overlay frame')
      = (length (overlay sample_frame) + 2 * length dets)%nat /\
    (violation = true <->
     exists b, b ∈ dets /\ wrong_bin "dry" b = true) /\
    (dets = [] -> frame' = sample_frame /\ violation = false).
Proof.
  apply (detect_and_draw_overlay "dry" THRESHOLD
           (fun _ _ => [sample_box 0 9 10; sample_box 1 6 10]) sample_frame).
  repeat constructor; unfold known_class; simpl; lia.
Defined.

(** X4. A class id outside [CLASS_MAP] interrupts [detect_and_draw] in
    the middle of its work: the boxes before the first unknown one are
    already drawn on the frame when [KeyError] is raised, and none after
    it. *)
Theorem detect_and_draw_partial_on_key_error (BIN_TYPE : string)
    (THRESHOLD : float) (model : Detector) (frame : Frame)
    (pre post : list Box) (b : Box) :
  model frame THRESHOLD = pre ++ b :: post ->
  Forall known_class pre -> ~ known_class b ->
  exists frame',
    Detect.detect_and_draw BIN_TYPE THRESHOLD model frame
      = (Raise (KeyError (cls b)), frame') /\
    buffer frame' = buffer frame /\
    overlay frame' = overlay frame ++ flat_map (box_ops BIN_TYPE) pre /\
    length (overlay frame') = (length (overlay frame) + 2 * length pre)%nat.
Proof.
  intros Hdets Hpre Hb. unfold Detect.detect_and_draw. rewrite Hdets.
  rewrite draw_boxes_partial by assumption.
  eexists. split; [reflexivity|]. cbn [buffer overlay].
  split; [reflexivity|]. split; [reflexivity|].
  rewrite length_app, box_ops_length by assumption. reflexivity.
Qed.

Lemma detect_and_draw_partial_on_key_error_witness :
  exists frame',
    Detect.detect_and_draw "dry" THRESHOLD
      (fun _ _ => [sample_box 0 9 10; sample_box 7 6 10; sample_box 1 5 10])
      sample_frame
      = (Raise (KeyError (cls (sample_box 7 6 10))), frame') /\
    buffer frame' = buffer sample_frame /\
    overlay frame' = overlay sample_frame
                       ++ flat_map (box_ops "dry") [sample_box 0 9 10] /\
    length (overlay frame')
      = (length (overlay sample_frame) + 2 * length [sample_box 0 9 10])%nat.
Proof.
  apply (detect_and_draw_partial_on_key_error "dry" THRESHOLD
           (fun _ _ => [sample_box 0 9 10; sample_box 7 6 10;
                        sample_box 1 5 10])
           sample_frame [sample_box 0 9 10] [sample_box 1 5 10]
           (sample_box 7 6 10)).
  - reflexivity.
  - repeat constructor; unfold known_class; simpl; lia.
  - unfold known_class. simpl. lia.
Defined.

(** X5. On the same detections the two classifiers are ordered: a
    violation reported by [analyze_frame] is always flagged by
    [detect_and_draw], and the two agree whenever the frame is not
    mixed; they can differ only on a mixed frame whose dominant class is
    the bin's. *)
Theorem classifiers_agree_unless_mixed (MODEL : Detector) (frame : Frame)
    (correct_bin : string) (w : World) :
  let dets := MODEL frame THRESHOLD in
  dets <> [] -> Forall known_class dets -> Forall scored dets ->
  exists r w' violation frame',
    DetectApi.analyze_frame MODEL frame correct_bin w = (Ok r, w') /\
    Detect.detect_and_draw correct_bin THRESHOLD MODEL frame
      = (Ok violation, frame') /\
    (DetectApi.is_violation r = true -> violation = true) /\
    (DetectApi.is_mixed r = false -> violation = DetectApi.is_violation r) /\
    (violation <> DetectApi.is_violation r ->
       DetectApi.is_mixed r = true /\ DetectApi.is_violation r = false).
Proof.
  intros dets Hne Hk Hs.
  destruct (analyze_frame_nonempty MODEL frame correct_bin w Hne Hk Hs)
    as (i & box & label & (Hi & _) & Hlabel & Hr).
  fold dets in Hi, Hr.
  assert (Hwb : wrong_bin correct_bin box = negb (String.eqb label correct_bin))
    by (unfold wrong_bin; now rewrite Hlabel).
  assert (Hin : In box dets).
  { apply list_elem_of_In. eapply list_elem_of_lookup_2. exact Hi. }
  set (flag := existsb (wrong_bin correct_bin) dets).
  assert (Hflag1 : negb (String.eqb label correct_bin) = true -> flag = true).
  { intros Hv. apply existsb_exists. exists box. split; [exact Hin|].
    now rewrite Hwb. }
  assert (Hflag2 :
    (1 <? size (list_to_set (omap class_label dets) : gset string))%nat = false ->
    flag = negb (String.eqb label correct_bin)).
  { intros Hmix. rewrite size_labels in Hmix. apply Nat.ltb_ge in Hmix.
    destruct (negb (String.eqb label correct_bin)) eqn:Hv; [auto|].
    apply not_true_is_false. intros Hex. apply existsb_exists in Hex.
    destruct Hex as (b & Hb & Hwrong).
    assert (Hsame : class_label b = class_label box).
    { destruct (decide (class_label b = class_label box)) as [|Hd]; [assumption|].
      assert (1 < length (distinct_labels dets))%nat.
      { apply two_labels; [exact Hk|]. exists b, box.
        repeat split; try assumption; now apply list_elem_of_In. }
      unfold distinct_labels in *. lia. }
    unfold wrong_bin in Hwrong. rewrite Hsame, Hlabel in Hwrong. congruence. }
  unfold Detect.detect_and_draw. fold dets.
  rewrite draw_boxes_overlay by assumption. cbn [orb]. fold flag.
  rewrite Hr.
  destruct (negb (String.eqb label correct_bin)) eqn:Hv;
    eexists _, _, _, _; (split; [reflexivity|]); (split; [reflexivity|]);
    cbn [DetectApi.is_violation DetectApi.is_mixed].
  - rewrite (Hflag1 eq_refl). split; [auto|]. split; [auto|]. congruence.
  - split; [discriminate|]. split; [exact Hflag2|].
    intros Hneq. split; [|reflexivity].
    apply not_false_is_true. intros Hm. apply Hneq. now apply Hflag2.
Qed.

Lemma classifiers_agree_unless_mixed_witness :
  let dets := [sample_box 0 9 10; sample_box 1 6 10] in
  exists r w' violation frame',
    DetectApi.analyze_frame (fun _ _ => dets) sample_frame "dry" sample_world
      = (Ok r, w') /\
    Detect.detect_and_draw "dry" THRESHOLD (fun _ _ => dets) sample_frame
      = (Ok violation, frame') /\
    (DetectApi.is_violation r = true -> violation = true) /\
    (DetectApi.is_mixed r = false -> violation = DetectApi.is_violation r) /\
    (violation <> DetectApi.is_violation r ->
       DetectApi.is_mixed r = true /\ DetectApi.is_violation r = false).
Proof.
  apply (classifiers_agree_unless_mixed
           (fun _ _ => [sample_box 0 9 10; sample_box 1 6 10])
           sample_frame "dry" sample_world).
  - discriminate.
  - repeat constructor; unfold known_class; simpl; lia.
  - repeat constructor; reflexivity.
Defined.

(** ** The range of the reported confidence *)
Section Round3.

Lemma unit_mantissa (m : positive) (e : Z) :
  valid_binary Float64.prec Float64.emax (S754_finite false m e) = true ->
  Float64.leb (S754_finite false m e) (Float64.of_Z 1) = true ->
  e < 0 -> Z.pos m <= 2 ^ (- e).
Proof.
  intros Hvalid Hle He.
  replace (Float64.of_Z 1) with (S754_finite false 4503599627370496 (-52))
    in Hle by (vm_compute; reflexivity).
  unfold Float64.leb, SFleb in Hle. cbn [SFcompare] in Hle.
  change (PosDef.Pos.compare_cont Eq) with Pos.compare in Hle.
  destruct (Z.compare_spec e (-52)) as [E|E|E]; [| |discriminate Hle].
  - subst e. change (2 ^ (- -52)) with (Z.pos 4503599627370496).
    assert (Hc : (m <= 4503599627370496)%positive).
    { intros C. rewrite C in Hle. discriminate Hle. }
    exact (Pos2Z.pos_le_pos _ _ Hc).
  - cbn [valid_binary] in Hvalid. unfold bounded, canonical_mantissa in Hvalid.
    apply andb_prop in Hvalid as [Hcanon _]. apply Z.eqb_eq in Hcanon.
    unfold fexp, emin, Float64.prec, Float64.emax in Hcanon.
    assert (Hd : Z.pos (digits2_pos m) <= 53) by (clear - Hcanon; lia).
    pose proof (digits2_pos_lt m) as Hm.
    assert (2 ^ Z.pos (digits2_pos m) <= 2 ^ (- e))
      by (apply Z.pow_le_mono_r; clear - Hd E; lia).
    clear - Hm H. lia.
Qed.

Lemma round_half_even_le (num den c : Z) :
  0 <= num <= c * den -> 0 < den ->
  0 <= Float64.round_half_even num den <= c.
Proof.
  intros Hnum Hden.
  destruct (round_half_even_near num den) as [Hnn _]; [lia|lia|].
  split; [exact Hnn|]. unfold Float64.round_half_even.
  pose proof (Z.div_mod num den ltac:(lia)) as Hdiv.
  pose proof (Z.mod_pos_bound num den ltac:(lia)) as Hmod.
  set (q := num / den) in *. set (r := num mod den) in *.
  assert (Hq : q <= c).
  { destruct (Z_le_gt_dec q c); [assumption|].
    assert (den * (c + 1) <= den * q) by (apply Z.mul_le_mono_nonneg_l; lia).
    lia. }
  destruct (Z.eq_dec q c) as [Hqc|Hqc].
  - assert (r = 0) by (subst q; lia).
    destruct (Z.compare_spec (2 * r) den); try lia.
  - destruct (Z.compare_spec (2 * r) den); [destruct (Z.even q)| |]; lia.
Qed.

Lemma thousandths_in_unit (p : positive) :
  Z.pos p <= 1000 ->
  Float64.leb (S754_zero false) (Float64.of_ratio false p 1000) = true /\
  Float64.leb (Float64.of_ratio false p 1000) (Float64.of_Z 1) = true.
Proof.
  intros Hp.
  assert (Hall : forallb thousandth_in_unit (seq 1 1000) = true)
    by (vm_compute; reflexivity).
  rewrite forallb_forall in Hall.
  specialize (Hall (Pos.to_nat p)).
  unfold thousandth_in_unit in Hall. rewrite Pos2Nat.id in Hall.
  apply andb_prop. apply Hall. apply in_seq. lia.
Qed.

(** Rounding a canonical score of [0,1] to three decimals stays in
    [0,1]. *)
Lemma round3_in_unit (x : float) :
  valid_binary Float64.prec Float64.emax x = true ->
  Float64.leb (S754_zero false) x = true ->
  Float64.leb x (Float64.of_Z 1) = true ->
  Float64.leb (S754_zero false) (Float64.round3 x) = true /\
  Float64.leb (Float64.round3 x) (Float64.of_Z 1) = true.
Proof.
  intros Hvalid H0 H1.
  destruct x as [s|s| |s m e]; try (split; assumption).
  destruct s; [discriminate|].
  cbn [Float64.round3]. destruct (0 <=? e) eqn:He; [split; assumption|].
  apply Z.leb_gt in He.
  pose proof (unit_mantissa m e Hvalid H1 He) as Hm.
  unfold Float64.scaled_digits. rewrite (proj2 (Z.leb_gt 0 e) He).
  change (Z.of_nat 3) with 3. change (10 ^ 3) with 1000.
  assert (Hden : 0 < 2 ^ (- e)) by (apply Z.pow_pos_nonneg; lia).
  destruct (round_half_even_le (Z.pos m * 1000) (2 ^ (- e)) 1000)
    as [Hk0 Hk1]; [lia|lia|].
  destruct (Float64.round_half_even (Z.pos m * 1000) (2 ^ (- e)))
    as [|k|k]; try lia.
  - split; reflexivity.
  - now apply thousandths_in_unit.
Qed.

End Round3.

(** X6. When every score is a canonical binary64 in [0,1], as a
    detector's scores are, the confidence that [analyze_frame] reports,
    the dominant score rounded to three decimals, is in [0,1] too. *)
Theorem reported_confidence_in_unit_interval (MODEL : Detector)
    (frame : Frame) (correct_bin : string) (w : World) :
  let dets := MODEL frame THRESHOLD in
  dets <> [] -> Forall known_class dets -> Forall unit_score dets ->
  exists r w' c,
    DetectApi.analyze_frame MODEL frame correct_bin w = (Ok r, w') /\
    DetectApi.confidence r = Some c /\
    Float64.leb (S754_zero false) c = true /\
    Float64.leb c (Float64.of_Z 1) = true.
Proof.
  intros dets Hne Hk Hu.
  assert (Hs : Forall scored dets).
  { eapply Forall_impl; [exact Hu|]. intros b (_ & H0 & _).
    unfold scored. destruct (conf b); try reflexivity; discriminate. }
  destruct (analyze_frame_nonempty MODEL frame correct_bin w Hne Hk Hs)
    as (i & box & label & (Hi & _) & _ & Hr).
  fold dets in Hi, Hr.
  destruct (Forall_lookup_1 _ _ _ _ Hu Hi) as (Hv & H0 & H1).
  destruct (round3_in_unit (conf box) Hv H0 H1) as [R0 R1].
  rewrite Hr.
  destruct (negb (String.eqb label correct_bin));
    eexists _, _, _; (split; [reflexivity|]); (split; [reflexivity|]);
    split; assumption.
Qed.

Lemma reported_confidence_in_unit_interval_witness :
  exists r w' c,
    DetectApi.analyze_frame
      (fun _ _ => [sample_box 1 9995 10000; sample_box 0 1 3])
      sample_frame "dry" sample_world = (Ok r, w') /\
    DetectApi.confidence r = Some c /\
    Float64.leb (S754_zero false) c = true /\
    Float64.leb c (Float64.of_Z 1) = true.
Proof.
  apply (reported_confidence_in_unit_interval
           (fun _ _ => [sample_box 1 9995 10000; sample_box 0 1 3])
           sample_frame "dry" sample_world).
  - discriminate.
  - repeat constructor; unfold known_class; simpl; lia.
  - repeat constructor; vm_compute; reflexivity.
Defined.

(** ** The camera loop of [detect.py] *)
Section CameraLoop.

Variable BIN_TYPE : string.
Variable THRESHOLD : float.
Variable shape : N -> Z * Z * Z.
Variable camera : nat -> bool * Frame.
Variable keyboard : nat -> Z.

(** A turn whose read fails only counts the read. *)
Lemma camera_iteration_no_frame (model : Detector) (s : Detect.Session) :
  fst (camera (Detect.frames_read s)) = false ->
  Detect.camera_iteration BIN_TYPE THRESHOLD shape camera keyboard model s =
    Detect.Next
      {| Detect.world := Detect.world s;
         Detect.frames_read := S (Detect.frames_read s);
         Detect.keys_polled := Detect.keys_polled s;
         Detect.shown := Detect.shown s;
         Detect.printed := Detect.printed s |}.
Proof.
  intros Hret. unfold Detect.camera_iteration.
  destruct (camera (Detect.frames_read s)) as [ret frame].
  cbn [fst] in Hret. subst ret. reflexivity.
Qed.

End CameraLoop.

(** X7. While the camera delivers no frame the loop only spins: after
    any number of turns nothing has been shown, printed or saved, the
    keyboard has not been polled once, so that no key can stop it, and
    the loop is still running. *)
Theorem camera_loop_spins_without_frames (BIN_TYPE : string)
    (THRESHOLD : float) (shape : N -> Z * Z * Z)
    (camera : nat -> bool * Frame) (keyboard : nat -> Z)
    (model : Detector) (fuel : nat) (s : Detect.Session) :
  (forall n, fst (camera n) = false) ->
  Detect.camera_loop BIN_TYPE THRESHOLD shape camera keyboard model fuel s =
    Detect.Next
      {| Detect.world := Detect.world s;
         Detect.frames_read := (fuel + Detect.frames_read s)%nat;
         Detect.keys_polled := Detect.keys_polled s;
         Detect.shown := Detect.shown s;
         Detect.printed := Detect.printed s |}.
Proof.
  intros Hdead. revert s. induction fuel as [|fuel IH]; intros s.
  - simpl. now destruct s.
  - cbn [Detect.camera_loop].
    rewrite camera_iteration_no_frame by apply Hdead.
    rewrite IH. cbn [Detect.world Detect.frames_read Detect.keys_polled
                     Detect.shown Detect.printed].
    do 2 f_equal. lia.
Qed.

Lemma camera_loop_spins_without_frames_witness :
  Detect.camera_loop "dry" THRESHOLD sample_shape dead_camera
    (fun _ => 113) (fun _ _ => [sample_box 1 9 10]) 5 sample_session =
    Detect.Next
      {| Detect.world := Detect.world sample_session;
         Detect.frames_read := (5 + Detect.frames_read sample_session)%nat;
         Detect.keys_polled := Detect.keys_polled sample_session;
         Detect.shown := Detect.shown sample_session;
         Detect.printed := Detect.printed sample_session |}.
Proof.
  apply (camera_loop_spins_without_frames "dry" THRESHOLD sample_shape
           dead_camera (fun _ => 113) (fun _ _ => [sample_box 1 9 10]) 5
           sample_session).
  intros n. reflexivity.
Defined.

Section CameraTurn.

Variable BIN_TYPE : string.
Variable THRESHOLD : float.
Variable shape : N -> Z * Z * Z.
Variable camera : nat -> bool * Frame.
Variable keyboard : nat -> Z.

Lemma land_low_byte (k : Z) : Z.land k 255 = k mod 256.
Proof. change 255 with (Z.ones 8). now rewrite Z.land_ones by lia. Qed.

(** A turn that reads a frame whose class ids are all known. *)
Lemma camera_iteration_frame (model : Detector) (s : Detect.Session)
    (frame : Frame) :
  camera (Detect.frames_read s) = (true, frame) ->
  let dets := model frame THRESHOLD in
  Forall known_class dets ->
  let boxed := {| buffer := buffer frame;
                  overlay := overlay frame ++ flat_map (box_ops BIN_TYPE) dets |} in
  let path := snapshot_name (clock (Detect.world s) (ticks (Detect.world s))) in
  let s' :=
    if existsb (wrong_bin BIN_TYPE) dets then
      {| Detect.world :=
           {| ticks := S (ticks (Detect.world s));
              clock := clock (Detect.world s);
              files := <[path := Detect.draw_violation_alert shape boxed]>
                         (files (Detect.world s)) |};
         Detect.frames_read := S (Detect.frames_read s);
         Detect.keys_polled := S (Detect.keys_polled s);
         Detect.shown :=
           Detect.shown s ++ [Detect.draw_violation_alert shape boxed];
         Detect.printed :=
           Detect.printed s ++ ["🚨 VIOLATION! Snapshot saved → " +:+ path] |}
    else
      {| Detect.world := Detect.world s;
         Detect.frames_read := S (Detect.frames_read s);
         Detect.keys_polled := S (Detect.keys_polled s);
         Detect.shown := Detect.shown s ++ [boxed];
         Detect.printed := Detect.printed s |} in
  Detect.camera_iteration BIN_TYPE THRESHOLD shape camera keyboard model s =
    if keyboard (Detect.keys_polled s) mod 256 =? 113
    then Detect.Quit s' else Detect.Next s'.
Proof.
  intros Hread dets Hk boxed path s'.
  unfold Detect.camera_iteration. rewrite Hread. cbn [negb].
  unfold Detect.detect_and_draw. fold dets.
  rewrite draw_boxes_overlay by assumption. cbn [orb]. fold boxed.
  unfold s'. rewrite <- land_low_byte.
  destruct (existsb (wrong_bin BIN_TYPE) dets).
  - rewrite save_snapshot_run. cbn [Detect.world]. fold path.
    unfold Detect.print.
    cbn [Detect.world Detect.frames_read Detect.keys_polled Detect.shown
         Detect.printed].
    reflexivity.
  - cbn [Detect.world Detect.frames_read Detect.keys_polled Detect.shown
         Detect.printed].
    reflexivity.
Qed.

Lemma alert_overlay (frame : Frame) :
  buffer (Detect.draw_violation_alert shape frame) = buffer frame /\
  exists h w c,
    shape (buffer frame) = (h, w, c) /\
    overlay (Detect.draw_violation_alert shape frame)
      = overlay frame ++ alert_ops h w.
Proof.
  unfold Detect.draw_violation_alert.
  destruct (shape (buffer frame)) as [[h w] c].
  split; [reflexivity|]. exists h, w, c. split; reflexivity.
Qed.

End CameraTurn.

(** X8. A turn that reads a frame with a detection of the wrong class
    saves and shows one and the same picture: the frame with every box
    drawn and the alert on top.  Exactly one file is written, under the
    snapshot name of the current second, one line naming it is printed,
    and one key is polled. *)
Theorem camera_turn_on_violation (BIN_TYPE : string) (THRESHOLD : float)
    (shape : N -> Z * Z * Z) (camera : nat -> bool * Frame)
    (keyboard : nat -> Z) (model : Detector) (s : Detect.Session)
    (frame : Frame) :
  camera (Detect.frames_read s) = (true, frame) ->
  let dets := model frame THRESHOLD in
  Forall known_class dets ->
  (exists b, b ∈ dets /\ class_label b <> Some BIN_TYPE) ->
  exists s' picture h w c,
    (Detect.camera_iteration BIN_TYPE THRESHOLD shape camera keyboard model s
       = Detect.Next s' \/
     Detect.camera_iteration BIN_TYPE THRESHOLD shape camera keyboard model s
       = Detect.Quit s') /\
    shape (buffer frame) = (h, w, c) /\
    buffer picture = buffer frame /\
    overlay picture =
      overlay frame ++ flat_map (box_ops BIN_TYPE) dets ++ alert_ops h w /\
    Detect.shown s' = Detect.shown s ++ [picture] /\
    files (Detect.world s') =
      <[snapshot_name (clock (Detect.world s) (ticks (Detect.world s)))
          := picture]> (files (Detect.world s)) /\
    Detect.printed s' =
      Detect.printed s ++
        ["🚨 VIOLATION! Snapshot saved → "
           +:+ snapshot_name (clock (Detect.world s) (ticks (Detect.world s)))] /\
    Detect.keys_polled s' = S (Detect.keys_polled s) /\
    Detect.frames_read s' = S (Detect.frames_read s).
Proof.
  intros Hread dets Hk (b & Hin & Hneq).
  pose proof (camera_iteration_frame BIN_TYPE THRESHOLD shape camera keyboard
                model s frame Hread Hk) as Hturn.
  fold dets in Hturn. cbv zeta in Hturn.
  assert (Hflag : existsb (wrong_bin BIN_TYPE) dets = true).
  { apply existsb_exists. exists b. split; [now apply list_elem_of_In|].
    rewrite Forall_forall in Hk.
    destruct (known_class_label b (Hk _ Hin)) as [t Ht].
    unfold wrong_bin. rewrite Ht in *.
    destruct (String.eqb_spec t BIN_TYPE); [congruence|reflexivity]. }
  rewrite Hflag in Hturn.
  set (boxed := {| buffer := buffer frame;
                   overlay := overlay frame
                                ++ flat_map (box_ops BIN_TYPE) dets |}) in *.
  destruct (alert_overlay shape boxed) as (Hbuf & h & w & c & Hshape & Hov).
  eexists _, (Detect.draw_violation_alert shape boxed), h, w, c.
  split.
  { destruct (keyboard (Detect.keys_polled s) mod 256 =? 113);
      [right|left]; exact Hturn. }
  cbn [Detect.world Detect.shown Detect.printed Detect.keys_polled
       Detect.frames_read files].
  split; [exact Hshape|]. split; [exact Hbuf|].
  split; [rewrite Hov; cbn [overlay boxed]; now rewrite <- app_assoc|].
  repeat split; reflexivity.
Qed.

Lemma camera_turn_on_violation_witness :
  let dets := [sample_box 1 9 10] in
  exists s' picture h w c,
    (Detect.camera_iteration "dry" THRESHOLD sample_shape sample_camera
       idle_keyboard (fun _ _ => dets) sample_session = Detect.Next s' \/
     Detect.camera_iteration "dry" THRESHOLD sample_shape sample_camera
       idle_keyboard (fun _ _ => dets) sample_session = Detect.Quit s') /\
    sample_shape (buffer sample_frame) = (h, w, c) /\
    buffer picture = buffer sample_frame /\
    overlay picture =
      overlay sample_frame ++ flat_map (box_ops "dry") dets ++ alert_ops h w /\
    Detect.shown s' = Detect.shown sample_session ++ [picture] /\
    files (Detect.world s') =
      <[snapshot_name (clock (Detect.world sample_session)
                         (ticks (Detect.world sample_session)))
          := picture]> (files (Detect.world sample_session)) /\
    Detect.printed s' =
      Detect.printed sample_session ++
        ["🚨 VIOLATION! Snapshot saved → "
           +:+ snapshot_name (clock (Detect.world sample_session)
                                (ticks (Detect.world sample_session)))] /\
    Detect.keys_polled s' = S (Detect.keys_polled sample_session) /\
    Detect.frames_read s' = S (Detect.frames_read sample_session).
Proof.
  apply (camera_turn_on_violation "dry" THRESHOLD sample_shape sample_camera
           idle_keyboard (fun _ _ => [sample_box 1 9 10]) sample_session
           sample_frame).
  - reflexivity.
  - repeat constructor; unfold known_class; simpl; lia.
  - exists (sample_box 1 9 10). split; [left|]. discriminate.
Defined.

(** X9. A turn that reads a frame on which every detection has the
    bin's class, or on which nothing is detected, writes no file and
    prints nothing: the frame is only shown, with its boxes drawn, and
    one key is polled. *)
Theorem camera_turn_without_violation (BIN_TYPE : string) (THRESHOLD : float)
    (shape : N -> Z * Z * Z) (camera : nat -> bool * Frame)
    (keyboard : nat -> Z) (model : Detector) (s : Detect.Session)
    (frame : Frame) :
  camera (Detect.frames_read s) = (true, frame) ->
  let dets := model frame THRESHOLD in
  Forall (fun b => class_label b = Some BIN_TYPE) dets ->
  exists s' picture,
    (Detect.camera_iteration BIN_TYPE THRESHOLD shape camera keyboard model s
       = Detect.Next s' \/
     Detect.camera_iteration BIN_TYPE THRESHOLD shape camera keyboard model s
       = Detect.Quit s') /\
    Detect.world s' = Detect.world s /\
    Detect.printed s' = Detect.printed s /\
    Detect.shown s' = Detect.shown s ++ [picture] /\
    buffer picture = buffer frame /\
    overlay picture = overlay frame ++ flat_map (box_ops BIN_TYPE) dets /\
    (dets = [] -> picture = frame) /\
    Detect.keys_polled s' = S (Detect.keys_polled s).
Proof.
  intros Hread dets Hsame.
  assert (Hk : Forall known_class dets).
  { eapply Forall_impl; [exact Hsame|]. intros b Hb.
    unfold known_class. unfold class_label in Hb.
    rewrite class_map_lookup in Hb.
    destruct (Z.eqb_spec (cls b) 0); [auto|].
    destruct (Z.eqb_spec (cls b) 1); [auto|discriminate]. }
  pose proof (camera_iteration_frame BIN_TYPE THRESHOLD shape camera keyboard
                model s frame Hread Hk) as Hturn.
  fold dets in Hturn. cbv zeta in Hturn.
  assert (Hflag : existsb (wrong_bin BIN_TYPE) dets = false).
  { apply not_true_is_false. intros Hex. apply existsb_exists in Hex.
    destruct Hex as (b & Hin & Hwrong).
    rewrite Forall_forall in Hsame.
    unfold wrong_bin in Hwrong.
    rewrite (Hsame b (proj2 (list_elem_of_In _ _) Hin)) in Hwrong.
    rewrite String.eqb_refl in Hwrong. discriminate. }
  rewrite Hflag in Hturn. eexists _, _. split.
  { destruct (keyboard (Detect.keys_polled s) mod 256 =? 113);
      [right|left]; exact Hturn. }
  cbn [Detect.world Detect.shown Detect.printed Detect.keys_polled
       buffer overlay].
  repeat split; try reflexivity.
  intros ->. simpl. rewrite app_nil_r. now destruct frame.
Qed.

Lemma camera_turn_without_violation_witness :
  let dets := [sample_box 0 9 10] in
  exists s' picture,
    (Detect.camera_iteration "dry" THRESHOLD sample_shape sample_camera
       idle_keyboard (fun _ _ => dets) sample_session = Detect.Next s' \/
     Detect.camera_iteration "dry" THRESHOLD sample_shape sample_camera
       idle_keyboard (fun _ _ => dets) sample_session = Detect.Quit s') /\
    Detect.world s' = Detect.world sample_session /\
    Detect.printed s' = Detect.printed sample_session /\
    Detect.shown s' = Detect.shown sample_session ++ [picture] /\
    buffer picture = buffer sample_frame /\
    overlay picture = overlay sample_frame ++ flat_map (box_ops "dry") dets /\
    (dets = [] -> picture = sample_frame) /\
    Detect.keys_polled s' = S (Detect.keys_polled sample_session).
Proof.
  apply (camera_turn_without_violation "dry" THRESHOLD sample_shape
           sample_camera idle_keyboard (fun _ _ => [sample_box 0 9 10])
           sample_session sample_frame).
  - reflexivity.
  - repeat constructor.
Defined.

(** X10. A detection with a class id outside [CLASS_MAP] ends the
    camera loop: the turn that meets it raises [KeyError] before the
    frame is shown or saved and before a key is polled, and the loop
    does not go on to the next frame, however many turns were left. *)
Theorem camera_loop_crashes_on_unknown_class (BIN_TYPE : string)
    (THRESHOLD : float) (shape : N -> Z * Z * Z)
    (camera : nat -> bool * Frame) (keyboard : nat -> Z)
    (model : Detector) (fuel : nat) (s : Detect.Session) (frame : Frame) :
  camera (Detect.frames_read s) = (true, frame) ->
  (exists b, b ∈ model frame THRESHOLD /\ ~ known_class b) ->
  exists k,
    k <> 0 /\ k <> 1 /\
    Detect.camera_loop BIN_TYPE THRESHOLD shape camera keyboard model
      (S fuel) s =
      Detect.Crash (KeyError k)
        {| Detect.world := Detect.world s;
           Detect.frames_read := S (Detect.frames_read s);
           Detect.keys_polled := Detect.keys_polled s;
           Detect.shown := Detect.shown s;
           Detect.printed := Detect.printed s |}.
Proof.
  intros Hread Hunknown.
  destruct (first_unknown _ Hunknown) as (pre & u & post & E & Hpre & Hu).
  exists (cls u). unfold known_class in Hu.
  split; [lia|]. split; [lia|].
  cbn [Detect.camera_loop]. unfold Detect.camera_iteration.
  rewrite Hread. cbn [negb]. unfold Detect.detect_and_draw. rewrite E.
  rewrite draw_boxes_partial by assumption. reflexivity.
Qed.

Lemma camera_loop_crashes_on_unknown_class_witness :
  exists k,
    k <> 0 /\ k <> 1 /\
    Detect.camera_loop "dry" THRESHOLD sample_shape sample_camera
      idle_keyboard (fun _ _ => [sample_box 0 9 10; sample_box 4 6 10])
      (S 9) sample_session =
      Detect.Crash (KeyError k)
        {| Detect.world := Detect.world sample_session;
           Detect.frames_read := S (Detect.frames_read sample_session);
           Detect.keys_polled := Detect.keys_polled sample_session;
           Detect.shown := Detect.shown sample_session;
           Detect.printed := Detect.printed sample_session |}.
Proof.
  apply (camera_loop_crashes_on_unknown_class "dry" THRESHOLD sample_shape
           sample_camera idle_keyboard
           (fun _ _ => [sample_box 0 9 10; sample_box 4 6 10]) 9
           sample_session sample_frame).
  - reflexivity.
  - exists (sample_box 4 6 10). split; [right; left|].
    unfold known_class. simpl. lia.
Defined.

(** X11. After a frame has been read and shown, the loop stops exactly
    when the low byte of the key code is that of "q" (113): it then
    reads no further frame, whatever number of turns was left; any other
    key code, and -1 for no key, lets it go on. *)
Theorem camera_loop_quits_on_q (BIN_TYPE : string) (THRESHOLD : float)
    (shape : N -> Z * Z * Z) (camera : nat -> bool * Frame)
    (keyboard : nat -> Z) (model : Detector) (fuel : nat)
    (s : Detect.Session) (frame : Frame) :
  camera (Detect.frames_read s) = (true, frame) ->
  Forall known_class (model frame THRESHOLD) ->
  exists s',
    Detect.frames_read s' = S (Detect.frames_read s) /\
    length (Detect.shown s') = S (length (Detect.shown s)) /\
    (keyboard (Detect.keys_polled s) mod 256 = 113 ->
     Detect.camera_loop BIN_TYPE THRESHOLD shape camera keyboard model
       (S fuel) s = Detect.Quit s') /\
    (keyboard (Detect.keys_polled s) mod 256 <> 113 ->
     Detect.camera_loop BIN_TYPE THRESHOLD shape camera keyboard model
       (S fuel) s =
     Detect.camera_loop BIN_TYPE THRESHOLD shape camera keyboard model
       fuel s').
Proof.
  intros Hread Hk.
  pose proof (camera_iteration_frame BIN_TYPE THRESHOLD shape camera keyboard
                model s frame Hread Hk) as Hturn.
  cbv zeta in Hturn. cbn [Detect.camera_loop]. rewrite Hturn.
  eexists. split; [|split; [|split]].
  3: { intros Hq. apply Z.eqb_eq in Hq. rewrite Hq. reflexivity. }
  3: { intros Hq. apply Z.eqb_neq in Hq. rewrite Hq. reflexivity. }
  - destruct (existsb (wrong_bin BIN_TYPE) (model frame THRESHOLD));
      reflexivity.
  - destruct (existsb (wrong_bin BIN_TYPE) (model frame THRESHOLD));
      cbn [Detect.shown]; rewrite length_app; simpl; lia.
Qed.

Lemma camera_loop_quits_on_q_witness :
  exists s',
    Detect.frames_read s' = S (Detect.frames_read sample_session) /\
    length (Detect.shown s') = S (length (Detect.shown sample_session)) /\
    ((fun _ : nat => 113 + 256) (Detect.keys_polled sample_session) mod 256
       = 113 ->
     Detect.camera_loop "dry" THRESHOLD sample_shape sample_camera
       (fun _ => 113 + 256) (fun _ _ => [sample_box 0 9 10]) (S 9)
       sample_session = Detect.Quit s') /\
    ((fun _ : nat => 113 + 256) (Detect.keys_polled sample_session) mod 256
       <> 113 ->
     Detect.camera_loop "dry" THRESHOLD sample_shape sample_camera
       (fun _ => 113 + 256) (fun _ _ => [sample_box 0 9 10]) (S 9)
       sample_session =
     Detect.camera_loop "dry" THRESHOLD sample_shape sample_camera
       (fun _ => 113 + 256) (fun _ _ => [sample_box 0 9 10]) 9 s').
Proof.
  apply (camera_loop_quits_on_q "dry" THRESHOLD sample_shape sample_camera
           (fun _ => 113 + 256) (fun _ _ => [sample_box 0 9 10]) 9
           sample_session sample_frame).
  - reflexivity.
  - repeat constructor; unfold known_class; simpl; lia.
Defined.

(** ** Grouping the manifest *)
Section Grouping.

Lemma group_fold_lookup (annotations : list Convert.Annotation)
    (m : gmap Z (list Convert.Annotation)) (i : Z) :
  default []
    (fold_left
       (fun anns_by_image ann =>
          <[Convert.image_id ann :=
              default [] (anns_by_image !! Convert.image_id ann) ++ [ann]]>
            anns_by_image)
       annotations m !! i)
  = default [] (m !! i) ++ annotations_of i annotations.
Proof.
  revert m. induction annotations as [|a anns IH]; intros m.
  - simpl. now rewrite app_nil_r.
  - cbn [fold_left]. rewrite IH. unfold annotations_of.
    destruct (decide (Convert.image_id a = i)) as [E|E].
    + rewrite filter_cons_True by exact E. rewrite E.
      rewrite lookup_insert_eq. cbn [default from_option id].
      now rewrite <- app_assoc.
    + rewrite filter_cons_False by exact E.
      now rewrite lookup_insert_ne by exact E.
Qed.

Lemma group_fold_None (annotations : list Convert.Annotation)
    (m : gmap Z (list Convert.Annotation)) (i : Z) :
  fold_left
    (fun anns_by_image ann =>
       <[Convert.image_id ann :=
           default [] (anns_by_image !! Convert.image_id ann) ++ [ann]]>
         anns_by_image)
    annotations m !! i = None <->
  m !! i = None /\ annotations_of i annotations = [].
Proof.
  revert m. induction annotations as [|a anns IH]; intros m.
  - simpl. unfold annotations_of. simpl. tauto.
  - cbn [fold_left]. rewrite IH. unfold annotations_of.
    destruct (decide (Convert.image_id a = i)) as [E|E].
    + rewrite filter_cons_True by exact E. rewrite E, lookup_insert_eq.
      split; [intros [H _]; discriminate|intros [_ H]; discriminate].
    + rewrite filter_cons_False by exact E.
      now rewrite lookup_insert_ne by exact E.
Qed.

Lemma names_fold_lookup (cats : list Convert.Category)
    (m : gmap Z string) (k : Z) :
  fold_left (fun m c => <[Convert.cat_id c := Convert.name c]> m) cats m !! k
  = match last (filter (fun c => Convert.cat_id c = k) cats) with
    | Some c => Some (Convert.name c)
    | None => m !! k
    end.
Proof.
  revert m. induction cats as [|c cats IH]; intros m; [reflexivity|].
  cbn [fold_left]. rewrite IH. clear IH.
  destruct (decide (Convert.cat_id c = k)) as [E|E].
  - rewrite filter_cons_True by exact E.
    generalize (filter (fun c => Convert.cat_id c = k) cats).
    intros [|c' l].
    + cbn [last]. rewrite E. apply lookup_insert_eq.
    + change (last (c :: c' :: l)) with (last (c' :: l)).
      destruct (last (c' :: l)) eqn:L; [reflexivity|].
      apply last_None in L. discriminate.
  - rewrite filter_cons_False by exact E.
    destruct (last (filter (fun c => Convert.cat_id c = k) cats));
      [reflexivity|]. now rewrite lookup_insert_ne by exact E.
Qed.

End Grouping.

(** X13. The grouping loop files every annotation under its image: what
    the conversion loop gets for an image id, [anns_by_image.get(id, [])],
    is exactly the annotations of the manifest with that image id, in
    the order of the manifest, and an id has no entry exactly when no
    annotation names it. *)
Theorem group_annotations_by_image (annotations : list Convert.Annotation)
    (i : Z) :
  default [] (Convert.group_annotations annotations !! i)
    = annotations_of i annotations /\
  (Convert.group_annotations annotations !! i = None <->
   forall ann, ann ∈ annotations -> Convert.image_id ann <> i).
Proof.
  unfold Convert.group_annotations. split.
  - rewrite group_fold_lookup. reflexivity.
  - rewrite group_fold_None. unfold annotations_of. split.
    + intros [_ Hnil] ann Hin Heq.
      assert (Hf : ann ∈ filter (fun a => Convert.image_id a = i) annotations)
        by (apply list_elem_of_filter; auto).
      rewrite Hnil in Hf. now apply elem_of_nil in Hf.
    + intros Hnone. split; [apply lookup_empty|].
      destruct (filter (fun a => Convert.image_id a = i) annotations)
        as [|a l] eqn:F; [reflexivity|].
      assert (Hin : a ∈ filter (fun a => Convert.image_id a = i) annotations)
        by (rewrite F; left).
      apply list_elem_of_filter in Hin as [Heq Hin].
      now destruct (Hnone a Hin).
Qed.

(** X14. The category table keeps one name per id: the name of the last
    category of the manifest with that id; an id that no category has
    is absent from the table. *)
Theorem category_names_last_wins (cats : list Convert.Category) (k : Z) :
  Convert.category_names cats !! k
    = Convert.name <$> last (filter (fun c => Convert.cat_id c = k) cats) /\
  (Convert.category_names cats !! k = None <->
   forall c, c ∈ cats -> Convert.cat_id c <> k).
Proof.
  unfold Convert.category_names. rewrite names_fold_lookup, lookup_empty.
  assert (Hlast : forall l : list Convert.Category,
            last l = None <-> l = []) by (intros l; apply last_None).
  destruct (last (filter (fun c => Convert.cat_id c = k) cats)) as [c|] eqn:L.
  - split; [reflexivity|]. split; [discriminate|].
    intros Hnone. exfalso.
    assert (Hin : c ∈ filter (fun c => Convert.cat_id c = k) cats).
    { apply last_Some in L as [l' ->]. apply elem_of_app. right. left. }
    apply list_elem_of_filter in Hin as [Heq Hin]. exact (Hnone c Hin Heq).
  - split; [reflexivity|]. split; [|reflexivity].
    intros _ c Hin Heq. apply Hlast in L.
    assert (Hf : c ∈ filter (fun c => Convert.cat_id c = k) cats)
      by (apply list_elem_of_filter; auto).
    rewrite L in Hf. now apply elem_of_nil in Hf.
Qed.

(** ** The conversion loop as a whole *)
Section ConversionLoop.

Variable ROOT : string.

Lemma truediv_inv (x y z : float) :
  Float64.truediv x y = Ok z -> z = Float64.div x y.
Proof.
  unfold Float64.truediv. destruct (Float64.is_zero y); [discriminate|].
  now intros [= <-].
Qed.

(** Whenever the loop over the annotations succeeds it has added one
    line and one box per annotation. *)
Lemma label_lines_inv (anns : list Convert.Annotation) (w h : Z)
    (acc lines : list string) (n n' : Z) :
  Convert.label_lines anns w h acc n = Ok (lines, n') ->
  exists new,
    lines = acc ++ new /\ length new = length anns /\
    n' = n + Z.of_nat (length anns).
Proof.
  revert acc n. induction anns as [|ann anns IH]; intros acc n Hrun.
  - simpl in Hrun. injection Hrun as <- <-. exists [].
    rewrite app_nil_r. simpl. split; [reflexivity|]. split; [reflexivity|lia].
  - cbn [Convert.label_lines] in Hrun.
    destruct (Convert.bbox ann) as [[[x y] bw] bh].
    repeat match type of Hrun with
    | res_bind (Float64.truediv ?a ?b) _ = _ =>
        destruct (Float64.truediv a b) as [?z|?e]; cbn [res_bind] in Hrun;
        [|discriminate Hrun]
    end.
    destruct (IH _ _ Hrun) as (new & -> & Hlen & ->).
    eexists (_ :: new). rewrite <- app_assoc. cbn [app length].
    split; [reflexivity|]. split; [now rewrite Hlen|lia].
Qed.

(** What a successful turn of the conversion loop did. *)
Lemma convert_image_inv (train_ids val_ids : gset Z)
    (anns_by_image : gmap Z (list Convert.Annotation))
    (st st' : Convert.State) (img : Convert.ImageRecord) :
  Convert.convert_image ROOT train_ids val_ids anns_by_image st img = Ok st' ->
  let src := joinpath (Convert.RAW ROOT) (Convert.file_name img) in
  let split := split_of train_ids val_ids (Convert.id img) in
  let anns := default [] (anns_by_image !! Convert.id img) in
  (Convert.fs st !! src = None /\
   st' = Convert.print (missing_line ROOT img) st) \/
  (exists content lbl lines,
     Convert.fs st !! src = Some content /\
     Convert.with_suffix (Convert.file_name img) ".txt" = Ok lbl /\
     length lines = length anns /\
     st' =
       {| Convert.fs :=
            <[label_path ROOT split lbl :=
                Convert.TextFile (Fmt.join "
" lines)]>
              (<[image_path ROOT split (Convert.file_name img) := content]>
                 (Convert.fs st));
          Convert.stdout := Convert.stdout st;
          Convert.copied := Convert.copied st + 1;
          Convert.labeled :=
            match lines with
            | [] => Convert.labeled st
            | _ => Convert.labeled st + 1
            end;
          Convert.boxes := Convert.boxes st + Z.of_nat (length anns) |}).
Proof.
  intros Hrun src split anns. unfold Convert.convert_image in Hrun.
  fold src in Hrun.
  destruct (Convert.fs st !! src) as [content|] eqn:Hsrc.
  - right.
    match type of Hrun with
    | res_bind ?sz _ = _ => destruct sz as [wh|e]; [|discriminate Hrun]
    end.
    cbn [res_bind] in Hrun. fold anns in Hrun.
    destruct (Convert.label_lines anns (fst wh) (snd wh) [] (Convert.boxes st))
      as [[lines n']|e] eqn:Hlines; [|discriminate Hrun].
    cbn [res_bind fst snd] in Hrun.
    destruct (Convert.with_suffix (Convert.file_name img) ".txt")
      as [lbl|e] eqn:Hlbl; [|discriminate Hrun].
    cbn [res_bind] in Hrun. injection Hrun as <-.
    destruct (label_lines_inv _ _ _ _ _ _ _ Hlines) as (new & -> & Hlen & ->).
    exists content, lbl, new. cbn [app].
    split; [reflexivity|]. split; [reflexivity|]. split; [exact Hlen|].
    reflexivity.
  - left. injection Hrun as <-. split; reflexivity.
Qed.

End ConversionLoop.

(** ** Where the script writes *)
Section OutputTree.

Variable ROOT : string.

Lemma prefix_append (a b : string) : String.prefix a (a +:+ b) = true.
Proof.
  induction a as [|x a IH]; [now destruct b|].
  rewrite append_cons. cbn [String.prefix].
  destruct (ascii_dec x x) as [_|Hne]; [exact IH|congruence].
Qed.

Lemma image_path_under_out (split fname : string) :
  String.prefix (Convert.OUT ROOT +:+ "/") (image_path ROOT split fname) = true.
Proof.
  unfold image_path, joinpath.
  rewrite !append_assoc, <- (append_assoc (Convert.OUT ROOT) "/").
  apply prefix_append.
Qed.

Lemma label_path_under_out (split lbl : string) :
  String.prefix (Convert.OUT ROOT +:+ "/") (label_path ROOT split lbl) = true.
Proof.
  unfold label_path, joinpath.
  rewrite !append_assoc, <- (append_assoc (Convert.OUT ROOT) "/").
  apply prefix_append.
Qed.

Lemma convert_image_frame (train_ids val_ids : gset Z)
    (anns_by_image : gmap Z (list Convert.Annotation))
    (st st' : Convert.State) (img : Convert.ImageRecord) (p : string) :
  Convert.convert_image ROOT train_ids val_ids anns_by_image st img = Ok st' ->
  String.prefix (Convert.OUT ROOT +:+ "/") p = false ->
  Convert.fs st' !! p = Convert.fs st !! p.
Proof.
  intros Hrun Hp.
  destruct (convert_image_inv ROOT _ _ _ _ _ _ Hrun)
    as [[_ ->]|(content & lbl & lines & _ & _ & _ & ->)]; [reflexivity|].
  cbn [Convert.fs].
  rewrite lookup_insert_ne.
  - rewrite lookup_insert_ne; [reflexivity|].
    intros <-. rewrite image_path_under_out in Hp. discriminate.
  - intros <-. rewrite label_path_under_out in Hp. discriminate.
Qed.

Lemma convert_loop_frame (train_ids val_ids : gset Z)
    (anns_by_image : gmap Z (list Convert.Annotation))
    (imgs : list Convert.ImageRecord) (st st' : Convert.State) (p : string) :
  Convert.convert_loop ROOT train_ids val_ids anns_by_image imgs st = Ok st' ->
  String.prefix (Convert.OUT ROOT +:+ "/") p = false ->
  Convert.fs st' !! p = Convert.fs st !! p.
Proof.
  revert st. induction imgs as [|img imgs IH]; intros st Hrun Hp.
  - simpl in Hrun. now injection Hrun as <-.
  - cbn [Convert.convert_loop] in Hrun.
    destruct (Convert.convert_image ROOT train_ids val_ids anns_by_image st img)
      as [st1|e] eqn:Himg; [|discriminate Hrun].
    cbn [res_bind] in Hrun. rewrite (IH st1 Hrun Hp).
    eapply convert_image_frame; eauto.
Qed.

Lemma print_fs (line : string) (st : Convert.State) :
  Convert.fs (Convert.print line st) = Convert.fs st.
Proof. reflexivity. Qed.

End OutputTree.

(** X15. With plain file names that name files, not folders, the
    script writes under its output folder only: after a run that completes, every path that does not
    start with [OUT/] holds what it held before (or still nothing); the
    source images in particular are never modified, moved or deleted. *)
Theorem main_writes_under_out_only (ROOT : string) (RngState : Type)
    (seed : Z -> RngState) (randbelow : RngState -> nat -> nat * RngState)
    (yaml_dump : string -> gmap Z string -> string)
    (data : Convert.Manifest) (g0 : RngState)
    (disk : gmap string Convert.File) (st : Convert.State) (p : string) :
  plain_names ROOT disk (Convert.images data) = true ->
  Convert.main ROOT RngState seed randbelow yaml_dump data g0 disk = Ok st ->
  String.prefix (Convert.OUT ROOT +:+ "/") p = false ->
  Convert.fs st !! p = disk !! p.
Proof.
  intros _ Hrun Hp. unfold Convert.main in Hrun.
  destruct (Convert.splits RngState seed randbelow data g0)
    as [[[train_ids val_ids] test_ids]|e]; [|discriminate Hrun].
  cbn [res_bind] in Hrun.
  match type of Hrun with
  | res_bind ?loop _ = _ => destruct loop as [st1|e] eqn:Hloop;
                            [|discriminate Hrun]
  end.
  cbn [res_bind] in Hrun. injection Hrun as <-.
  rewrite !print_fs. cbn [Convert.fs].
  rewrite lookup_insert_ne.
  - rewrite (convert_loop_frame ROOT _ _ _ _ _ _ p Hloop Hp). reflexivity.
  - intros <-. unfold joinpath in Hp.
    rewrite <- append_assoc, prefix_append in Hp. discriminate.
Qed.

Lemma main_writes_under_out_only_witness :
  Convert.fs sample_run !! "R/data/raw/taco/1.jpg"
    = sample_disk !! "R/data/raw/taco/1.jpg".
Proof.
  apply (main_writes_under_out_only "R" nat sample_seed sample_randbelow
           sample_yaml present_image_manifest 0%nat sample_disk sample_run
           "R/data/raw/taco/1.jpg").
  - vm_compute. reflexivity.
  - vm_compute. reflexivity.
  - vm_compute. reflexivity.
Defined.

(** ** What a completed run leaves in the output tree *)
Section CopiedImages.

Variable ROOT : string.

Lemma prefix_app_cancel (a b c : string) :
  String.prefix (a +:+ b) (a +:+ c) = String.prefix b c.
Proof.
  induction a as [|x a IH]; [reflexivity|].
  rewrite !append_cons. cbn [String.prefix].
  destruct (ascii_dec x x) as [_|Hne]; [exact IH|congruence].
Qed.


(** The source folder is not under the output folder. *)
Lemma raw_not_under_out (fname : string) :
  String.prefix (Convert.OUT ROOT +:+ "/")
    (joinpath (Convert.RAW ROOT) fname) = false.
Proof.
  unfold Convert.OUT, Convert.RAW, joinpath.
  rewrite !append_assoc, prefix_app_cancel. reflexivity.
Qed.













End CopiedImages.



(** ** What the script reports *)
Section Totals.

Variable ROOT : string.

Lemma on_disk_frame (train_ids val_ids : gset Z)
    (anns_by_image : gmap Z (list Convert.Annotation))
    (st st' : Convert.State) (img : Convert.ImageRecord) :
  Convert.convert_image ROOT train_ids val_ids anns_by_image st img = Ok st' ->
  forall x, on_disk ROOT (Convert.fs st') x = on_disk ROOT (Convert.fs st) x.
Proof.
  intros Hrun x. unfold on_disk.
  now rewrite (convert_image_frame ROOT _ _ _ _ _ _ _ Hrun
                 (raw_not_under_out ROOT _)).
Qed.

(** The counters and the printed lines after a loop over [imgs], from
    what the disk held when it started. *)
Lemma convert_loop_totals (train_ids val_ids : gset Z)
    (annotations : list Convert.Annotation)
    (imgs : list Convert.ImageRecord) (st st' : Convert.State) :
  Convert.convert_loop ROOT train_ids val_ids
    (Convert.group_annotations annotations) imgs st = Ok st' ->
  let found := List.filter (on_disk ROOT (Convert.fs st)) imgs in
  let lost :=
    List.filter (fun img => negb (on_disk ROOT (Convert.fs st) img)) imgs in
  Convert.stdout st' = Convert.stdout st ++ map (missing_line ROOT) lost /\
  Convert.copied st' = Convert.copied st + Z.of_nat (length found) /\
  Convert.labeled st'
    = Convert.labeled st
      + Z.of_nat (length (List.filter (has_annotation annotations) found)) /\
  Convert.boxes st'
    = Convert.boxes st + Z.of_nat (box_count annotations found).
Proof.
  revert st. induction imgs as [|img imgs IH]; intros st Hrun.
  - simpl in Hrun. injection Hrun as <-. cbn.
    rewrite app_nil_r. repeat split; lia.
  - cbn [Convert.convert_loop] in Hrun.
    destruct (Convert.convert_image ROOT train_ids val_ids
                (Convert.group_annotations annotations) st img)
      as [st1|e] eqn:Himg; [|discriminate Hrun].
    cbn [res_bind] in Hrun.
    destruct (IH st1 Hrun) as (Hout & Hcop & Hlab & Hbox). clear IH.
    rewrite (List.filter_ext _ _ (on_disk_frame _ _ _ _ _ _ Himg))
      in Hcop, Hlab, Hbox.
    rewrite (List.filter_ext
               (fun x => negb (on_disk ROOT (Convert.fs st1) x))
               (fun x => negb (on_disk ROOT (Convert.fs st) x))) in Hout
      by (intros x; now rewrite (on_disk_frame _ _ _ _ _ _ Himg x)).
    cbn [List.filter].
    destruct (convert_image_inv ROOT _ _ _ _ _ _ Himg)
      as [[Hnone ->]|(content & lbl & lines & Hsome & _ & Hlen & ->)].
    + assert (Hd : on_disk ROOT (Convert.fs st) img = false)
        by (unfold on_disk; now rewrite Hnone).
      rewrite !Hd. cbn [negb map].
      cbn [Convert.print Convert.stdout Convert.copied Convert.labeled
           Convert.boxes] in *.
      rewrite Hout, <- app_assoc. repeat split; assumption.
    + assert (Hd : on_disk ROOT (Convert.fs st) img = true)
        by (unfold on_disk; now rewrite Hsome).
      rewrite !Hd. cbn [negb length List.filter].
      cbn [Convert.stdout Convert.copied Convert.labeled Convert.boxes] in *.
      unfold Convert.group_annotations in Hlen, Hbox.
      rewrite group_fold_lookup, lookup_empty in Hlen, Hbox.
      cbn [default from_option id app] in Hlen, Hbox.
      split; [exact Hout|]. split; [lia|]. unfold has_annotation at 1.
      unfold box_count in *. cbn [sum_list_with].
      destruct (annotations_of (Convert.id img) annotations) as [|a l];
        destruct lines as [|x lines]; try discriminate Hlen;
        cbn [length] in *; split; lia.
Qed.

End Totals.

(** X17. What the script reports, for plain file names that name no
    folder: after a run that completes, "Images
    copied" is the number of image records whose file was on disk,
    "Images with labels" the number of those with at least one
    annotation in the manifest, "Total bounding boxes" the number of
    annotations of those records, a record counting each time it occurs;
    and the output is the annotation path, one "Missing image" line per
    record whose file was absent, in the order of the manifest, the
    summary and the two closing lines. *)
Theorem main_report (ROOT : string) (RngState : Type)
    (seed : Z -> RngState) (randbelow : RngState -> nat -> nat * RngState)
    (yaml_dump : string -> gmap Z string -> string)
    (data : Convert.Manifest) (g0 : RngState)
    (disk : gmap string Convert.File) (st : Convert.State) :
  plain_names ROOT disk (Convert.images data) = true ->
  Convert.main ROOT RngState seed randbelow yaml_dump data g0 disk = Ok st ->
  let found := List.filter (on_disk ROOT disk) (Convert.images data) in
  let lost :=
    List.filter (fun img => negb (on_disk ROOT disk img))
      (Convert.images data) in
  Convert.copied st = Z.of_nat (length found) /\
  Convert.labeled st
    = Z.of_nat
        (length
           (List.filter (has_annotation (Convert.annotations data)) found)) /\
  Convert.boxes st
    = Z.of_nat (box_count (Convert.annotations data) found) /\
  Convert.stdout st
    = ["Using annotation file: " +:+ Convert.ANN ROOT]
        ++ map (missing_line ROOT) lost
        ++ Convert.summary st
        ++ ["Saved: " +:+ joinpath (Convert.OUT ROOT) "data.yaml";
            "
🎉 YOLO dataset is ready at: " +:+ Convert.OUT ROOT].
Proof.
  intros _ Hrun found lost. unfold Convert.main in Hrun.
  destruct (Convert.splits RngState seed randbelow data g0)
    as [[[train_ids val_ids] test_ids]|e]; [|discriminate Hrun].
  cbn [res_bind] in Hrun.
  match type of Hrun with
  | res_bind ?loop _ = _ => destruct loop as [st1|e] eqn:Hloop;
                            [|discriminate Hrun]
  end.
  cbn [res_bind] in Hrun. injection Hrun as <-.
  destruct (convert_loop_totals ROOT _ _ _ _ _ _ Hloop)
    as (Hout & Hcop & Hlab & Hbox).
  cbn [Convert.print Convert.fs Convert.stdout Convert.copied Convert.labeled
       Convert.boxes app] in Hout, Hcop, Hlab, Hbox.
  fold found in Hcop, Hlab, Hbox. fold lost in Hout.
  unfold Convert.summary.
  cbn [fold_left Convert.print Convert.fs Convert.stdout Convert.copied
       Convert.labeled Convert.boxes].
  rewrite Hout, Hcop, Hlab, Hbox, !Z.add_0_l.
  split; [reflexivity|]. split; [reflexivity|]. split; [reflexivity|].
  cbn [app]. rewrite <- !app_assoc. reflexivity.
Qed.

Lemma main_report_witness :
  let found :=
    List.filter (on_disk "R" sample_disk)
      (Convert.images present_image_manifest) in
  let lost :=
    List.filter (fun img => negb (on_disk "R" sample_disk img))
      (Convert.images present_image_manifest) in
  Convert.copied sample_run = Z.of_nat (length found) /\
  Convert.labeled sample_run
    = Z.of_nat
        (length
           (List.filter
              (has_annotation (Convert.annotations present_image_manifest))
              found)) /\
  Convert.boxes sample_run
    = Z.of_nat
        (box_count (Convert.annotations present_image_manifest) found) /\
  Convert.stdout sample_run
    = ["Using annotation file: " +:+ Convert.ANN "R"]
        ++ map (missing_line "R") lost
        ++ Convert.summary sample_run
        ++ ["Saved: " +:+ joinpath (Convert.OUT "R") "data.yaml";
            "
🎉 YOLO dataset is ready at: " +:+ Convert.OUT "R"].
Proof.
  apply (main_report "R" nat sample_seed sample_randbelow sample_yaml
           present_image_manifest 0%nat sample_disk sample_run).
  - vm_compute. reflexivity.
  - vm_compute. reflexivity.
Defined.

(** ** Small manifests *)

Lemma list_to_set_empty_iff (l : list Z) :
  (list_to_set l : gset Z) = ∅ <-> length l = 0%nat.
Proof.
  destruct l as [|x l]; [split; reflexivity|].
  split; [|discriminate]. intros H. exfalso.
  assert (Hx : x ∈ (list_to_set (x :: l) : gset Z))
    by (apply elem_of_list_to_set; left).
  rewrite H in Hx. exact (not_elem_of_empty x Hx).
Qed.

(** X18. The split of a small manifest: with the script's generator
    seeded, whatever the ids, the test set is empty only for an empty
    manifest, the training set is empty exactly when there are fewer
    than two images, and the validation set exactly when there are
    fewer than six. *)
Theorem splits_of_small_manifests (RngState : Type) (seed : Z -> RngState)
    (randbelow : RngState -> nat -> nat * RngState)
    (data : Convert.Manifest) (g0 : RngState) :
  (forall g n, (0 < n)%nat -> (fst (randbelow g n) < n)%nat) ->
  let n := length (Convert.images data) in
  Z.of_nat n < 2 ^ 47 ->
  exists train val test : gset Z,
    Convert.splits RngState seed randbelow data g0 = Ok (train, val, test) /\
    (train = ∅ <-> (n <= 1)%nat) /\
    (val = ∅ <-> (n <= 5)%nat) /\
    (test = ∅ <-> n = 0%nat).
Proof.
  intros Hrand n Hn.
  set (ids := map Convert.id (Convert.images data)).
  assert (Hids : length ids = n) by apply length_map.
  destruct (shuffle_Permutation RngState randbelow Hrand ids
              (Convert.random_seed RngState seed 42 g0))
    as (shuffled & Hsh & Hperm).
  assert (Hlen : length shuffled = n) by (now rewrite Hperm).
  set (a := Z.to_nat (8 * Z.of_nat n / 10)).
  set (b := Z.to_nat (9 * Z.of_nat n / 10)).
  pose proof (Z.div_mod (8 * Z.of_nat n) 10 ltac:(lia)) as Ha.
  pose proof (Z.mod_pos_bound (8 * Z.of_nat n) 10 ltac:(lia)) as Ha'.
  pose proof (Z.div_mod (9 * Z.of_nat n) 10 ltac:(lia)) as Hb.
  pose proof (Z.mod_pos_bound (9 * Z.of_nat n) 10 ltac:(lia)) as Hb'.
  exists (list_to_set (take a shuffled)),
    (list_to_set (drop a (take b shuffled))),
    (list_to_set (drop b shuffled)).
  split.
  { unfold Convert.splits. fold ids. rewrite Hsh. cbn [res_bind].
    rewrite Hlen, int_scaled_0_8, int_scaled_0_9 by exact Hn.
    cbn [res_bind]. unfold Convert.slice. reflexivity. }
  rewrite !list_to_set_empty_iff, !length_drop, !length_take, Hlen.
  unfold a, b. clear - Ha Ha' Hb Hb'. repeat split; lia.
Qed.

Lemma splits_of_small_manifests_witness :
  exists train val test : gset Z,
    Convert.splits nat sample_seed sample_randbelow one_image_manifest 0%nat
      = Ok (train, val, test) /\
    (train = ∅ <-> (1 <= 1)%nat) /\
    (val = ∅ <-> (1 <= 5)%nat) /\
    (test = ∅ <-> 1%nat = 0%nat).
Proof.
  apply (splits_of_small_manifests nat sample_seed sample_randbelow
           one_image_manifest 0%nat).
  - intros g n Hn. unfold sample_randbelow. cbn [fst].
    apply Nat.mod_upper_bound. lia.
  - vm_compute. reflexivity.
Defined.

(** ** Label files that collide *)



(** ** Errors in the loop *)
Section LoopErrors.

Variable ROOT : string.



End LoopErrors.



(** ** Sizes read from the image file *)

(** X21. When the manifest gives no usable size for an image (a side is
    absent or zero), the turn of the loop reads the size of the copy it
    has just made: it does what it would do had the manifest given the
    size of the source file. *)
Theorem size_read_from_copy (ROOT : string) (train_ids val_ids : gset Z)
    (anns_by_image : gmap Z (list Convert.Annotation))
    (st : Convert.State) (img : Convert.ImageRecord) (w h : Z) (data : N) :
  Convert.fs st !! joinpath (Convert.RAW ROOT) (Convert.file_name img)
    = Some (Convert.ImageFile (w, h) data) ->
  size_unknown img = true ->
  Convert.convert_image ROOT train_ids val_ids anns_by_image st img
    = Convert.convert_image ROOT train_ids val_ids anns_by_image st
        (with_size img w h).
Proof.
  intros Hsrc Hunknown. unfold size_unknown in Hunknown.
  unfold Convert.convert_image. cbv zeta.
  cbn [with_size Convert.id Convert.file_name Convert.width Convert.height].
  rewrite Hsrc, Hunknown.
  unfold Convert.image_size. rewrite (lookup_insert_eq (M:=gmap string)).
  destruct (Convert.falsy (Some w) || Convert.falsy (Some h)); reflexivity.
Qed.

Lemma size_read_from_copy_witness :
  Convert.convert_image "R" ∅ ∅ {[ 1 := [sample_annotation 3] ]}
    sample_state unsized_image
  = Convert.convert_image "R" ∅ ∅ {[ 1 := [sample_annotation 3] ]}
      sample_state (with_size unsized_image 100 200).
Proof.
  apply (size_read_from_copy "R" ∅ ∅ {[ 1 := [sample_annotation 3] ]}
           sample_state unsized_image 100 200 5).
  - vm_compute. reflexivity.
  - reflexivity.
Defined.
